(** * Renovation-journey state machine: checkpoint extraction, milestone
      completion and prompt selection

    A shallow embedding of the core of the guided-conversation backend
    ([app/crud.py], [app/chat/sentinel_functions.py], [app/chat/sentinel.py],
    [app/chat/handler.py], [app/chat/prompts.py]) and the properties of its
    milestone/checkpoint state machine.

    Modelling conventions.
    - The [renovation_journeys] table of a database session is a finite map
      from primary key to row ([gmap Z RenovationJourney]).
    - A journey object handed to a function is a snapshot of a row; where a
      function is meant to receive the session's live row, the statement
      carries the hypothesis [db !! id j = Some j].
    - [Sentinel.analyze] returns the object it compares, so there the
      journey is an object: the session's own object for a primary key
      ([Live]), whose attributes are the row's and which the tool handlers
      write to, or an object the session does not manage ([Detached]).
    - [datetime.datetime.utcnow()] is an explicit argument (one per call site).
    - Python text is a [string] of ASCII characters; [None] is [option]'s
      [None]; truthiness of an optional text is [truthy].
    - Exceptions are those of class [Exception], in an explicit [Outcome];
      the pure database operations of [crud] do not fail, failures are
      injected where [Sentinel.analyze] talks to the outside (attribute
      reads before the model call, model call, commit, re-fetch, and the
      read of [journey.id] in its outer handler). *)

From Stdlib Require Import ZArith String Ascii List Bool Lia.
From stdpp Require Import base option gmap strings.
Import ListNotations.

Local Open Scope string_scope.
Local Open Scope Z_scope.

(* ===================================================================== *)
(** ** Python text primitives *)
(* ===================================================================== *)

Module PyStr.

(** [c] is one of ASCII [A]..[Z]. *)
Definition is_upper (c : ascii) : bool :=
  let n := nat_of_ascii c in (Nat.leb 65 n) && (Nat.leb n 90).

Definition lower_char (c : ascii) : ascii :=
  if is_upper c then ascii_of_nat (nat_of_ascii c + 32) else c.

(** [str.lower()] on ASCII text. *)
Fixpoint lower (s : string) : string :=
  match s with
  | EmptyString => EmptyString
  | String c t => String (lower_char c) (lower t)
  end.

(** [str.isspace()] for one ASCII character: TAB, LF, VT, FF, CR,
    FS, GS, RS, US and SPACE. *)
Definition is_space (c : ascii) : bool :=
  let n := nat_of_ascii c in
  ((Nat.leb 9 n) && (Nat.leb n 13)) || ((Nat.leb 28 n) && (Nat.leb n 32)).

Fixpoint lstrip (s : string) : string :=
  match s with
  | EmptyString => EmptyString
  | String c t => if is_space c then lstrip t else s
  end.

Fixpoint rstrip (s : string) : string :=
  match s with
  | EmptyString => EmptyString
  | String c t =>
      match rstrip t with
      | EmptyString => if is_space c then EmptyString else String c EmptyString
      | t' => String c t'
      end
  end.

(** [str.strip()]. *)
Definition strip (s : string) : string := rstrip (lstrip s).

(** [needle in hay] on text: substring test. *)
Fixpoint contains (needle hay : string) : bool :=
  String.prefix needle hay ||
  match hay with
  | EmptyString => false
  | String _ t => contains needle t
  end.

(** Truthiness of an optional text: [None] and the empty text are falsy. *)
Definition truthy (v : option string) : bool :=
  match v with
  | None => false
  | Some s => negb (String.eqb s "")
  end.

(** [x in xs] for a list of texts. *)
Definition mem (x : string) (xs : list string) : bool :=
  existsb (String.eqb x) xs.

End PyStr.

(* ===================================================================== *)
(** ** app/schemas.py: the journey row *)
(* ===================================================================== *)

(** Values assigned through [setattr] from an update dictionary. *)
Inductive PyVal : Type :=
| PyNone
| PyStr (s : string)
| PyBool (b : bool)
| PyInt (z : Z)
| PyTime (t : Z).

Module schemas.

Record RenovationJourney : Type := mkJourney {
  id : Z;
  user_id : Z;
  current_milestone : Z;
  status : string;
  room : option string;
  renovation_purpose : option string;
  milestone1_completed : bool;
  milestone1_completed_at : option Z;
  budget_range : option string;
  timeline : option string;
  milestone2_completed : bool;
  milestone2_completed_at : option Z;
  style_preference : option string;
  priority_feature : option string;
  milestone3_completed : bool;
  milestone3_completed_at : option Z;
  created_at : Z;
  updated_at : Z
}.

(** The row [RenovationJourney(user_id=..., current_milestone=1,
    status="in_progress")] with the column defaults. *)
Definition new_journey (pk uid now : Z) : RenovationJourney :=
  {| id := pk; user_id := uid; current_milestone := 1; status := "in_progress";
     room := None; renovation_purpose := None;
     milestone1_completed := false; milestone1_completed_at := None;
     budget_range := None; timeline := None;
     milestone2_completed := false; milestone2_completed_at := None;
     style_preference := None; priority_feature := None;
     milestone3_completed := false; milestone3_completed_at := None;
     created_at := now; updated_at := now |}.

(** An optional text column receives a text or [None]. *)
Definition as_text (v : PyVal) (old : option string) : option string :=
  match v with
  | PyNone => None
  | PyStr s => Some s
  | _ => old
  end.

Definition as_flag (v : PyVal) (old : bool) : bool :=
  match v with PyBool b => b | _ => old end.

Definition as_stamp (v : PyVal) (old : option Z) : option Z :=
  match v with PyNone => None | PyTime t => Some t | _ => old end.

(** [setattr(db_journey, key, value)] guarded by [hasattr(db_journey, key)],
    column by column; a key that names no column, or a value the column's
    type excludes, leaves the row as it is. The primary key [id] is never
    assigned by the modelled callers and has no case: the definition is
    the code's [setattr] for keys other than [id] and values of the
    column's type ([column_accepts] below). *)
Definition setattr (j : RenovationJourney) (key : string) (v : PyVal)
  : RenovationJourney :=
  let '(mkJourney i u cm st r rp m1 m1a b t m2 m2a s p m3 m3a ca ua) := j in
  if String.eqb key "current_milestone" then
    mkJourney i u (match v with PyInt z => z | _ => cm end)
              st r rp m1 m1a b t m2 m2a s p m3 m3a ca ua
  else if String.eqb key "status" then
    mkJourney i u cm (match v with PyStr x => x | _ => st end)
              r rp m1 m1a b t m2 m2a s p m3 m3a ca ua
  else if String.eqb key "room" then
    mkJourney i u cm st (as_text v r) rp m1 m1a b t m2 m2a s p m3 m3a ca ua
  else if String.eqb key "renovation_purpose" then
    mkJourney i u cm st r (as_text v rp) m1 m1a b t m2 m2a s p m3 m3a ca ua
  else if String.eqb key "milestone1_completed" then
    mkJourney i u cm st r rp (as_flag v m1) m1a b t m2 m2a s p m3 m3a ca ua
  else if String.eqb key "milestone1_completed_at" then
    mkJourney i u cm st r rp m1 (as_stamp v m1a) b t m2 m2a s p m3 m3a ca ua
  else if String.eqb key "budget_range" then
    mkJourney i u cm st r rp m1 m1a (as_text v b) t m2 m2a s p m3 m3a ca ua
  else if String.eqb key "timeline" then
    mkJourney i u cm st r rp m1 m1a b (as_text v t) m2 m2a s p m3 m3a ca ua
  else if String.eqb key "milestone2_completed" then
    mkJourney i u cm st r rp m1 m1a b t (as_flag v m2) m2a s p m3 m3a ca ua
  else if String.eqb key "milestone2_completed_at" then
    mkJourney i u cm st r rp m1 m1a b t m2 (as_stamp v m2a) s p m3 m3a ca ua
  else if String.eqb key "style_preference" then
    mkJourney i u cm st r rp m1 m1a b t m2 m2a (as_text v s) p m3 m3a ca ua
  else if String.eqb key "priority_feature" then
    mkJourney i u cm st r rp m1 m1a b t m2 m2a s (as_text v p) m3 m3a ca ua
  else if String.eqb key "milestone3_completed" then
    mkJourney i u cm st r rp m1 m1a b t m2 m2a s p (as_flag v m3) m3a ca ua
  else if String.eqb key "milestone3_completed_at" then
    mkJourney i u cm st r rp m1 m1a b t m2 m2a s p m3 (as_stamp v m3a) ca ua
  else if String.eqb key "updated_at" then
    mkJourney i u cm st r rp m1 m1a b t m2 m2a s p m3 m3a ca
              (match v with PyTime x => x | _ => ua end)
  else if String.eqb key "created_at" then
    mkJourney i u cm st r rp m1 m1a b t m2 m2a s p m3 m3a
              (match v with PyTime x => x | _ => ca end) ua
  else if String.eqb key "user_id" then
    mkJourney i (match v with PyInt z => z | _ => u end)
              cm st r rp m1 m1a b t m2 m2a s p m3 m3a ca ua
  else j.

(** [getattr(journey, field)] for the six checkpoint columns. *)
Definition getattr (j : RenovationJourney) (field : string) : option string :=
  if String.eqb field "room" then room j
  else if String.eqb field "renovation_purpose" then renovation_purpose j
  else if String.eqb field "budget_range" then budget_range j
  else if String.eqb field "timeline" then timeline j
  else if String.eqb field "style_preference" then style_preference j
  else if String.eqb field "priority_feature" then priority_feature j
  else None.

End schemas.

Import schemas.

(** An update dictionary, in insertion order. *)
Abbreviation UpdateData := (list (string * PyVal)).

(** The [renovation_journeys] table of a session, by primary key. *)
Abbreviation Session := (gmap Z RenovationJourney).

(* ===================================================================== *)
(** ** app/crud.py *)
(* ===================================================================== *)

Module crud.

(** [crud.create_journey]: a fresh row under a primary key the table does
    not use yet. *)
Definition create_journey (now : Z) (db : Session) (pk uid : Z)
  : RenovationJourney * Session :=
  let db_journey := new_journey pk uid now in
  (db_journey, <[pk := db_journey]> db).

Definition get_journey (db : Session) (journey_id : Z)
  : option RenovationJourney :=
  db !! journey_id.

(** The loop [for key, value in update_data.items(): setattr(...)]. *)
Definition apply_items (j : RenovationJourney) (update_data : UpdateData)
  : RenovationJourney :=
  fold_left (fun acc kv => setattr acc (fst kv) (snd kv)) update_data j.

(** [crud.update_journey(db, journey_id, journey_data)]; [now] is the
    reading of the clock for [updated_at]. *)
Definition update_journey (now : Z) (db : Session) (journey_id : Z)
           (journey_data : UpdateData)
  : option RenovationJourney * Session :=
  match get_journey db journey_id with
  | None => (None, db)
  | Some db_journey =>
      let db_journey := apply_items db_journey journey_data in
      let db_journey := setattr db_journey "updated_at" (PyTime now) in
      (Some db_journey, <[journey_id := db_journey]> db)
  end.

(** The [update_data] built by the current-milestone completion check; the
    same body is written out in [crud.check_milestone_completion],
    [Sentinel._check_milestone_completion],
    [JourneyHandler._check_milestone_completion] and the journeys router. *)
Definition completion_update_data (j : RenovationJourney) (stamp : Z)
  : UpdateData :=
  if (current_milestone j =? 1) && negb (milestone1_completed j) then
    if PyStr.truthy (room j) && PyStr.truthy (renovation_purpose j) then
      [("milestone1_completed", PyBool true);
       ("milestone1_completed_at", PyTime stamp)]
    else []
  else if (current_milestone j =? 2) && negb (milestone2_completed j) then
    if PyStr.truthy (budget_range j) && PyStr.truthy (timeline j) then
      [("milestone2_completed", PyBool true);
       ("milestone2_completed_at", PyTime stamp)]
    else []
  else if (current_milestone j =? 3) && negb (milestone3_completed j) then
    if PyStr.truthy (style_preference j) && PyStr.truthy (priority_feature j) then
      [("milestone3_completed", PyBool true);
       ("milestone3_completed_at", PyTime stamp);
       ("status", PyStr "completed")]
    else []
  else [].

(** [crud.check_milestone_completion(db, journey_id)]. *)
Definition check_milestone_completion (stamp now : Z) (db : Session)
           (journey_id : Z)
  : option RenovationJourney * Session :=
  match get_journey db journey_id with
  | None => (None, db)
  | Some db_journey =>
      match completion_update_data db_journey stamp with
      | [] => (Some db_journey, db)
      | update_data => update_journey now db journey_id update_data
      end
  end.

End crud.

(** Exceptions of class [Exception] that the modelled code meets. *)
Inductive PyException : Type :=
| SQLAlchemyError (msg : string)
| OpenAIError (msg : string)
| AttributeError (msg : string).

(* ===================================================================== *)
(** ** app/chat/sentinel_functions.py *)
(* ===================================================================== *)

Module sentinel_functions.

(** The dictionaries the tool handler returns. *)
Inductive ToolResult : Type :=
| MissingJourneyId
| MissingArguments
| InvalidCheckpointName (checkpoint_name : string) (valid : list string)
| JourneyNotFound (journey_id : Z)
| Failed (e : PyException)
| Updated (checkpoint_name value : string) (journey_id : Z).

Definition valid_checkpoints : list string :=
  ["room"; "renovation_purpose"; "budget_range";
   "timeline"; "style_preference"; "priority_feature"].

(** The [update_data] and [highest_completed_milestone] that
    [update_milestone] computes from the journey it is given. *)
Definition milestone_update_data (updated_journey : RenovationJourney)
           (current_time : Z) : UpdateData :=
  let update_data : UpdateData := [] in
  let highest_completed_milestone := 0 in
  (* Check Milestone 1 completion *)
  let milestone1_complete :=
    PyStr.truthy (room updated_journey)
    && PyStr.truthy (renovation_purpose updated_journey) in
  let '(update_data, highest_completed_milestone) :=
    if milestone1_complete && negb (milestone1_completed updated_journey) then
      (app update_data [("milestone1_completed", PyBool true);
                       ("milestone1_completed_at", PyTime current_time)], 1)
    else if milestone1_complete then (update_data, 1)
    else (update_data, highest_completed_milestone) in
  (* Check Milestone 2 completion *)
  let milestone2_complete :=
    PyStr.truthy (budget_range updated_journey)
    && PyStr.truthy (timeline updated_journey) in
  let '(update_data, highest_completed_milestone) :=
    if milestone2_complete && negb (milestone2_completed updated_journey) then
      (app update_data [("milestone2_completed", PyBool true);
                       ("milestone2_completed_at", PyTime current_time)], 2)
    else if milestone2_complete then (update_data, 2)
    else (update_data, highest_completed_milestone) in
  (* Check Milestone 3 completion *)
  let milestone3_complete :=
    PyStr.truthy (style_preference updated_journey)
    && PyStr.truthy (priority_feature updated_journey) in
  let '(update_data, highest_completed_milestone) :=
    if milestone3_complete && negb (milestone3_completed updated_journey) then
      (app update_data [("milestone3_completed", PyBool true);
                       ("milestone3_completed_at", PyTime current_time);
                       ("status", PyStr "completed")], 3)
    else if milestone3_complete then (update_data, 3)
    else (update_data, highest_completed_milestone) in
  (* Update current_milestone if needed *)
  if highest_completed_milestone <? 3 then
    let next_milestone := highest_completed_milestone + 1 in
    if current_milestone updated_journey <? next_milestone then
      app update_data [("current_milestone", PyInt next_milestone)]
    else update_data
  else update_data.

(** [update_milestone(updated_journey, db)]: [current_time] is the clock
    reading stamped on the flags, [now] the one [crud.update_journey]
    takes for [updated_at]. *)
Definition update_milestone (current_time now : Z)
           (updated_journey : RenovationJourney) (db : Session)
  : option RenovationJourney * Session :=
  match milestone_update_data updated_journey current_time with
  | [] => (Some updated_journey, db)
  | update_data => crud.update_journey now db (id updated_journey) update_data
  end.

(** The tool handler [update_journey(journey_id, checkpoint_name, value,
    db)]. [not journey_id] holds for [None] and [0]; [not checkpoint_name]
    and [not value] hold for [None] and the empty text. [clock] holds the
    three clock readings taken on the way: [crud.update_journey]'s,
    [update_milestone]'s stamp and its write. *)
Definition update_journey (clock : Z * Z * Z) (journey_id : option Z)
           (checkpoint_name value : option string) (db : Session)
  : ToolResult * Session :=
  let '(now1, current_time, now2) := clock in
  match journey_id with
  | None => (MissingJourneyId, db)
  | Some journey_id =>
      if journey_id =? 0 then (MissingJourneyId, db)
      else
        match checkpoint_name, value with
        | Some checkpoint_name, Some value =>
            if String.eqb checkpoint_name "" || String.eqb value "" then
              (MissingArguments, db)
            else if negb (PyStr.mem checkpoint_name valid_checkpoints) then
              (InvalidCheckpointName checkpoint_name valid_checkpoints, db)
            else
              match crud.get_journey db journey_id with
              | None => (JourneyNotFound journey_id, db)
              | Some journey =>
                  let update_data := [(checkpoint_name, PyStr value)] in
                  match crud.update_journey now1 db journey_id update_data with
                  | (Some updated_journey, db) =>
                      let '(_, db) :=
                        update_milestone current_time now2 updated_journey db in
                      (Updated checkpoint_name value journey_id, db)
                  | (None, db) =>
                      (* update_milestone(None, db): the attribute error is
                         caught by the handler's own [except Exception] *)
                      (Failed (AttributeError "room"), db)
                  end
              end
        | _, _ => (MissingArguments, db)
        end
  end.

End sentinel_functions.

(* ===================================================================== *)
(** ** app/chat/sentinel.py *)
(* ===================================================================== *)

Inductive Outcome (A : Type) : Type :=
| Returns (a : A)
| Raises (e : PyException).
Arguments Returns {A} a.
Arguments Raises {A} e.

(** [try: body except Exception as e: handler(e)] over a session. *)
Definition try_except {A : Type} (body : Outcome A * Session)
           (handler : PyException -> Session -> Outcome A * Session)
  : Outcome A * Session :=
  match body with
  | (Returns a, db) => (Returns a, db)
  | (Raises e, db) => handler e db
  end.

Record Message : Type := mkMessage {
  speaker : string;
  content : string;
  message_milestone : Z
}.

Module Sentinel.

(** One function call in the model's response: the parsed [args]
    ([arg_journey_id = None] when the key is absent, [Some None] when it is
    null) and the clock readings of its handler run. *)
Record ToolCall : Type := mkToolCall {
  arg_journey_id : option (option Z);
  arg_checkpoint_name : option string;
  arg_value : option string;
  call_clock : Z * Z * Z
}.

(** What the outside does during one [analyze]: whether reading the
    journey for the log lines and the system message raises, the function
    calls the model issues, whether [call_functions_with_responses] raises
    after the handlers ran, whether the commits and the re-fetch raise, and
    whether the read of [journey.id] in the outer handler raises (an
    attribute of an expired object is loaded again from the session). *)
Record Outside : Type := mkOutside {
  prologue_error : option PyException;
  llm_tool_calls : list ToolCall;
  llm_error : option PyException;
  commit_error : option PyException;
  refetch_error : option PyException;
  handler_read_error : option PyException;
  cleanup_commit_error : option PyException
}.

(** An object of class [RenovationJourney] in the hands of [analyze]. The
    session keeps one object per primary key: the object [crud.get_journey]
    returns for a key is the object a tool handler wrote to under that key
    and, in [process_message], the object passed to [analyze]. [Live] is
    that object; its attribute values are those of the row. [Detached] is
    an object the session does not manage, with attribute values of its
    own. *)
Inductive JourneyObject : Type :=
| Live (journey_id : Z)
| Detached (row : RenovationJourney).

(** [journey.id]. *)
Definition object_id (journey : JourneyObject) : Z :=
  match journey with
  | Live journey_id => journey_id
  | Detached row => id row
  end.

(** The attribute values an object shows in the current state of the
    session; [None]: the row of the session's object is gone. *)
Definition attributes (db : Session) (journey : JourneyObject)
  : option RenovationJourney :=
  match journey with
  | Live journey_id => db !! journey_id
  | Detached row => Some row
  end.

(** [_get_next_checkpoint_to_extract]: (question, checkpoint name). *)
Definition _get_next_checkpoint_to_extract (journey : RenovationJourney)
  : option string * option string :=
  if current_milestone journey =? 1 then
    if negb (PyStr.truthy (room journey)) then
      (Some "Which room do you want to renovate?", Some "room")
    else if negb (PyStr.truthy (renovation_purpose journey)) then
      (Some "What is the main purpose of your renovation?",
       Some "renovation_purpose")
    else (None, None)
  else if current_milestone journey =? 2 then
    if negb (PyStr.truthy (budget_range journey)) then
      (Some "What kind of budget do you have in mind for this renovation?",
       Some "budget_range")
    else if negb (PyStr.truthy (timeline journey)) then
      (Some "How quickly are you hoping to complete this renovation?",
       Some "timeline")
    else (None, None)
  else if current_milestone journey =? 3 then
    if negb (PyStr.truthy (style_preference journey)) then
      (Some "What style are you going for in this renovation?",
       Some "style_preference")
    else if negb (PyStr.truthy (priority_feature journey)) then
      (Some "What's the most important feature you want in your renovation?",
       Some "priority_feature")
    else (None, None)
  else (None, None).

Definition _get_valid_checkpoints_for_milestone (milestone : Z) : list string :=
  if milestone =? 1 then ["room"; "renovation_purpose"]
  else if milestone =? 2 then ["budget_range"; "timeline"]
  else if milestone =? 3 then ["style_preference"; "priority_feature"]
  else [].

(** [a in value or b in value or ...]. *)
Definition any_in (keywords : list string) (value : string) : bool :=
  existsb (fun k => PyStr.contains k value) keywords.

(** [for w in words: if w in value: return w]. *)
Fixpoint first_in (words : list string) (value : string) : option string :=
  match words with
  | [] => None
  | w :: rest => if PyStr.contains w value then Some w else first_in rest value
  end.

Definition valid_rooms : list string :=
  ["kitchen"; "bathroom"; "bedroom"; "living room"; "dining room";
   "basement"; "attic"; "office"; "master bedroom"; "guest bedroom";
   "den"; "family room"; "laundry room"; "utility room"; "garage"].

Definition valid_purposes : list string :=
  ["aesthetic"; "functional"; "repair"; "modernize"; "expand space"].

(** The keyword lists of the [or] chains of [_validate_checkpoint_value],
    in the order the chains test them. *)
Definition budget_low : list string :=
  ["low"; "cheap"; "afford"; "budget"; "inexpens"].
Definition budget_medium : list string :=
  ["medium"; "moderate"; "reasonable"; "mid"].
Definition budget_high : list string :=
  ["high"; "expens"; "premium"; "luxury"].

Definition timeline_weeks : list string :=
  ["quick"; "fast"; "soon"; "week"; "day"; "asap"].
Definition timeline_months : list string :=
  ["slow"; "month"; "time"; "no rush"; "not urgent"].

Definition style_modern : list string :=
  ["modern"; "contemporary"; "sleek"; "clean"].
Definition style_traditional : list string :=
  ["tradition"; "classic"; "conventional"].
Definition style_rustic : list string :=
  ["rustic"; "country"; "farmhouse"; "cabin"; "wood"].
Definition style_minimalist : list string :=
  ["minimal"; "simple"; "clean"].
Definition style_contemporary : list string :=
  ["contemp"; "current"].

Definition feature_storage : list string :=
  ["storage"; "cabinet"; "space"; "organization"].
Definition feature_lighting : list string :=
  ["light"; "bright"; "dark"; "window"].
Definition feature_space : list string :=
  ["space"; "room"; "area"; "open"].
Definition feature_energy : list string :=
  ["energy"; "efficient"; "eco"; "green"].
Definition feature_smart : list string :=
  ["smart"; "tech"; "automation"; "device"].

(** [_validate_checkpoint_value(checkpoint, value)]. *)
Definition _validate_checkpoint_value (checkpoint value : string) : string :=
  let value := PyStr.lower (PyStr.strip value) in
  if String.eqb checkpoint "room" then
    match first_in valid_rooms value with
    | Some room => room
    | None => value
    end
  else if String.eqb checkpoint "renovation_purpose" then
    match first_in valid_purposes value with
    | Some purpose => purpose
    | None =>
        if any_in ["look"; "appearanc"; "beaut"] value then "aesthetic"
        else if any_in ["use"; "practi"; "utili"] value then "functional"
        else if any_in ["fix"; "broke"; "damage"] value then "repair"
        else if any_in ["updat"; "renew"; "fresh"] value then "modernize"
        else if any_in ["more room"; "bigger"; "larger"] value then "expand space"
        else value
    end
  else if String.eqb checkpoint "budget_range" then
    if any_in budget_low value then "low"
    else if any_in budget_medium value then "medium"
    else if any_in budget_high value then "high"
    else "medium"
  else if String.eqb checkpoint "timeline" then
    if any_in timeline_weeks value then "weeks"
    else if any_in timeline_months value then "months"
    else "months"
  else if String.eqb checkpoint "style_preference" then
    if any_in style_modern value then "modern"
    else if any_in style_traditional value then "traditional"
    else if any_in style_rustic value then "rustic"
    else if any_in style_minimalist value then "minimalist"
    else if any_in style_contemporary value then "contemporary"
    else "modern"
  else if String.eqb checkpoint "priority_feature" then
    if any_in feature_storage value then "storage"
    else if any_in feature_lighting value then "lighting"
    else if any_in feature_space value then "space"
    else if any_in feature_energy value then "energy efficiency"
    else if any_in feature_smart value then "smart features"
    else "space"
  else value.

(** The categories [_get_checkpoint_specific_guidance] names for the four
    checkpoints with a closed vocabulary. *)
Definition canonical_values (checkpoint : string) : list string :=
  if String.eqb checkpoint "budget_range" then ["low"; "medium"; "high"]
  else if String.eqb checkpoint "timeline" then ["weeks"; "months"]
  else if String.eqb checkpoint "style_preference" then
    ["modern"; "traditional"; "rustic"; "minimalist"; "contemporary"]
  else if String.eqb checkpoint "priority_feature" then
    ["storage"; "lighting"; "space"; "energy efficiency"; "smart features"]
  else [].

(** [_check_milestone_completion(journey)]: the effect on the session. *)
Definition _check_milestone_completion (stamp now : Z)
           (journey : RenovationJourney) (db : Session) : Session :=
  match crud.completion_update_data journey stamp with
  | [] => db
  | update_data => snd (crud.update_journey now db (id journey) update_data)
  end.

Definition opt_text_eqb (a b : option string) : bool :=
  match a, b with
  | None, None => true
  | Some x, Some y => String.eqb x y
  | _, _ => false
  end.

(** [_journey_was_updated(original, updated)]. *)
Definition _journey_was_updated (original updated : RenovationJourney) : bool :=
  existsb (fun field =>
             negb (opt_text_eqb (getattr original field) (getattr updated field)))
          ["room"; "renovation_purpose"; "budget_range";
           "timeline"; "style_preference"; "priority_feature"]
  || negb (Bool.eqb (milestone1_completed original) (milestone1_completed updated))
  || negb (Bool.eqb (milestone2_completed original) (milestone2_completed updated))
  || negb (Bool.eqb (milestone3_completed original) (milestone3_completed updated))
  || negb (current_milestone original =? current_milestone updated)
  || negb (String.eqb (status original) (status updated)).

(** The handler the model's calls are routed to:
    [update_journey(journey_id=args.get("journey_id", journey.id), ...)]. *)
Definition handle_call (journey : RenovationJourney) (db : Session)
           (call : ToolCall) : Session :=
  snd (sentinel_functions.update_journey
         (call_clock call)
         (match arg_journey_id call with
          | Some journey_id => journey_id
          | None => Some (id journey)
          end)
         (arg_checkpoint_name call) (arg_value call) db).

(** The same handler for a journey given as an object. *)
Definition handle_object_call (journey : JourneyObject) (db : Session)
           (call : ToolCall) : Session :=
  snd (sentinel_functions.update_journey
         (call_clock call)
         (match arg_journey_id call with
          | Some journey_id => journey_id
          | None => Some (object_id journey)
          end)
         (arg_checkpoint_name call) (arg_value call) db).

(** [openai_client.call_functions_with_responses]: the handlers of the
    issued calls run in order, then the call returns or raises. *)
Definition call_functions_with_responses (out : Outside)
           (journey : JourneyObject) (db : Session)
  : Outcome unit * Session :=
  let db := fold_left (handle_object_call journey) (llm_tool_calls out) db in
  match llm_error out with
  | Some e => (Raises e, db)
  | None => (Returns tt, db)
  end.

(** [self.db.commit()]. *)
Definition commit (failure : option PyException) (db : Session)
  : Outcome unit * Session :=
  match failure with
  | Some e => (Raises e, db)
  | None => (Returns tt, db)
  end.

(** [crud.get_journey(self.db, journey.id)] as an object: the session's
    object for the key. *)
Definition get_journey_object (db : Session) (journey_id : Z)
  : option JourneyObject :=
  match crud.get_journey db journey_id with
  | Some _ => Some (Live journey_id)
  | None => None
  end.

(** [self._journey_was_updated(journey, updated_journey)] on objects: both
    are read in the same state of the session; [getattr(None, ...)] raises. *)
Definition compare_objects (db : Session) (original : JourneyObject)
           (updated : option JourneyObject) : Outcome bool :=
  match attributes db original with
  | None => Raises (SQLAlchemyError "ObjectDeletedError")
  | Some original_row =>
      match updated with
      | None => Raises (AttributeError "room")
      | Some updated =>
          match attributes db updated with
          | None => Raises (SQLAlchemyError "ObjectDeletedError")
          | Some updated_row =>
              Returns (_journey_was_updated original_row updated_row)
          end
      end
  end.

(** The body of the outer [try] of [analyze]. *)
Definition analyze_try (out : Outside) (journey : JourneyObject)
           (recent_messages : list Message) (db : Session)
  : Outcome JourneyObject * Session :=
  match prologue_error out with
  | Some e => (Raises e, db)
  | None =>
      (* inner try/except around the model call: the error is logged *)
      let '(_, db) :=
        try_except (call_functions_with_responses out journey db)
                   (fun _ db => (Returns tt, db)) in
      match commit (commit_error out) db with
      | (Raises e, db) => (Raises e, db)
      | (Returns _, db) =>
          match refetch_error out with
          | Some e => (Raises e, db)
          | None =>
              let updated_journey :=
                get_journey_object db (object_id journey) in
              match compare_objects db journey updated_journey,
                    updated_journey with
              | Raises e, _ => (Raises e, db)
              | Returns true, Some updated_journey =>
                  (Returns updated_journey, db)
              | Returns _, _ => (Returns journey, db)
              end
          end
      end
  end.

(** The outer [except Exception] of [analyze]: [journey.id] is read for the
    log outside any [try], a commit is attempted, its own failure is
    logged, and the journey passed in is returned. *)
Definition analyze_except (out : Outside) (journey : JourneyObject)
           (e : PyException) (db : Session)
  : Outcome JourneyObject * Session :=
  match handler_read_error out with
  | Some read_error => (Raises read_error, db)
  | None =>
      let '(_, db) :=
        try_except (commit (cleanup_commit_error out) db)
                   (fun _ db => (Returns tt, db)) in
      (Returns journey, db)
  end.

(** [Sentinel.analyze(journey, recent_messages)]. *)
Definition analyze (out : Outside) (journey : JourneyObject)
           (recent_messages : list Message) (db : Session)
  : Outcome JourneyObject * Session :=
  try_except (analyze_try out journey recent_messages db)
             (analyze_except out journey).

End Sentinel.

(* ===================================================================== *)
(** ** app/chat/handler.py *)
(* ===================================================================== *)

Module JourneyHandler.

(** [_get_completed_checkpoints(journey)]: the filled checkpoints of the
    current milestone. *)
Definition _get_completed_checkpoints (journey : RenovationJourney)
  : list string :=
  if current_milestone journey =? 1 then
    (if PyStr.truthy (room journey) then ["room"] else [])
    ++ (if PyStr.truthy (renovation_purpose journey)
        then ["renovation_purpose"] else [])
  else if current_milestone journey =? 2 then
    (if PyStr.truthy (budget_range journey) then ["budget_range"] else [])
    ++ (if PyStr.truthy (timeline journey) then ["timeline"] else [])
  else if current_milestone journey =? 3 then
    (if PyStr.truthy (style_preference journey) then ["style_preference"] else [])
    ++ (if PyStr.truthy (priority_feature journey)
        then ["priority_feature"] else [])
  else [].

Definition room_keywords : list (string * string) :=
  [("kitchen", "kitchen"); ("bathroom", "bathroom"); ("bedroom", "bedroom");
   ("living room", "living room"); ("basement", "basement")].

Definition purpose_keywords : list (string * string) :=
  [("aesthetic", "aesthetic"); ("functional", "functional");
   ("repair", "repair"); ("expand", "expand space"); ("modern", "modernize")].

Definition budget_keywords : list (string * string) :=
  [("cheap", "low"); ("affordable", "low"); ("reasonable", "medium");
   ("mid", "medium"); ("expensive", "high"); ("luxury", "high")].

Definition timeline_keywords : list (string * string) :=
  [("quick", "weeks"); ("fast", "weeks"); ("soon", "weeks");
   ("month", "months"); ("long", "months")].

Definition style_keywords : list (string * string) :=
  [("modern", "modern"); ("traditional", "traditional"); ("rustic", "rustic");
   ("minimalist", "minimalist"); ("contemporary", "contemporary")].

Definition feature_keywords : list (string * string) :=
  [("storage", "increased storage"); ("light", "natural lighting");
   ("space", "open space"); ("energy", "energy efficiency");
   ("smart", "smart home features")].

(** [for keyword, value in keywords.items():
       if keyword in message_lower and not field: update_data[key] = value; break] *)
Fixpoint scan (keywords : list (string * string)) (message_lower : string)
         (field : option string) (key : string) : UpdateData :=
  match keywords with
  | [] => []
  | (keyword, value) :: rest =>
      if PyStr.contains keyword message_lower && negb (PyStr.truthy field)
      then [(key, PyStr value)]
      else scan rest message_lower field key
  end.

(** The [update_data] of [_analyze_message_for_checkpoints]. *)
Definition extraction_update_data (journey : RenovationJourney)
           (message : string) : UpdateData :=
  let message_lower := PyStr.lower message in
  if current_milestone journey =? 1 then
    (scan room_keywords message_lower (room journey) "room"
     ++ scan purpose_keywords message_lower (renovation_purpose journey)
          "renovation_purpose")%list
  else if current_milestone journey =? 2 then
    (scan budget_keywords message_lower (budget_range journey) "budget_range"
     ++ scan timeline_keywords message_lower (timeline journey) "timeline")%list
  else if current_milestone journey =? 3 then
    (scan style_keywords message_lower (style_preference journey)
          "style_preference"
     ++ scan feature_keywords message_lower (priority_feature journey)
          "priority_feature")%list
  else [].

(** [_check_milestone_completion(journey)]: the effect on the session. *)
Definition _check_milestone_completion (stamp now : Z)
           (journey : RenovationJourney) (db : Session) : Session :=
  match crud.completion_update_data journey stamp with
  | [] => db
  | update_data => snd (crud.update_journey now db (id journey) update_data)
  end.

(** The extraction write of the fallback path:
    [crud.update_journey(self.db, journey.id, update_data)]. *)
Definition extraction_write (now : Z) (journey : RenovationJourney)
           (message : string) (db : Session) : Session :=
  match extraction_update_data journey message with
  | [] => db
  | update_data => snd (crud.update_journey now db (id journey) update_data)
  end.

(** [_analyze_message_for_checkpoints(journey, message)]; [clock] holds the
    readings for the extraction write, the completion stamp and the
    completion write. *)
Definition _analyze_message_for_checkpoints (clock : Z * Z * Z)
           (journey : RenovationJourney) (message : string) (db : Session)
  : option RenovationJourney * Session :=
  let '(now1, stamp, now2) := clock in
  match extraction_update_data journey message with
  | [] => (Some journey, db)
  | _ =>
      let db := extraction_write now1 journey message db in
      match crud.get_journey db (id journey) with
      | None => (None, db)
      | Some updated_journey =>
          let db := _check_milestone_completion stamp now2 updated_journey db in
          (crud.get_journey db (id journey), db)
      end
  end.

End JourneyHandler.

(* ===================================================================== *)
(** ** app/chat/prompts.py *)
(* ===================================================================== *)

Module prompts.

(** The prompt templates of the module; [DEFAULT_PROMPT] is the literal at
    the end of [get_prompt_for_journey]. *)
Inductive Template : Type :=
| MILESTONE_1_INTRO | MILESTONE_1_ROOM_KNOWN
| MILESTONE_1_PURPOSE_KNOWN | MILESTONE_1_COMPLETE
| MILESTONE_2_INTRO | MILESTONE_2_BUDGET_KNOWN
| MILESTONE_2_TIMELINE_KNOWN | MILESTONE_2_COMPLETE
| MILESTONE_3_INTRO | MILESTONE_3_STYLE_KNOWN
| MILESTONE_3_FEATURE_KNOWN | MILESTONE_3_COMPLETE
| JOURNEY_COMPLETE
| DEFAULT_PROMPT.

(** A selected template with the keyword arguments of its [.format(...)]:
    journey fields by name, the [context] mapping, and the
    [completed_checkpoints] list where the call passes it. *)
Record Prompt (Context : Type) : Type := mkPrompt {
  template : Template;
  fields : list (string * option string);
  context_arg : Context;
  completed_checkpoints_arg : option (list string)
}.
Arguments mkPrompt {Context} _ _ _ _.
Arguments template {Context} _.
Arguments fields {Context} _.
Arguments context_arg {Context} _.
Arguments completed_checkpoints_arg {Context} _.

Definition get_prompt_for_journey {Context : Type}
           (journey : RenovationJourney) (context : Context)
           (completed_checkpoints : list string) : Prompt Context :=
  let known name := PyStr.mem name completed_checkpoints in
  if String.eqb (status journey) "completed" then
    mkPrompt JOURNEY_COMPLETE
      [("room", room journey);
       ("renovation_purpose", renovation_purpose journey);
       ("budget_range", budget_range journey);
       ("timeline", timeline journey);
       ("style_preference", style_preference journey);
       ("priority_feature", priority_feature journey)]
      context None
  else if current_milestone journey =? 1 then
    if milestone1_completed journey then
      mkPrompt MILESTONE_1_COMPLETE
        [("room", room journey);
         ("renovation_purpose", renovation_purpose journey)]
        context (Some completed_checkpoints)
    else if known "room" && negb (known "renovation_purpose") then
      mkPrompt MILESTONE_1_ROOM_KNOWN
        [("room", room journey)] context (Some completed_checkpoints)
    else if known "renovation_purpose" && negb (known "room") then
      mkPrompt MILESTONE_1_PURPOSE_KNOWN
        [("renovation_purpose", renovation_purpose journey)]
        context (Some completed_checkpoints)
    else
      mkPrompt MILESTONE_1_INTRO [] context (Some completed_checkpoints)
  else if current_milestone journey =? 2 then
    if milestone2_completed journey then
      mkPrompt MILESTONE_2_COMPLETE
        [("room", room journey);
         ("renovation_purpose", renovation_purpose journey);
         ("budget_range", budget_range journey);
         ("timeline", timeline journey)]
        context (Some completed_checkpoints)
    else if known "budget_range" && negb (known "timeline") then
      mkPrompt MILESTONE_2_BUDGET_KNOWN
        [("room", room journey); ("budget_range", budget_range journey)]
        context (Some completed_checkpoints)
    else if known "timeline" && negb (known "budget_range") then
      mkPrompt MILESTONE_2_TIMELINE_KNOWN
        [("room", room journey); ("timeline", timeline journey)]
        context (Some completed_checkpoints)
    else
      mkPrompt MILESTONE_2_INTRO
        [("room", room journey);
         ("renovation_purpose", renovation_purpose journey)]
        context (Some completed_checkpoints)
  else if current_milestone journey =? 3 then
    if milestone3_completed journey then
      mkPrompt MILESTONE_3_COMPLETE
        [("room", room journey);
         ("renovation_purpose", renovation_purpose journey);
         ("budget_range", budget_range journey);
         ("timeline", timeline journey);
         ("style_preference", style_preference journey);
         ("priority_feature", priority_feature journey)]
        context (Some completed_checkpoints)
    else if known "style_preference" && negb (known "priority_feature") then
      mkPrompt MILESTONE_3_STYLE_KNOWN
        [("room", room journey);
         ("style_preference", style_preference journey)]
        context (Some completed_checkpoints)
    else if known "priority_feature" && negb (known "style_preference") then
      mkPrompt MILESTONE_3_FEATURE_KNOWN
        [("room", room journey);
         ("priority_feature", priority_feature journey)]
        context (Some completed_checkpoints)
    else
      mkPrompt MILESTONE_3_INTRO
        [("room", room journey);
         ("renovation_purpose", renovation_purpose journey);
         ("budget_range", budget_range journey);
         ("timeline", timeline journey)]
        context (Some completed_checkpoints)
  else
    mkPrompt DEFAULT_PROMPT [] context None.

End prompts.

(* ===================================================================== *)
(** ** Specification-side definitions *)
(* ===================================================================== *)

(** [key] is one of the six checkpoint columns. *)
Definition is_checkpoint (key : string) : bool :=
  PyStr.mem key sentinel_functions.valid_checkpoints.

(** The update dictionary names no checkpoint column. *)
Definition flag_keys (data : UpdateData) : Prop :=
  Forall (fun kv => is_checkpoint (fst kv) = false) data.

Module NormalizerSpec.

(** The normalizer as the specification words it: the candidate categories
    of a checkpoint are tried in a fixed order, the first one with a
    keyword occurring in the text wins, and a default applies when none
    does. *)
Fixpoint first_category (rules : list (list string * string))
         (default_value text : string) : string :=
  match rules with
  | [] => default_value
  | (keywords, category) :: rest =>
      if Sentinel.any_in keywords text then category
      else first_category rest default_value text
  end.

Definition rules (checkpoint : string) : list (list string * string) :=
  if String.eqb checkpoint "budget_range" then
    [(Sentinel.budget_low, "low"); (Sentinel.budget_medium, "medium");
     (Sentinel.budget_high, "high")]
  else if String.eqb checkpoint "timeline" then
    [(Sentinel.timeline_weeks, "weeks"); (Sentinel.timeline_months, "months")]
  else if String.eqb checkpoint "style_preference" then
    [(Sentinel.style_modern, "modern");
     (Sentinel.style_traditional, "traditional");
     (Sentinel.style_rustic, "rustic");
     (Sentinel.style_minimalist, "minimalist");
     (Sentinel.style_contemporary, "contemporary")]
  else if String.eqb checkpoint "priority_feature" then
    [(Sentinel.feature_storage, "storage");
     (Sentinel.feature_lighting, "lighting");
     (Sentinel.feature_space, "space");
     (Sentinel.feature_energy, "energy efficiency");
     (Sentinel.feature_smart, "smart features")]
  else [].

(** The documented defaults. *)
Definition default_value (checkpoint : string) : string :=
  if String.eqb checkpoint "budget_range" then "medium"
  else if String.eqb checkpoint "timeline" then "months"
  else if String.eqb checkpoint "style_preference" then "modern"
  else if String.eqb checkpoint "priority_feature" then "space"
  else "".

Definition constrained : list string :=
  ["budget_range"; "timeline"; "style_preference"; "priority_feature"].

Definition normalize (checkpoint value : string) : string :=
  first_category (rules checkpoint) (default_value checkpoint)
                 (PyStr.lower (PyStr.strip value)).

End NormalizerSpec.

(** No keyword of any category of the checkpoint occurs in the normalized
    text. *)
Definition unmatched (checkpoint value : string) : Prop :=
  forall keywords category,
    In (keywords, category) (NormalizerSpec.rules checkpoint) ->
    Sentinel.any_in keywords (PyStr.lower (PyStr.strip value)) = false.

Module PromptSpec.
Import prompts.

(** One milestone of the selector's priority tree: its completion flag,
    its checkpoints A and B, and its four templates. *)
Record Branch : Type := mkBranch {
  flag : RenovationJourney -> bool;
  checkpoint_A : string;
  checkpoint_B : string;
  when_complete : Template;
  when_A_known : Template;
  when_B_known : Template;
  intro : Template
}.

Definition branch (milestone : Z) : option Branch :=
  if milestone =? 1 then
    Some (mkBranch milestone1_completed "room" "renovation_purpose"
            MILESTONE_1_COMPLETE MILESTONE_1_ROOM_KNOWN
            MILESTONE_1_PURPOSE_KNOWN MILESTONE_1_INTRO)
  else if milestone =? 2 then
    Some (mkBranch milestone2_completed "budget_range" "timeline"
            MILESTONE_2_COMPLETE MILESTONE_2_BUDGET_KNOWN
            MILESTONE_2_TIMELINE_KNOWN MILESTONE_2_INTRO)
  else if milestone =? 3 then
    Some (mkBranch milestone3_completed "style_preference" "priority_feature"
            MILESTONE_3_COMPLETE MILESTONE_3_STYLE_KNOWN
            MILESTONE_3_FEATURE_KNOWN MILESTONE_3_INTRO)
  else None.

(** The priority tree in the specification's words. *)
Definition priority_tree (journey : RenovationJourney)
           (completed_checkpoints : list string) : Template :=
  if String.eqb (status journey) "completed" then JOURNEY_COMPLETE
  else
    match branch (current_milestone journey) with
    | None => DEFAULT_PROMPT
    | Some b =>
        let a_known := PyStr.mem (checkpoint_A b) completed_checkpoints in
        let b_known := PyStr.mem (checkpoint_B b) completed_checkpoints in
        if flag b journey then when_complete b
        else if a_known && negb b_known then when_A_known b
        else if b_known && negb a_known then when_B_known b
        else intro b
    end.

End PromptSpec.

(** Both checkpoints of milestone 1 (2, 3) hold an answer. *)
Definition complete1 (j : RenovationJourney) : bool :=
  PyStr.truthy (room j) && PyStr.truthy (renovation_purpose j).
Definition complete2 (j : RenovationJourney) : bool :=
  PyStr.truthy (budget_range j) && PyStr.truthy (timeline j).
Definition complete3 (j : RenovationJourney) : bool :=
  PyStr.truthy (style_preference j) && PyStr.truthy (priority_feature j).

(** The highest milestone whose two checkpoints are both filled, 0 when
    there is none. *)
Definition highest_completed (j : RenovationJourney) : Z :=
  if complete3 j then 3
  else if complete2 j then 2
  else if complete1 j then 1
  else 0.

(** Nothing is left for the stricter evaluator to do: every filled
    milestone is flagged and the current milestone is not behind. *)
Definition fully_evaluated (j : RenovationJourney) : Prop :=
  (complete1 j = true -> milestone1_completed j = true)
  /\ (complete2 j = true -> milestone2_completed j = true)
  /\ (complete3 j = true -> milestone3_completed j = true)
  /\ (highest_completed j < 3 -> highest_completed j + 1 <= current_milestone j).

(** Nothing is left for the current-milestone check to do. *)
Definition current_evaluated (j : RenovationJourney) : Prop :=
  ((current_milestone j =? 1) && complete1 j = true ->
   milestone1_completed j = true)
  /\ ((current_milestone j =? 2) && complete2 j = true ->
      milestone2_completed j = true)
  /\ ((current_milestone j =? 3) && complete3 j = true ->
      milestone3_completed j = true).

(** Two rows with the same primary key and the same six answers. *)
Record same_answers (j j' : RenovationJourney) : Prop := {
  same_id : id j' = id j;
  same_room : room j' = room j;
  same_purpose : renovation_purpose j' = renovation_purpose j;
  same_budget : budget_range j' = budget_range j;
  same_timeline : timeline j' = timeline j;
  same_style : style_preference j' = style_preference j;
  same_feature : priority_feature j' = priority_feature j
}.

(** The completion-flag invariant of one journey. *)
Definition flags_imply_filled (j : RenovationJourney) : Prop :=
  (milestone1_completed j = true ->
   room j <> None /\ renovation_purpose j <> None)
  /\ (milestone2_completed j = true ->
      budget_range j <> None /\ timeline j <> None)
  /\ (milestone3_completed j = true ->
      style_preference j <> None /\ priority_feature j <> None).

(** Every row sits under its own primary key and satisfies the flag
    invariant. *)
Definition rows_ok (db : Session) : Prop :=
  forall (k : Z) (j : RenovationJourney),
    db !! k = Some j -> id j = k /\ flags_imply_filled j.

(** Sessions reachable from the empty table by creating journeys, writing a
    non-null value to a checkpoint column, and running the completion
    evaluators on rows of the session. *)
Inductive reachable : Session -> Prop :=
| reach_empty : reachable ∅
| reach_create (db : Session) (now pk uid : Z) :
    reachable db -> db !! pk = None ->
    reachable (crud.create_journey now db pk uid).2
| reach_write (db : Session) (now journey_id : Z) (checkpoint value : string) :
    reachable db -> is_checkpoint checkpoint = true ->
    reachable (crud.update_journey now db journey_id
                                   [(checkpoint, PyStr value)]).2
| reach_check (db : Session) (stamp now journey_id : Z) :
    reachable db ->
    reachable (crud.check_milestone_completion stamp now db journey_id).2
| reach_check_sentinel (db : Session) (stamp now k : Z) (j : RenovationJourney) :
    reachable db -> db !! k = Some j ->
    reachable (Sentinel._check_milestone_completion stamp now j db)
| reach_check_handler (db : Session) (stamp now k : Z) (j : RenovationJourney) :
    reachable db -> db !! k = Some j ->
    reachable (JourneyHandler._check_milestone_completion stamp now j db)
| reach_update_milestone (db : Session) (current_time now k : Z)
                         (j : RenovationJourney) :
    reachable db -> db !! k = Some j ->
    reachable (sentinel_functions.update_milestone current_time now j db).2.

(** The checkpoint columns of a milestone, in their fixed order. *)
Definition in_current_milestone (j : RenovationJourney) (field : string) : bool :=
  PyStr.mem field
    (Sentinel._get_valid_checkpoints_for_milestone (current_milestone j)).

(** The keyword table the fallback extractor scans for a checkpoint. *)
Definition fallback_keywords (field : string) : list (string * string) :=
  if String.eqb field "room" then JourneyHandler.room_keywords
  else if String.eqb field "renovation_purpose" then JourneyHandler.purpose_keywords
  else if String.eqb field "budget_range" then JourneyHandler.budget_keywords
  else if String.eqb field "timeline" then JourneyHandler.timeline_keywords
  else if String.eqb field "style_preference" then JourneyHandler.style_keywords
  else if String.eqb field "priority_feature" then JourneyHandler.feature_keywords
  else [].

(** The value of the first keyword of a table that occurs in the text. *)
Fixpoint first_keyword (keywords : list (string * string)) (text : string)
  : option string :=
  match keywords with
  | [] => None
  | (keyword, value) :: rest =>
      if PyStr.contains keyword text then Some value
      else first_keyword rest text
  end.

(* ===================================================================== *)
(** ** Sample journeys *)
(* ===================================================================== *)

(** The session [analyze] works on after the model call. *)
Definition after_calls (out : Sentinel.Outside)
           (journey : Sentinel.JourneyObject) (db : Session) : Session :=
  match Sentinel.prologue_error out with
  | Some _ => db
  | None => fold_left (Sentinel.handle_object_call journey)
                      (Sentinel.llm_tool_calls out) db
  end.


(** The column [key] of a journey, the primary key and the foreign key
    apart, takes the value [v]: a text or null for a checkpoint, a boolean
    for a completion flag, a time or null for a completion time, an integer
    for [current_milestone], a text for [status], a time for [updated_at]
    and [created_at]. *)
Definition column_accepts (key : string) (v : PyVal) : bool :=
  if is_checkpoint key then
    match v with PyStr _ | PyNone => true | _ => false end
  else if PyStr.mem key ["milestone1_completed"; "milestone2_completed";
                         "milestone3_completed"] then
    match v with PyBool _ => true | _ => false end
  else if PyStr.mem key ["milestone1_completed_at"; "milestone2_completed_at";
                         "milestone3_completed_at"] then
    match v with PyTime _ | PyNone => true | _ => false end
  else if String.eqb key "current_milestone" then
    match v with PyInt _ => true | _ => false end
  else if String.eqb key "status" then
    match v with PyStr _ => true | _ => false end
  else if PyStr.mem key ["updated_at"; "created_at"] then
    match v with PyTime _ => true | _ => false end
  else false.

(** An update dictionary that writes columns with values of their type. *)
Definition typed_columns (data : UpdateData) : Prop :=
  Forall (fun kv => column_accepts (fst kv) (snd kv) = true) data.

Module Samples.

(** A new journey: milestone 1, in progress, every checkpoint null. *)
Definition fresh : RenovationJourney := new_journey 1 10 100.

Definition fresh_db : Session := {[ 1 := fresh ]}.

(** Milestone 1 with the room already given. *)
Definition kitchen : RenovationJourney :=
  setattr fresh "room" (PyStr "kitchen").

Definition kitchen_db : Session := {[ 1 := kitchen ]}.

(** Milestone 2 with milestone 1 closed, the budget given and both
    milestone-3 checkpoints filled ahead of time. *)
Definition ahead : RenovationJourney :=
  {| id := 1; user_id := 10; current_milestone := 2; status := "in_progress";
     room := Some "kitchen"; renovation_purpose := Some "aesthetic";
     milestone1_completed := true; milestone1_completed_at := Some 110;
     budget_range := Some "low"; timeline := None;
     milestone2_completed := false; milestone2_completed_at := None;
     style_preference := Some "modern"; priority_feature := Some "storage";
     milestone3_completed := false; milestone3_completed_at := None;
     created_at := 100; updated_at := 120 |}.

Definition ahead_db : Session := {[ 1 := ahead ]}.

Definition clock : Z * Z * Z := (201, 202, 203).

Definition call (checkpoint_name value : string) : Sentinel.ToolCall :=
  {| Sentinel.arg_journey_id := Some (Some 1);
     Sentinel.arg_checkpoint_name := Some checkpoint_name;
     Sentinel.arg_value := Some value;
     Sentinel.call_clock := clock |}.

(** Room and purpose, then the two checkpoints of milestone 3. *)
Definition four_calls : list Sentinel.ToolCall :=
  [call "room" "kitchen"; call "renovation_purpose" "aesthetic";
   call "style_preference" "modern"; call "priority_feature" "storage"].




End Samples.

(* ===================================================================== *)
(** ** app/models.py: the journey state *)
(* ===================================================================== *)

Module models.

(** [JourneyStateResponse]; [crud.get_journey_state_for_llm] returns a
    dictionary with the same four keys. *)
Record JourneyStateResponse : Type := mkJourneyState {
  has_journey : bool;
  milestone : option Z;
  completed_checkpoints : list string;
  milestone_completed : option bool
}.

End models.

(* ===================================================================== *)
(** ** app/crud.py: the other journey operations *)
(* ===================================================================== *)

Module CrudOps.

(** [crud.advance_milestone(db, journey_id)]. *)
Definition advance_milestone (now : Z) (db : Session) (journey_id : Z)
  : option RenovationJourney * Session :=
  match crud.get_journey db journey_id with
  | None => (None, db)
  | Some db_journey =>
      if 3 <=? current_milestone db_journey then (None, db)
      else
        let db_journey :=
          setattr db_journey "current_milestone"
                  (PyInt (current_milestone db_journey + 1)) in
        let db_journey := setattr db_journey "updated_at" (PyTime now) in
        (Some db_journey, <[journey_id := db_journey]> db)
  end.

(** [crud.complete_journey(db, journey_id)]; [stamp] is the clock reading
    put into the dictionary, [now] the one [update_journey] takes. *)
Definition complete_journey (stamp now : Z) (db : Session) (journey_id : Z)
  : option RenovationJourney * Session :=
  let update_data :=
    [("status", PyStr "completed"); ("updated_at", PyTime stamp)] in
  crud.update_journey now db journey_id update_data.

(** The keys of [field_mapping] in [crud.update_checkpoint]; each maps to
    the column of the same name. *)
Definition field_mapping : list string :=
  ["room"; "renovation_purpose"; "budget_range";
   "timeline"; "style_preference"; "priority_feature"].

(** [crud.update_checkpoint(db, journey_id, checkpoint_name, value)]. *)
Definition update_checkpoint (now : Z) (db : Session) (journey_id : Z)
           (checkpoint_name value : string)
  : option RenovationJourney * Session :=
  if negb (PyStr.mem checkpoint_name field_mapping) then (None, db)
  else
    let update_data := [(checkpoint_name, PyStr value)] in
    crud.update_journey now db journey_id update_data.

(** [crud.get_journey_state_for_llm(db, user_id)] from the row that
    [get_active_journey(db, user_id)] found, [None] when it found none. *)
Definition get_journey_state_for_llm (journey : option RenovationJourney)
  : models.JourneyStateResponse :=
  match journey with
  | None => models.mkJourneyState false None [] None
  | Some journey =>
      let completed_checkpoints :=
        ((if PyStr.truthy (room journey) then ["room"] else [])
           ++ (if PyStr.truthy (renovation_purpose journey)
               then ["renovation_purpose"] else [])
           ++ (if PyStr.truthy (budget_range journey)
               then ["budget_range"] else [])
           ++ (if PyStr.truthy (timeline journey) then ["timeline"] else [])
           ++ (if PyStr.truthy (style_preference journey)
               then ["style_preference"] else [])
           ++ (if PyStr.truthy (priority_feature journey)
               then ["priority_feature"] else []))%list in
      let milestone_completed :=
        if (current_milestone journey =? 1) && milestone1_completed journey
        then true
        else if (current_milestone journey =? 2) && milestone2_completed journey
        then true
        else if (current_milestone journey =? 3) && milestone3_completed journey
        then true
        else false in
      models.mkJourneyState true (Some (current_milestone journey))
                            completed_checkpoints (Some milestone_completed)
  end.

End CrudOps.

(* ===================================================================== *)
(** ** app/routers/journeys.py *)
(* ===================================================================== *)

Module journeys.

(** What an endpoint answers: its body, or the [HTTPException] it raises. *)
Inductive Http (A : Type) : Type :=
| Ok (body : A)
| HTTPException (status_code : Z).
Arguments Ok {A} body.
Arguments HTTPException {A} status_code.

(** The router's own [check_milestone_completion(db, journey)]. *)
Definition check_milestone_completion (stamp now : Z) (db : Session)
           (journey : RenovationJourney) : Session :=
  match crud.completion_update_data journey stamp with
  | [] => db
  | update_data => snd (crud.update_journey now db (id journey) update_data)
  end.

(** [POST /{journey_id}/checkpoints/{checkpoint_name}]; [clock] holds the
    readings of the checkpoint write, the completion stamp and the
    completion write. The body is the checkpoint name and value of the
    message. *)
Definition save_checkpoint (clock : Z * Z * Z) (journey_id : Z)
           (checkpoint_name value : string) (db : Session)
  : Http (string * string) * Session :=
  let '(now1, stamp, now2) := clock in
  match crud.get_journey db journey_id with
  | None => (HTTPException 404, db)
  | Some journey =>
      if negb (PyStr.mem checkpoint_name CrudOps.field_mapping) then
        (HTTPException 400, db)
      else
        let journey_update := [(checkpoint_name, PyStr value)] in
        let db := snd (crud.update_journey now1 db journey_id journey_update) in
        match crud.get_journey db journey_id with
        | Some updated_journey =>
            let db := check_milestone_completion stamp now2 db updated_journey in
            (Ok (checkpoint_name, value), db)
        | None =>
            (* check_milestone_completion(db, None): AttributeError *)
            (HTTPException 500, db)
        end
  end.

(** [POST /{journey_id}/advance]: the body tells whether the journey moved
    ([Some new_milestone]) or was already at the final milestone. *)
Definition advance_milestone (stamp now : Z) (journey_id : Z) (db : Session)
  : Http (option Z) * Session :=
  match crud.get_journey db journey_id with
  | None => (HTTPException 404, db)
  | Some journey =>
      if 3 <=? current_milestone journey then (Ok None, db)
      else
        let new_milestone := current_milestone journey + 1 in
        let journey_update :=
          [("current_milestone", PyInt new_milestone);
           ("updated_at", PyTime stamp)] in
        (Ok (Some new_milestone),
         snd (crud.update_journey now db journey_id journey_update))
  end.

(** [POST /{journey_id}/complete]. *)
Definition complete_journey (stamp now : Z) (journey_id : Z) (db : Session)
  : Http unit * Session :=
  match crud.get_journey db journey_id with
  | None => (HTTPException 404, db)
  | Some journey =>
      let journey_update :=
        [("status", PyStr "completed"); ("updated_at", PyTime stamp)] in
      (Ok tt, snd (crud.update_journey now db journey_id journey_update))
  end.

(** [GET /state/{user_id}] from the row that
    [crud.get_active_journey(db, user_id)] found, [None] when it found
    none. *)
Definition get_journey_state (journey : option RenovationJourney)
  : models.JourneyStateResponse :=
  match journey with
  | None => models.mkJourneyState false None [] None
  | Some journey =>
      let completed_checkpoints :=
        if current_milestone journey =? 1 then
          ((if PyStr.truthy (room journey) then ["room"] else [])
             ++ (if PyStr.truthy (renovation_purpose journey)
                 then ["renovation_purpose"] else []))%list
        else if current_milestone journey =? 2 then
          ((if PyStr.truthy (budget_range journey) then ["budget_range"] else [])
             ++ (if PyStr.truthy (timeline journey) then ["timeline"] else []))%list
        else if current_milestone journey =? 3 then
          ((if PyStr.truthy (style_preference journey)
            then ["style_preference"] else [])
             ++ (if PyStr.truthy (priority_feature journey)
                 then ["priority_feature"] else []))%list
        else [] in
      let milestone_completed :=
        if current_milestone journey =? 1 then milestone1_completed journey
        else if current_milestone journey =? 2 then milestone2_completed journey
        else if current_milestone journey =? 3 then milestone3_completed journey
        else false in
      models.mkJourneyState true (Some (current_milestone journey))
                            completed_checkpoints (Some milestone_completed)
  end.

End journeys.

(* ===================================================================== *)
(** ** app/chat/handler.py: context and response text *)
(* ===================================================================== *)

Module HandlerContext.

(** The values of the context dictionary. *)
Inductive ContextValue : Type :=
| CtxMilestone (milestone : Z)
| CtxCheckpoints (names : list string)
| CtxText (text : string).

(** [if journey.<field>: context[key] = journey.<field>]. *)
Definition entry (key : string) (field : option string)
  : list (string * ContextValue) :=
  match field with
  | Some text => if String.eqb text "" then [] else [(key, CtxText text)]
  | None => []
  end.

(** [_build_context(journey)]: the dictionary in insertion order. *)
Definition _build_context (journey : RenovationJourney)
  : list (string * ContextValue) :=
  let context :=
    [("milestone", CtxMilestone (current_milestone journey));
     ("completed_checkpoints",
      CtxCheckpoints (JourneyHandler._get_completed_checkpoints journey))] in
  let context :=
    if 1 <=? current_milestone journey then
      (context ++ entry "room" (room journey)
         ++ entry "renovation_purpose" (renovation_purpose journey))%list
    else context in
  let context :=
    if 2 <=? current_milestone journey then
      (context ++ entry "budget_range" (budget_range journey)
         ++ entry "timeline" (timeline journey))%list
    else context in
  let context :=
    if 3 <=? current_milestone journey then
      (context ++ entry "style_preference" (style_preference journey)
         ++ entry "priority_feature" (priority_feature journey))%list
    else context in
  context.

(** A content item of an output item: its [text], [None] when the
    attribute is missing or null. *)
Record ContentItem : Type := mkContent { text : option string }.

(** An output item of the model's response: its [content], [None] when the
    attribute is missing or null. *)
Record OutputItem : Type := mkOutput { item_content : option (list ContentItem) }.

Definition apology : string := "I'm sorry, I couldn't generate a response.".

(** The inner loop of [process_message] over [item.content]: the text at
    the [break], [None] when the loop runs out. *)
Fixpoint first_text (content : list ContentItem) : option string :=
  match content with
  | [] => None
  | content_item :: rest =>
      if PyStr.truthy (text content_item) then text content_item
      else first_text rest
  end.

(** The outer loop over [response.output] with its [else]. *)
Fixpoint scan_output (output : list OutputItem) : string :=
  match output with
  | [] => apology
  | item :: rest =>
      match item_content item with
      | Some (c :: cs) =>
          match first_text (c :: cs) with
          | Some response_text => response_text
          | None => scan_output rest
          end
      | _ => scan_output rest
      end
  end.

(** The response text [process_message] takes from [response.output]
    ([None]: the attribute is null). *)
Definition response_text (output : option (list OutputItem)) : string :=
  match output with
  | Some (item :: rest) => scan_output (item :: rest)
  | _ => apology
  end.

End HandlerContext.

(* ===================================================================== *)
(** ** Specification-side definitions, continued *)
(* ===================================================================== *)

(** Every row sits under its own primary key. *)
Definition rows_keyed (db : Session) : Prop :=
  forall (k : Z) (j : RenovationJourney), db !! k = Some j -> id j = k.

(** The two rows agree on everything but the six answers and
    [updated_at]. *)
Record same_core (j j' : RenovationJourney) : Prop := {
  core_id : id j' = id j;
  core_user : user_id j' = user_id j;
  core_milestone : current_milestone j' = current_milestone j;
  core_status : status j' = status j;
  core_flag1 : milestone1_completed j' = milestone1_completed j;
  core_flag2 : milestone2_completed j' = milestone2_completed j;
  core_flag3 : milestone3_completed j' = milestone3_completed j;
  core_at1 : milestone1_completed_at j' = milestone1_completed_at j;
  core_at2 : milestone2_completed_at j' = milestone2_completed_at j;
  core_at3 : milestone3_completed_at j' = milestone3_completed_at j;
  core_created : created_at j' = created_at j
}.

(** The texts with a non-empty [text], output item by output item. *)
Definition texts_of (item : HandlerContext.OutputItem) : list string :=
  match HandlerContext.item_content item with
  | Some content =>
      omap (fun c => match HandlerContext.text c with
                     | Some t => if String.eqb t "" then None else Some t
                     | None => None
                     end) content
  | None => []
  end.

(** What a journey never loses from one state to a later one. *)
Record progress (j j' : RenovationJourney) : Prop := {
  progress_id : id j' = id j;
  progress_user : user_id j' = user_id j;
  progress_created : created_at j' = created_at j;
  progress_milestone : current_milestone j <= current_milestone j';
  progress_answers :
    forall field, getattr j field <> None -> getattr j' field <> None;
  progress_flag1 : milestone1_completed j = true -> milestone1_completed j' = true;
  progress_flag2 : milestone2_completed j = true -> milestone2_completed j' = true;
  progress_flag3 : milestone3_completed j = true -> milestone3_completed j' = true;
  progress_at1 : milestone1_completed j = true ->
                 milestone1_completed_at j' = milestone1_completed_at j;
  progress_at2 : milestone2_completed j = true ->
                 milestone2_completed_at j' = milestone2_completed_at j;
  progress_at3 : milestone3_completed j = true ->
                 milestone3_completed_at j' = milestone3_completed_at j;
  progress_status : status j = "completed" -> status j' = "completed"
}.

(** What holds of every journey the system has produced. *)
Record sound (j : RenovationJourney) : Prop := {
  sound_milestone : 1 <= current_milestone j <= 3;
  sound_at1 : milestone1_completed j = true <-> milestone1_completed_at j <> None;
  sound_at2 : milestone2_completed j = true <-> milestone2_completed_at j <> None;
  sound_at3 : milestone3_completed j = true <-> milestone3_completed_at j <> None;
  sound_filled : flags_imply_filled j;
  sound_status : milestone3_completed j = true -> status j = "completed"
}.

(** One operation on the session: creating a journey, a tool call of the
    Sentinel, the fallback extractor on a live row, a completion evaluator,
    or one of the explicit operations that advance, complete or save a
    checkpoint. *)
Inductive transition : Session -> Session -> Prop :=
| t_create (db : Session) (now pk uid : Z) :
    db !! pk = None ->
    transition db (crud.create_journey now db pk uid).2
| t_tool_call (db : Session) (clock : Z * Z * Z) (journey_id : option Z)
              (checkpoint_name value : option string) :
    transition db (sentinel_functions.update_journey
                     clock journey_id checkpoint_name value db).2
| t_fallback (db : Session) (clock : Z * Z * Z) (j : RenovationJourney)
             (message : string) :
    db !! id j = Some j ->
    transition db (JourneyHandler._analyze_message_for_checkpoints
                     clock j message db).2
| t_check (db : Session) (stamp now journey_id : Z) :
    transition db (crud.check_milestone_completion stamp now db journey_id).2
| t_update_milestone (db : Session) (current_time now : Z)
                     (j : RenovationJourney) :
    db !! id j = Some j ->
    transition db (sentinel_functions.update_milestone current_time now j db).2
| t_crud_checkpoint (db : Session) (now journey_id : Z)
                    (checkpoint_name value : string) :
    transition db (CrudOps.update_checkpoint
                     now db journey_id checkpoint_name value).2
| t_crud_advance (db : Session) (now journey_id : Z) :
    transition db (CrudOps.advance_milestone now db journey_id).2
| t_crud_complete (db : Session) (stamp now journey_id : Z) :
    transition db (CrudOps.complete_journey stamp now db journey_id).2
| t_save_checkpoint (db : Session) (clock : Z * Z * Z) (journey_id : Z)
                    (checkpoint_name value : string) :
    transition db (journeys.save_checkpoint
                     clock journey_id checkpoint_name value db).2
| t_advance (db : Session) (stamp now journey_id : Z) :
    transition db (journeys.advance_milestone stamp now journey_id db).2
| t_complete (db : Session) (stamp now journey_id : Z) :
    transition db (journeys.complete_journey stamp now journey_id db).2.

(** Any number of operations, one after the other. *)
Inductive evolves : Session -> Session -> Prop :=
| ev_refl (db : Session) : evolves db db
| ev_step (db db' db'' : Session) :
    evolves db db' -> transition db' db'' -> evolves db db''.

(** From [db] to [db']: every journey is still there and has only
    progressed, soundness of a journey is kept, and a journey that is new
    in [db'] sits under its key and is sound. *)
Definition carries_on (db db' : Session) : Prop :=
  (forall (k : Z) (j : RenovationJourney),
      db !! k = Some j ->
      exists j', db' !! k = Some j' /\ progress j j' /\ (sound j -> sound j'))
  /\ (forall (k : Z) (j' : RenovationJourney),
         db !! k = None -> db' !! k = Some j' -> id j' = k /\ sound j').

(** An update dictionary that only writes texts to checkpoint columns. *)
Definition answer_writes (data : UpdateData) : Prop :=
  Forall (fun kv => is_checkpoint (fst kv) = true
                    /\ exists text, snd kv = PyStr text) data.

(** Two sessions for the examples: a journey is created, and the Sentinel
    is told the room and then the purpose. *)
Module Story.

Definition created : Session := (crud.create_journey 100 ∅ 1 10).2.

Definition with_room : Session :=
  (sentinel_functions.update_journey
     Samples.clock (Some 1) (Some "room") (Some "kitchen") created).2.

Definition with_purpose : Session :=
  (sentinel_functions.update_journey
     (301, 302, 303) (Some 1) (Some "renovation_purpose") (Some "repair")
     with_room).2.

End Story.

(** The values the Sentinel's normalizer knows for a checkpoint: the valid
    rooms, the valid purposes, and the closed vocabularies of the four
    other checkpoints. *)
Definition vocabulary (checkpoint : string) : list string :=
  if String.eqb checkpoint "room" then Sentinel.valid_rooms
  else if String.eqb checkpoint "renovation_purpose" then Sentinel.valid_purposes
  else Sentinel.canonical_values checkpoint.

(* ===================================================================== *)
(** ** Proof tactics *)
(* ===================================================================== *)

Ltac case_key k :=
  match goal with
  | |- context [String.eqb k ?lit] =>
      destruct (String.eqb_spec k lit) as [-> | ?]
  end.

Ltac split_ifs :=
  repeat match goal with
         | |- context [if ?b then _ else _] => destruct b eqn:?
         end.

Ltac name_conditions :=
  repeat match goal with
         | |- context [PyStr.truthy ?a && PyStr.truthy ?b] =>
             let c := fresh "c" in
             set (c := PyStr.truthy a && PyStr.truthy b) in *
         end.

Ltac expose_journey :=
  unfold highest_completed, complete1, complete2, complete3;
  cbn [room renovation_purpose budget_range timeline style_preference
       priority_feature milestone1_completed milestone2_completed
       milestone3_completed current_milestone status];
  name_conditions.


(* ===================================================================== *)
(** ** Rows, columns and update dictionaries *)
(* ===================================================================== *)

Lemma mem_valid_cases (key : string) :
  is_checkpoint key = true ->
  key = "room" \/ key = "renovation_purpose" \/ key = "budget_range" \/
  key = "timeline" \/ key = "style_preference" \/ key = "priority_feature".
Proof.
  unfold is_checkpoint, PyStr.mem, sentinel_functions.valid_checkpoints. simpl.
  repeat (case_key key; [tauto|]).
  intros H; simpl in H; discriminate.
Qed.

Lemma getattr_setattr_other (j : RenovationJourney) (key f : string) (v : PyVal) :
  is_checkpoint key = false ->
  getattr (setattr j key v) f = getattr j f.
Proof.
  intros Hk. destruct j. unfold setattr.
  repeat (case_key key; [first [discriminate Hk | reflexivity]|]).
  reflexivity.
Qed.

Lemma getattr_setattr_checkpoint (j : RenovationJourney) (key f value : string) :
  is_checkpoint key = true ->
  getattr (setattr j key (PyStr value)) f
  = if String.eqb f key then Some value else getattr j f.
Proof.
  intros Hk. destruct j.
  destruct (mem_valid_cases _ Hk) as [-> | [-> | [-> | [-> | [-> | ->]]]]];
    unfold getattr; simpl;
    repeat (case_key f; [reflexivity|]);
    reflexivity.
Qed.

Lemma apply_items_getattr (data : UpdateData) :
  flag_keys data ->
  forall (j : RenovationJourney) (f : string),
    getattr (crud.apply_items j data) f = getattr j f.
Proof.
  unfold crud.apply_items.
  induction 1 as [|[k v] data Hk _ IH]; intros j f; simpl; [reflexivity|].
  rewrite IH. now apply getattr_setattr_other.
Qed.

Lemma milestone_update_data_keys (j : RenovationJourney) (t : Z) :
  flag_keys (sentinel_functions.milestone_update_data j t).
Proof.
  unfold sentinel_functions.milestone_update_data, flag_keys.
  split_ifs; simpl; repeat constructor.
Qed.

Lemma completion_update_data_keys (j : RenovationJourney) (t : Z) :
  flag_keys (crud.completion_update_data j t).
Proof.
  unfold crud.completion_update_data, flag_keys.
  split_ifs; simpl; repeat constructor.
Qed.

Lemma update_journey_flags_getattr (now : Z) (db : Session) (k i : Z)
      (data : UpdateData) (j : RenovationJourney) :
  flag_keys data ->
  db !! i = Some j ->
  exists j', (crud.update_journey now db k data).2 !! i = Some j'
             /\ forall f, getattr j' f = getattr j f.
Proof.
  intros Hd Hj. unfold crud.update_journey, crud.get_journey.
  destruct (db !! k) as [row|] eqn:Hrow; cbn [snd].
  - destruct (decide (k = i)) as [->|Hne].
    + rewrite lookup_insert_eq. eexists; split; [reflexivity|].
      intros f. rewrite getattr_setattr_other by reflexivity.
      rewrite apply_items_getattr by assumption. congruence.
    + rewrite lookup_insert_ne by assumption. eauto.
  - eauto.
Qed.

Lemma update_milestone_getattr (ct now : Z) (db : Session) (i : Z)
      (u j : RenovationJourney) :
  db !! i = Some j ->
  exists j', (sentinel_functions.update_milestone ct now u db).2 !! i = Some j'
             /\ forall f, getattr j' f = getattr j f.
Proof.
  intros Hj. unfold sentinel_functions.update_milestone.
  pose proof (milestone_update_data_keys u ct) as Hk.
  destruct (sentinel_functions.milestone_update_data u ct) as [|kv data].
  - cbn [snd]. eauto.
  - now apply update_journey_flags_getattr.
Qed.

(** What the tool handler does, case by case. *)
Lemma update_journey_cases (clock : Z * Z * Z) (journey_id : option Z)
      (checkpoint_name value : option string) (db : Session) :
  let res := sentinel_functions.update_journey clock journey_id checkpoint_name value db in
  (res.2 = db /\ forall c x i, res.1 <> sentinel_functions.Updated c x i)
  \/ exists i c x j j',
      journey_id = Some i /\ checkpoint_name = Some c /\ value = Some x
      /\ i <> 0 /\ x <> "" /\ is_checkpoint c = true
      /\ db !! i = Some j
      /\ res.1 = sentinel_functions.Updated c x i
      /\ res.2 !! i = Some j'
      /\ forall f, getattr j' f = if String.eqb f c then Some x else getattr j f.
Proof.
  destruct clock as [[now1 ct] now2]. cbv zeta.
  unfold sentinel_functions.update_journey.
  destruct journey_id as [i|];
    [|left; split; [reflexivity|intros; discriminate]].
  destruct (Z.eqb_spec i 0) as [-> | Hi];
    [left; split; [reflexivity|intros; discriminate]|].
  destruct checkpoint_name as [c|];
    [|left; split; [reflexivity|intros; discriminate]].
  destruct value as [x|];
    [|left; split; [reflexivity|intros; discriminate]].
  destruct (String.eqb_spec c "") as [-> | Hc]; cbn [orb];
    [left; split; [reflexivity|intros; discriminate]|].
  destruct (String.eqb_spec x "") as [-> | Hx];
    [left; split; [reflexivity|intros; discriminate]|].
  fold (is_checkpoint c).
  destruct (is_checkpoint c) eqn:Hvalid; cbn [negb];
    [|left; split; [reflexivity|intros ? ? ?; cbn [fst]; discriminate]].
  unfold crud.get_journey.
  destruct (db !! i) as [j|] eqn:Hj;
    [|left; split; [reflexivity|intros; discriminate]].
  unfold crud.update_journey, crud.get_journey. rewrite Hj.
  set (j1 := setattr (crud.apply_items j [(c, PyStr x)]) "updated_at" (PyTime now1)).
  destruct (update_milestone_getattr ct now2 (<[i:=j1]> db) i j1 j1)
    as (j' & Hj' & Hget); [apply lookup_insert_eq|].
  destruct (sentinel_functions.update_milestone ct now2 j1 (<[i:=j1]> db))
    as [r db'] eqn:Hum.
  right. exists i, c, x, j, j'. cbn [fst snd] in *.
  repeat split; try assumption; try reflexivity.
  intros f. rewrite Hget. subst j1.
  rewrite getattr_setattr_other by reflexivity.
  cbn [crud.apply_items fold_left fst snd].
  now apply getattr_setattr_checkpoint.
Qed.

(* ===================================================================== *)
(** ** The Sentinel's tool handler *)
(* ===================================================================== *)

(** C1, on the code: a journey whose [room] is already ["kitchen"] receives
    the tool call [update_journey(1, "room", "bathroom")]; the handler has
    no test for a filled field and the [room] is overwritten with
    ["bathroom"]. *)
Lemma update_journey_overwrites_filled_room :
  room Samples.kitchen = Some "kitchen"
  /\ room <$> ((sentinel_functions.update_journey
                  Samples.clock (Some 1) (Some "room") (Some "bathroom")
                  Samples.kitchen_db).2 !! 1)
     = Some (Some "bathroom").
Proof. split; vm_compute; reflexivity. Qed.

(** Given an existing journey, one of the six checkpoint names and a
    non-empty value, the tool handler sets the named checkpoint to the
    proposed value whether or not it was filled, and leaves every other
    checkpoint field as it was. *)
Lemma update_journey_writes_named_field_only
        (clock : Z * Z * Z) (journey_id : Z) (checkpoint_name value : string)
        (db : Session) (j : RenovationJourney) :
  db !! journey_id = Some j ->
  journey_id <> 0 ->
  is_checkpoint checkpoint_name = true ->
  value <> "" ->
  exists j',
    (sentinel_functions.update_journey
       clock (Some journey_id) (Some checkpoint_name) (Some value) db).2
      !! journey_id = Some j'
    /\ getattr j' checkpoint_name = Some value
    /\ forall field, field <> checkpoint_name -> getattr j' field = getattr j field.
Proof.
  intros Hj Hid Hcp Hv.
  destruct (update_journey_cases clock (Some journey_id) (Some checkpoint_name)
                                 (Some value) db)
    as [[Hdb Hno] | (i & c & x & j0 & j' & Ei & Ec & Ex & _ & _ & _ & Hj0 & _ & Hrow & Hget)].
  - exfalso. revert Hdb Hno.
    destruct clock as [[now1 ct] now2].
    unfold sentinel_functions.update_journey.
    destruct (Z.eqb_spec journey_id 0); [contradiction|].
    destruct (String.eqb_spec checkpoint_name "") as [-> | _]; [discriminate Hcp|].
    destruct (String.eqb_spec value ""); [contradiction|]. cbn [orb].
    fold (is_checkpoint checkpoint_name). rewrite Hcp. cbn [negb].
    unfold crud.update_journey, crud.get_journey. rewrite Hj.
    destruct (sentinel_functions.update_milestone _ _ _ _) as [r db'].
    cbn [fst snd]. intros _ Hno. eapply Hno. reflexivity.
  - injection Ei as <-. injection Ec as <-. injection Ex as <-.
    rewrite Hj in Hj0. injection Hj0 as <-.
    exists j'. split; [exact Hrow|]. split.
    + rewrite Hget, String.eqb_refl. reflexivity.
    + intros field Hne. rewrite Hget.
      destruct (String.eqb_spec field checkpoint_name); [contradiction|reflexivity].
Qed.






(** C3, as stated, fails: the tool call carries the raw text
    ["very affordable option"] for [budget_range]; the normalizer would give
    ["low"], the row stores the raw text, which is no budget category. *)
Lemma update_journey_stores_raw_value :
  budget_range <$> ((sentinel_functions.update_journey
                       Samples.clock (Some 1) (Some "budget_range")
                       (Some "very affordable option") Samples.fresh_db).2 !! 1)
  = Some (Some "very affordable option")
  /\ Sentinel._validate_checkpoint_value "budget_range" "very affordable option"
     = "low"
  /\ ~ In "very affordable option" (Sentinel.canonical_values "budget_range").
Proof.
  repeat split; try (vm_compute; reflexivity).
  vm_compute. intros H. repeat (destruct H as [H | H]; [discriminate H|]). exact H.
Qed.

(* ===================================================================== *)
(** ** The per-checkpoint normalizer *)
(* ===================================================================== *)

Lemma constrained_cases (checkpoint : string) :
  In checkpoint NormalizerSpec.constrained ->
  checkpoint = "budget_range" \/ checkpoint = "timeline"
  \/ checkpoint = "style_preference" \/ checkpoint = "priority_feature".
Proof. simpl. intuition. Qed.

(** On the four checkpoints with a closed vocabulary the normalizer is the
    first-matching-category function of the specification. *)
Lemma validate_is_first_category (checkpoint value : string) :
  In checkpoint NormalizerSpec.constrained ->
  Sentinel._validate_checkpoint_value checkpoint value
  = NormalizerSpec.normalize checkpoint value.
Proof.
  intros H.
  destruct (constrained_cases _ H) as [-> | [-> | [-> | ->]]]; reflexivity.
Qed.

Lemma first_category_range (rules : list (list string * string))
      (default_value text : string) :
  In (NormalizerSpec.first_category rules default_value text)
     (default_value :: map snd rules).
Proof.
  induction rules as [|[keywords category] rules IH]; simpl.
  - now left.
  - destruct (Sentinel.any_in keywords text).
    + right. now left.
    + destruct IH as [IH | IH]; [now left | right; now right].
Qed.

Lemma first_category_unmatched (rules : list (list string * string))
      (default_value text : string) :
  (forall keywords category,
      In (keywords, category) rules -> Sentinel.any_in keywords text = false) ->
  NormalizerSpec.first_category rules default_value text = default_value.
Proof.
  induction rules as [|[keywords category] rules IH]; simpl; intros H.
  - reflexivity.
  - rewrite (H keywords category) by now left.
    apply IH. intros k c Hin. apply (H k c). now right.
Qed.

(** The normalizer never leaves the vocabulary of a constrained checkpoint. *)
Lemma validate_in_vocabulary (checkpoint value : string) :
  In checkpoint NormalizerSpec.constrained ->
  In (Sentinel._validate_checkpoint_value checkpoint value)
     (Sentinel.canonical_values checkpoint).
Proof.
  intros H. rewrite validate_is_first_category by assumption.
  unfold NormalizerSpec.normalize.
  pose proof (first_category_range
                (NormalizerSpec.rules checkpoint)
                (NormalizerSpec.default_value checkpoint)
                (PyStr.lower (PyStr.strip value))) as Hr.
  destruct (constrained_cases _ H) as [-> | [-> | [-> | ->]]];
    cbn in Hr |- *; intuition.
Qed.

(** C3, amended: the extraction path stores the model's value as it came
    (no normalizer on the way); the normalizer itself maps every text into
    the vocabulary of budget_range, timeline, style_preference and
    priority_feature. *)
Theorem extraction_stores_raw_value_normalizer_is_canonical :
  (forall (clock : Z * Z * Z) (journey_id : option Z)
          (checkpoint_name value : option string) (db : Session)
          (c x : string) (i : Z),
      (sentinel_functions.update_journey
         clock journey_id checkpoint_name value db).1
      = sentinel_functions.Updated c x i ->
      value = Some x
      /\ exists j',
          (sentinel_functions.update_journey
             clock journey_id checkpoint_name value db).2 !! i = Some j'
          /\ getattr j' c = Some x)
  /\ (forall checkpoint value : string,
         In checkpoint NormalizerSpec.constrained ->
         In (Sentinel._validate_checkpoint_value checkpoint value)
            (Sentinel.canonical_values checkpoint)).
Proof.
  split.
  - intros clock journey_id checkpoint_name value db c x i Hres.
    destruct (update_journey_cases clock journey_id checkpoint_name value db)
      as [[_ Hno] | (i0 & c0 & x0 & j & j' & _ & _ & Ex & _ & _ & _ & _ & Hr & Hrow & Hget)].
    + exfalso. exact (Hno c x i Hres).
    + rewrite Hr in Hres. injection Hres as -> -> ->.
      split; [exact Ex|]. exists j'. split; [exact Hrow|].
      rewrite Hget, String.eqb_refl. reflexivity.
  - exact validate_in_vocabulary.
Qed.

Lemma extraction_stores_raw_value_normalizer_is_canonical_witness :
  In (Sentinel._validate_checkpoint_value "timeline" "Before summer")
     (Sentinel.canonical_values "timeline").
Proof.
  apply (proj2 extraction_stores_raw_value_normalizer_is_canonical).
  simpl. tauto.
Defined.

(** C8: the normalizer is a function with the four documented results; on
    each constrained checkpoint it tries the categories in the fixed order
    of the keyword chains, the first category with a matching keyword
    deciding the result, and it falls back to medium, months, modern and
    space when nothing matches. *)
Theorem normalizer_is_ordered_with_defaults :
  Sentinel._validate_checkpoint_value "budget_range" "very affordable option"
  = "low"
  /\ Sentinel._validate_checkpoint_value "timeline" "need it done in two weeks"
     = "weeks"
  /\ Sentinel._validate_checkpoint_value
       "style_preference" "something with clean lines" = "modern"
  /\ Sentinel._validate_checkpoint_value
       "priority_feature" "eco-friendly appliances please" = "energy efficiency"
  /\ (forall value, unmatched "budget_range" value ->
        Sentinel._validate_checkpoint_value "budget_range" value = "medium")
  /\ (forall value, unmatched "timeline" value ->
        Sentinel._validate_checkpoint_value "timeline" value = "months")
  /\ (forall value, unmatched "style_preference" value ->
        Sentinel._validate_checkpoint_value "style_preference" value = "modern")
  /\ (forall value, unmatched "priority_feature" value ->
        Sentinel._validate_checkpoint_value "priority_feature" value = "space")
  /\ (forall checkpoint value,
        In checkpoint NormalizerSpec.constrained ->
        Sentinel._validate_checkpoint_value checkpoint value
        = NormalizerSpec.first_category
            (NormalizerSpec.rules checkpoint)
            (NormalizerSpec.default_value checkpoint)
            (PyStr.lower (PyStr.strip value)))
  /\ Sentinel._validate_checkpoint_value "budget_range" "High budget" = "low"
  /\ Sentinel._validate_checkpoint_value "style_preference" "simple and clean"
     = "modern".
Proof.
  do 4 (split; [vm_compute; reflexivity|]).
  do 4 (split;
        [intros value H; rewrite validate_is_first_category by (simpl; tauto);
         exact (first_category_unmatched _ _ _ H)|]).
  split; [intros checkpoint value H; now apply validate_is_first_category|].
  split; vm_compute; reflexivity.
Qed.

Lemma normalizer_is_ordered_with_defaults_witness :
  Sentinel._validate_checkpoint_value "budget_range" "No idea yet" = "medium".
Proof.
  apply (proj1 (proj2 (proj2 (proj2 (proj2 normalizer_is_ordered_with_defaults))))).
  intros keywords category H. simpl in H.
  repeat (destruct H as [H | H]; [injection H as <- <-; vm_compute; reflexivity|]).
  contradiction.
Defined.

(* ===================================================================== *)
(** ** What the completion evaluators change *)
(* ===================================================================== *)

Lemma setattr_id (j : RenovationJourney) (key : string) (v : PyVal) :
  id (setattr j key v) = id j.
Proof.
  destruct j. unfold setattr.
  repeat (case_key key; [reflexivity|]). reflexivity.
Qed.

Lemma apply_items_id (data : UpdateData) (j : RenovationJourney) :
  id (crud.apply_items j data) = id j.
Proof.
  unfold crud.apply_items. revert j.
  induction data as [|[k v] data IH]; intros j; simpl; [reflexivity|].
  now rewrite IH, setattr_id.
Qed.

(** Stamping [updated_at] touches nothing the evaluators read. *)
Lemma updated_at_effect (j : RenovationJourney) (now : Z) :
  let j' := setattr j "updated_at" (PyTime now) in
  same_answers j j'
  /\ milestone1_completed j' = milestone1_completed j
  /\ milestone2_completed j' = milestone2_completed j
  /\ milestone3_completed j' = milestone3_completed j
  /\ current_milestone j' = current_milestone j
  /\ status j' = status j.
Proof. destruct j. cbn. repeat split. Qed.

(** The stricter evaluator: rows before and after its update dictionary. *)
Lemma milestone_update_effect (j : RenovationJourney) (t : Z) :
  let j' := crud.apply_items j (sentinel_functions.milestone_update_data j t) in
  same_answers j j'
  /\ milestone1_completed j' = milestone1_completed j || complete1 j
  /\ milestone2_completed j' = milestone2_completed j || complete2 j
  /\ milestone3_completed j' = milestone3_completed j || complete3 j
  /\ current_milestone j'
     = (if highest_completed j <? 3
        then Z.max (current_milestone j) (highest_completed j + 1)
        else current_milestone j)
  /\ status j'
     = (if complete3 j && negb (milestone3_completed j)
        then "completed" else status j).
Proof.
  destruct j as [i u cm st r rp m1 m1a b tl m2 m2a s p m3 m3a ca ua].
  unfold sentinel_functions.milestone_update_data. expose_journey.
  destruct c, c0, c1, m1, m2, m3; cbn [andb negb orb app];
    match goal with
    | |- context [cm <? ?n] => destruct (Z.ltb_spec cm n)
    | _ => idtac
    end; cbv zeta; cbn; (split; [constructor; reflexivity|]);
    repeat split; lia.
Qed.

(** The stricter evaluator has nothing to write exactly when every filled
    milestone is flagged and the current milestone is not behind. *)
Lemma milestone_update_data_nil (j : RenovationJourney) (t : Z) :
  fully_evaluated j ->
  sentinel_functions.milestone_update_data j t = [].
Proof.
  destruct j as [i u cm st r rp m1 m1a b tl m2 m2a s p m3 m3a ca ua].
  unfold fully_evaluated, sentinel_functions.milestone_update_data.
  expose_journey.
  intros (H1 & H2 & H3 & H4).
  destruct c; [rewrite H1 by reflexivity|];
    (destruct c0; [rewrite H2 by reflexivity|]);
    (destruct c1; [rewrite H3 by reflexivity|]);
    cbn [andb negb orb app] in *; cbv zeta;
    cbn [Z.ltb Z.compare Z.add Pos.compare Pos.compare_cont Pos.add Pos.succ] in *;
    try reflexivity;
    match goal with
    | |- context [cm <? ?n] => destruct (Z.ltb_spec cm n); [exfalso; lia|]
    end; destruct m1, m2, m3; reflexivity.
Qed.

Lemma milestone_update_data_nil_inv (j : RenovationJourney) (t : Z) :
  sentinel_functions.milestone_update_data j t = [] ->
  fully_evaluated j.
Proof.
  destruct j as [i u cm st r rp m1 m1a b tl m2 m2a s p m3 m3a ca ua].
  unfold fully_evaluated, sentinel_functions.milestone_update_data.
  expose_journey.
  destruct c, c0, c1, m1, m2, m3; cbn [andb negb orb app]; cbv zeta;
    cbn [Z.ltb Z.compare Z.add Pos.compare Pos.compare_cont Pos.add Pos.succ];
    try discriminate;
    match goal with
    | |- context [cm <? ?n] =>
        destruct (Z.ltb_spec cm n); [discriminate|]
    | _ => idtac
    end; try discriminate;
    intros _; repeat split; intros; try reflexivity; try discriminate; lia.
Qed.

(** The current-milestone check: rows before and after its update
    dictionary. *)
Lemma completion_effect (j : RenovationJourney) (stamp : Z) :
  let j' := crud.apply_items j (crud.completion_update_data j stamp) in
  same_answers j j'
  /\ milestone1_completed j'
     = milestone1_completed j || ((current_milestone j =? 1) && complete1 j)
  /\ milestone2_completed j'
     = milestone2_completed j || ((current_milestone j =? 2) && complete2 j)
  /\ milestone3_completed j'
     = milestone3_completed j || ((current_milestone j =? 3) && complete3 j)
  /\ current_milestone j' = current_milestone j.
Proof.
  destruct j as [i u cm st r rp m1 m1a b tl m2 m2a s p m3 m3a ca ua].
  unfold crud.completion_update_data. expose_journey.
  destruct (Z.eqb_spec cm 1) as [-> | ?]; [|destruct (Z.eqb_spec cm 2) as [-> | ?];
    [|destruct (Z.eqb_spec cm 3) as [-> | ?]]];
    destruct c, c0, c1, m1, m2, m3; cbn;
    (split; [constructor; reflexivity|]); repeat split.
Qed.

Lemma completion_update_data_nil (j : RenovationJourney) (stamp : Z) :
  current_evaluated j ->
  crud.completion_update_data j stamp = [].
Proof.
  destruct j as [i u cm st r rp m1 m1a b tl m2 m2a s p m3 m3a ca ua].
  unfold current_evaluated, crud.completion_update_data. expose_journey.
  intros (H1 & H2 & H3).
  destruct (Z.eqb_spec cm 1) as [-> | ?]; [|destruct (Z.eqb_spec cm 2) as [-> | ?];
    [|destruct (Z.eqb_spec cm 3) as [-> | ?]]];
    cbn [andb Z.eqb Pos.eqb] in *.
  - destruct c; [rewrite H1 by reflexivity; reflexivity|].
    destruct m1; reflexivity.
  - destruct c0; [rewrite H2 by reflexivity; reflexivity|].
    destruct m2; reflexivity.
  - destruct c1; [rewrite H3 by reflexivity; reflexivity|].
    destruct m3; reflexivity.
  - reflexivity.
Qed.

Lemma completion_update_data_nil_inv (j : RenovationJourney) (stamp : Z) :
  crud.completion_update_data j stamp = [] ->
  current_evaluated j.
Proof.
  destruct j as [i u cm st r rp m1 m1a b tl m2 m2a s p m3 m3a ca ua].
  unfold current_evaluated, crud.completion_update_data. expose_journey.
  destruct (Z.eqb_spec cm 1) as [-> | ?]; [|destruct (Z.eqb_spec cm 2) as [-> | ?];
    [|destruct (Z.eqb_spec cm 3) as [-> | ?]]];
    cbn [andb Z.eqb Pos.eqb];
    destruct c, c0, c1, m1, m2, m3; cbn [andb negb];
    try discriminate; intros _; repeat split; intros; try reflexivity;
    discriminate.
Qed.

Lemma same_answers_complete (j j' : RenovationJourney) :
  same_answers j j' ->
  complete1 j' = complete1 j /\ complete2 j' = complete2 j
  /\ complete3 j' = complete3 j /\ highest_completed j' = highest_completed j.
Proof.
  intros [_ E1 E2 E3 E4 E5 E6].
  unfold highest_completed, complete1, complete2, complete3.
  now rewrite E1, E2, E3, E4, E5, E6.
Qed.

Lemma truthy_not_none (v : option string) : PyStr.truthy v = true -> v <> None.
Proof. destruct v; [discriminate | discriminate]. Qed.

(* ===================================================================== *)
(** ** The completion-flag invariant *)
(* ===================================================================== *)

Lemma complete_filled (a b : option string) :
  PyStr.truthy a && PyStr.truthy b = true -> a <> None /\ b <> None.
Proof.
  intros H. apply andb_prop in H as [Ha Hb].
  split; now apply truthy_not_none.
Qed.

Lemma write_keeps_flags_imply_filled
      (j : RenovationJourney) (checkpoint value : string) :
  is_checkpoint checkpoint = true ->
  flags_imply_filled j ->
  flags_imply_filled (setattr j checkpoint (PyStr value)).
Proof.
  intros Hc.
  destruct (mem_valid_cases _ Hc) as [-> | [-> | [-> | [-> | [-> | ->]]]]];
    destruct j; unfold flags_imply_filled; cbn; intuition congruence.
Qed.

Lemma updated_at_keeps_flags_imply_filled (j : RenovationJourney) (now : Z) :
  flags_imply_filled j ->
  flags_imply_filled (setattr j "updated_at" (PyTime now)).
Proof. destruct j. unfold flags_imply_filled. cbn. tauto. Qed.

Lemma completion_keeps_flags_imply_filled (j : RenovationJourney) (stamp : Z) :
  flags_imply_filled j ->
  flags_imply_filled (crud.apply_items j (crud.completion_update_data j stamp)).
Proof.
  intros (P1 & P2 & P3).
  destruct (completion_effect j stamp)
    as ([_ E1 E2 E3 E4 E5 E6] & F1 & F2 & F3 & _).
  unfold flags_imply_filled.
  rewrite E1, E2, E3, E4, E5, E6, F1, F2, F3.
  (split; [|split]); intros H; apply orb_prop in H as [H' | H']; auto;
    apply andb_prop in H' as [_ H'']; now apply complete_filled in H''.
Qed.

Lemma milestone_keeps_flags_imply_filled (j : RenovationJourney) (t : Z) :
  flags_imply_filled j ->
  flags_imply_filled
    (crud.apply_items j (sentinel_functions.milestone_update_data j t)).
Proof.
  intros (P1 & P2 & P3).
  destruct (milestone_update_effect j t)
    as ([_ E1 E2 E3 E4 E5 E6] & F1 & F2 & F3 & _).
  unfold flags_imply_filled.
  rewrite E1, E2, E3, E4, E5, E6, F1, F2, F3.
  (split; [|split]); intros H; apply orb_prop in H as [H' | H']; auto;
    now apply complete_filled in H'.
Qed.

Lemma rows_ok_update (now k : Z) (data : UpdateData) (db : Session) :
  rows_ok db ->
  (forall j, db !! k = Some j -> flags_imply_filled (crud.apply_items j data)) ->
  rows_ok (crud.update_journey now db k data).2.
Proof.
  intros Hdb Hstep. unfold crud.update_journey, crud.get_journey.
  destruct (db !! k) as [row|] eqn:Hrow; cbn [snd]; [|exact Hdb].
  intros k' j'. destruct (decide (k = k')) as [<- | Hne].
  - rewrite lookup_insert_eq. intros [= <-]. split.
    + rewrite setattr_id, apply_items_id. now apply Hdb.
    + apply updated_at_keeps_flags_imply_filled. now apply Hstep.
  - rewrite lookup_insert_ne by assumption. apply Hdb.
Qed.

(** On a live row the object-taking completion checks write to that row. *)
Lemma rows_ok_check_object (stamp now k : Z) (j : RenovationJourney)
      (db : Session) :
  rows_ok db -> db !! k = Some j ->
  rows_ok (Sentinel._check_milestone_completion stamp now j db).
Proof.
  intros IH Hj. unfold Sentinel._check_milestone_completion.
  destruct (crud.completion_update_data j stamp) as [|kv data] eqn:Hd;
    [exact IH|].
  destruct (IH k j Hj) as [Hid Hflags].
  apply rows_ok_update; [exact IH|].
  intros j' Hj'. rewrite Hid, Hj in Hj'. injection Hj' as <-. rewrite <- Hd.
  now apply completion_keeps_flags_imply_filled.
Qed.

Lemma rows_ok_reachable (db : Session) : reachable db -> rows_ok db.
Proof.
  induction 1 as [ | db now pk uid _ IH Hfresh
                   | db now journey_id checkpoint value _ IH Hc
                   | db stamp now journey_id _ IH
                   | db stamp now k j _ IH Hj
                   | db stamp now k j _ IH Hj
                   | db current_time now k j _ IH Hj ].
  - intros k j. rewrite lookup_empty. discriminate.
  - unfold crud.create_journey. cbn [snd]. intros k j.
    destruct (decide (pk = k)) as [<- | Hne].
    + rewrite lookup_insert_eq. intros [= <-]. split; [reflexivity|].
      unfold flags_imply_filled. cbn. intuition discriminate.
    + rewrite lookup_insert_ne by assumption. apply IH.
  - apply rows_ok_update; [exact IH|].
    intros j Hj. cbn. apply write_keeps_flags_imply_filled; [exact Hc|].
    now apply (IH journey_id).
  - unfold crud.check_milestone_completion, crud.get_journey.
    destruct (db !! journey_id) as [row|] eqn:Hrow; [|exact IH].
    destruct (crud.completion_update_data row stamp) as [|kv data] eqn:Hd;
      [exact IH|].
    apply rows_ok_update; [exact IH|].
    intros j Hj. rewrite Hrow in Hj. injection Hj as <-. rewrite <- Hd.
    apply completion_keeps_flags_imply_filled. now apply (IH journey_id).
  - now apply (rows_ok_check_object stamp now k).
  - now apply (rows_ok_check_object stamp now k).
  - unfold sentinel_functions.update_milestone.
    destruct (sentinel_functions.milestone_update_data j current_time)
      as [|kv data] eqn:Hd; [exact IH|].
    destruct (IH k j Hj) as [Hid Hflags].
    apply rows_ok_update; [exact IH|].
    intros j' Hj'. rewrite Hid, Hj in Hj'. injection Hj' as <-. rewrite <- Hd.
    now apply milestone_keeps_flags_imply_filled.
Qed.

(** C4: in every session reachable from the empty table by creating
    journeys (milestone 1, in progress, all checkpoints null), writing
    non-null values to checkpoint columns and running the completion
    evaluators of either kind, each journey's [milestoneN_completed] flag
    implies that both checkpoint fields of milestone N are non-null. *)
Theorem completed_flags_imply_filled_checkpoints
        (db : Session) (k : Z) (j : RenovationJourney) :
  reachable db ->
  db !! k = Some j ->
  (milestone1_completed j = true ->
   room j <> None /\ renovation_purpose j <> None)
  /\ (milestone2_completed j = true ->
      budget_range j <> None /\ timeline j <> None)
  /\ (milestone3_completed j = true ->
      style_preference j <> None /\ priority_feature j <> None).
Proof.
  intros Hreach Hj. exact (proj2 (rows_ok_reachable db Hreach k j Hj)).
Qed.

(** A journey is created, told its room and its purpose, and evaluated. *)
Lemma completed_flags_imply_filled_checkpoints_witness :
  exists j,
    milestone1_completed j = true
    /\ room j = Some "kitchen"
    /\ renovation_purpose j = Some "repair"
    /\ ((milestone1_completed j = true ->
         room j <> None /\ renovation_purpose j <> None)
        /\ (milestone2_completed j = true ->
            budget_range j <> None /\ timeline j <> None)
        /\ (milestone3_completed j = true ->
            style_preference j <> None /\ priority_feature j <> None)).
Proof.
  pose (db1 := (crud.create_journey 100 ∅ 1 10).2).
  pose (db2 := (crud.update_journey 101 db1 1 [("room", PyStr "kitchen")]).2).
  pose (db3 := (crud.update_journey 102 db2 1
                                    [("renovation_purpose", PyStr "repair")]).2).
  pose (db4 := (crud.check_milestone_completion 103 104 db3 1).2).
  assert (Hreach : reachable db4).
  { apply reach_check. apply reach_write; [|reflexivity].
    apply reach_write; [|reflexivity].
    apply reach_create; [apply reach_empty | reflexivity]. }
  destruct (db4 !! 1) as [j|] eqn:Hj; [|vm_compute in Hj; discriminate Hj].
  exists j.
  pose proof (completed_flags_imply_filled_checkpoints db4 1 j Hreach Hj) as Hinv.
  vm_compute in Hj. injection Hj as <-.
  do 3 (split; [reflexivity|]). exact Hinv.
Defined.

(* ===================================================================== *)
(** ** Running an evaluator again *)
(* ===================================================================== *)

Lemma after_milestone_update (j : RenovationJourney) (t now : Z) :
  let j' := setattr (crud.apply_items
                       j (sentinel_functions.milestone_update_data j t))
                    "updated_at" (PyTime now) in
  fully_evaluated j'
  /\ id j' = id j
  /\ current_milestone j'
     = (if highest_completed j <? 3
        then Z.max (current_milestone j) (highest_completed j + 1)
        else current_milestone j).
Proof.
  cbv zeta.
  set (j1 := crud.apply_items j (sentinel_functions.milestone_update_data j t)).
  destruct (milestone_update_effect j t) as (S1 & F1 & F2 & F3 & C & _).
  fold j1 in S1, F1, F2, F3, C. clearbody j1.
  destruct (updated_at_effect j1 now) as (S2 & G1 & G2 & G3 & D & _).
  cbv zeta in S2, G1, G2, G3, D.
  destruct (same_answers_complete _ _ S1) as (A1 & A2 & A3 & A4).
  destruct (same_answers_complete _ _ S2) as (B1 & B2 & B3 & B4).
  split; [|split].
  - unfold fully_evaluated.
    rewrite B1, B2, B3, B4, A1, A2, A3, A4, G1, G2, G3, D, F1, F2, F3, C.
    split; [|split; [|split]];
      try (intros H; rewrite H; apply orb_true_r).
    intros H. destruct (Z.ltb_spec (highest_completed j) 3); lia.
  - rewrite (same_id _ _ S2). exact (same_id _ _ S1).
  - now rewrite D.
Qed.

Lemma after_completion_check (j : RenovationJourney) (stamp now : Z) :
  let j' := setattr (crud.apply_items j (crud.completion_update_data j stamp))
                    "updated_at" (PyTime now) in
  current_evaluated j' /\ id j' = id j.
Proof.
  cbv zeta.
  set (j1 := crud.apply_items j (crud.completion_update_data j stamp)).
  destruct (completion_effect j stamp) as (S1 & F1 & F2 & F3 & C).
  fold j1 in S1, F1, F2, F3, C. clearbody j1.
  destruct (updated_at_effect j1 now) as (S2 & G1 & G2 & G3 & D & _).
  cbv zeta in S2, G1, G2, G3, D.
  destruct (same_answers_complete _ _ S1) as (A1 & A2 & A3 & _).
  destruct (same_answers_complete _ _ S2) as (B1 & B2 & B3 & _).
  split.
  - unfold current_evaluated.
    rewrite B1, B2, B3, A1, A2, A3, G1, G2, G3, D, F1, F2, F3, C.
    split; [|split]; intros H; rewrite H; apply orb_true_r.
  - rewrite (same_id _ _ S2). exact (same_id _ _ S1).
Qed.

(** The stricter evaluator on a live row: it returns a row that is the
    session's, is fully evaluated, and whose current milestone is the old
    one or the one after the highest filled milestone below 3. *)
Lemma update_milestone_live_row (t now : Z) (j : RenovationJourney)
      (db : Session) :
  db !! id j = Some j ->
  exists j' db',
    sentinel_functions.update_milestone t now j db = (Some j', db')
    /\ db' !! id j' = Some j'
    /\ id j' = id j
    /\ fully_evaluated j'
    /\ current_milestone j'
       = (if highest_completed j <? 3
          then Z.max (current_milestone j) (highest_completed j + 1)
          else current_milestone j).
Proof.
  intros Hj. unfold sentinel_functions.update_milestone.
  destruct (sentinel_functions.milestone_update_data j t) as [|kv data] eqn:Hd.
  - exists j, db. pose proof (milestone_update_data_nil_inv j t Hd) as He.
    split; [reflexivity|]. split; [exact Hj|]. split; [reflexivity|].
    split; [exact He|].
    destruct He as (_ & _ & _ & He).
    destruct (Z.ltb_spec (highest_completed j) 3); lia.
  - unfold crud.update_journey, crud.get_journey. rewrite Hj, <- Hd.
    destruct (after_milestone_update j t now) as (He & Hid & Hc).
    eexists _, _. split; [reflexivity|].
    rewrite Hid, lookup_insert_eq.
    split; [reflexivity|]. split; [reflexivity|]. split; assumption.
Qed.

Lemma check_object_live_row (stamp now : Z) (j : RenovationJourney)
      (db : Session) :
  db !! id j = Some j ->
  exists j',
    Sentinel._check_milestone_completion stamp now j db !! id j = Some j'
    /\ id j' = id j
    /\ current_evaluated j'.
Proof.
  intros Hj. unfold Sentinel._check_milestone_completion.
  destruct (crud.completion_update_data j stamp) as [|kv data] eqn:Hd.
  - exists j. split; [exact Hj|]. split; [reflexivity|].
    now apply (completion_update_data_nil_inv j stamp).
  - unfold crud.update_journey, crud.get_journey. rewrite Hj, <- Hd.
    destruct (after_completion_check j stamp now) as (He & Hid).
    cbn [snd]. rewrite lookup_insert_eq. eauto.
Qed.

Lemma check_object_evaluated (stamp now : Z) (j : RenovationJourney)
      (db : Session) :
  current_evaluated j ->
  Sentinel._check_milestone_completion stamp now j db = db.
Proof.
  intros He. unfold Sentinel._check_milestone_completion.
  now rewrite completion_update_data_nil.
Qed.

Lemma check_by_key_idempotent (stamp now stamp' now' : Z) (db : Session)
      (journey_id : Z) :
  crud.check_milestone_completion
    stamp' now' (crud.check_milestone_completion stamp now db journey_id).2
    journey_id
  = crud.check_milestone_completion stamp now db journey_id.
Proof.
  unfold crud.check_milestone_completion at 2 3. unfold crud.get_journey.
  destruct (db !! journey_id) as [row|] eqn:Hrow; cbn [snd].
  - destruct (crud.completion_update_data row stamp) as [|kv data] eqn:Hd;
      cbn [snd].
    + unfold crud.check_milestone_completion, crud.get_journey.
      rewrite Hrow.
      now rewrite (completion_update_data_nil row stamp')
        by (now apply (completion_update_data_nil_inv row stamp)).
    + unfold crud.update_journey, crud.get_journey. rewrite Hrow, <- Hd.
      cbn [snd].
      unfold crud.check_milestone_completion, crud.get_journey.
      rewrite lookup_insert_eq.
      now rewrite completion_update_data_nil
        by apply (after_completion_check row stamp now).
  - unfold crud.check_milestone_completion, crud.get_journey. now rewrite Hrow.
Qed.

(** C6: on a live row, a second run of either evaluator (the
    current-milestone check of the Sentinel, of the handler and of [crud],
    and the stricter [update_milestone]) returns what the first run returned
    and leaves the session as the first run left it; on a journey that is
    already evaluated a run changes nothing at all. *)
Theorem completion_evaluators_idempotent
        (db : Session) (j : RenovationJourney) (stamp now stamp' now' : Z) :
  db !! id j = Some j ->
  (exists j1 db1,
      sentinel_functions.update_milestone stamp now j db = (Some j1, db1)
      /\ sentinel_functions.update_milestone stamp' now' j1 db1 = (Some j1, db1))
  /\ (exists j1,
         Sentinel._check_milestone_completion stamp now j db !! id j = Some j1
         /\ Sentinel._check_milestone_completion
              stamp' now' j1 (Sentinel._check_milestone_completion stamp now j db)
            = Sentinel._check_milestone_completion stamp now j db)
  /\ (exists j1,
         JourneyHandler._check_milestone_completion stamp now j db !! id j = Some j1
         /\ JourneyHandler._check_milestone_completion
              stamp' now' j1
              (JourneyHandler._check_milestone_completion stamp now j db)
            = JourneyHandler._check_milestone_completion stamp now j db)
  /\ crud.check_milestone_completion
       stamp' now' (crud.check_milestone_completion stamp now db (id j)).2 (id j)
     = crud.check_milestone_completion stamp now db (id j)
  /\ (fully_evaluated j ->
      sentinel_functions.update_milestone stamp now j db = (Some j, db))
  /\ (current_evaluated j ->
      Sentinel._check_milestone_completion stamp now j db = db
      /\ JourneyHandler._check_milestone_completion stamp now j db = db
      /\ crud.check_milestone_completion stamp now db (id j) = (Some j, db)).
Proof.
  intros Hj.
  split; [|split; [|split; [|split; [|split]]]].
  - destruct (update_milestone_live_row stamp now j db Hj)
      as (j1 & db1 & Hrun & Hrow & _ & He & _).
    exists j1, db1. split; [exact Hrun|].
    unfold sentinel_functions.update_milestone.
    now rewrite milestone_update_data_nil.
  - destruct (check_object_live_row stamp now j db Hj) as (j1 & Hrow & _ & He).
    exists j1. split; [exact Hrow|]. now apply check_object_evaluated.
  - destruct (check_object_live_row stamp now j db Hj) as (j1 & Hrow & _ & He).
    exists j1. split; [exact Hrow|].
    change JourneyHandler._check_milestone_completion
      with Sentinel._check_milestone_completion.
    now apply check_object_evaluated.
  - apply check_by_key_idempotent.
  - intros He. unfold sentinel_functions.update_milestone.
    now rewrite milestone_update_data_nil.
  - intros He. split; [|split].
    + now apply check_object_evaluated.
    + change JourneyHandler._check_milestone_completion
        with Sentinel._check_milestone_completion.
      now apply check_object_evaluated.
    + unfold crud.check_milestone_completion, crud.get_journey.
      rewrite Hj. now rewrite completion_update_data_nil.
Qed.

(** Milestone 1 is filled and not yet flagged: the first run flags it and
    moves on to milestone 2, the second run finds nothing to do. *)
Lemma completion_evaluators_idempotent_witness :
  exists j1 db1,
    sentinel_functions.update_milestone
      301 302 (setattr Samples.kitchen "renovation_purpose" (PyStr "repair"))
      {[ 1 := setattr Samples.kitchen "renovation_purpose" (PyStr "repair") ]}
    = (Some j1, db1)
    /\ sentinel_functions.update_milestone 401 402 j1 db1 = (Some j1, db1).
Proof.
  apply (completion_evaluators_idempotent
           {[ 1 := setattr Samples.kitchen "renovation_purpose" (PyStr "repair") ]}
           (setattr Samples.kitchen "renovation_purpose" (PyStr "repair"))
           301 302 401 402).
  reflexivity.
Defined.

(* ===================================================================== *)
(** ** Recomputing the current milestone *)
(* ===================================================================== *)

(** [update_milestone] never lowers the current milestone of a live row,
    and below a filled milestone 3 it raises it to the milestone after the
    highest filled one. *)
Lemma update_milestone_never_decreases (t now : Z) (j : RenovationJourney)
      (db : Session) :
  db !! id j = Some j ->
  exists j' db',
    sentinel_functions.update_milestone t now j db = (Some j', db')
    /\ current_milestone j <= current_milestone j'
    /\ (highest_completed j < 3 ->
        current_milestone j'
        = Z.max (current_milestone j) (Z.min 3 (highest_completed j + 1))).
Proof.
  intros Hj.
  destruct (update_milestone_live_row t now j db Hj)
    as (j' & db' & Hrun & _ & _ & _ & Hc).
  exists j', db'. split; [exact Hrun|]. rewrite Hc.
  destruct (Z.ltb_spec (highest_completed j) 3); split; lia.
Qed.

(** C5, on the code: a journey at milestone 2 whose two milestone-3
    checkpoints are filled is flagged complete by [update_milestone] and
    stays at milestone 2, although [min(3, highest + 1)] is 3. Four tool
    calls on a fresh journey (room, purpose, style, feature) lead there. *)
Theorem update_milestone_stays_at_2_with_milestone_3_filled :
  current_milestone Samples.ahead = 2
  /\ complete3 Samples.ahead = true
  /\ Z.min 3 (highest_completed Samples.ahead + 1) = 3
  /\ (exists j',
         (sentinel_functions.update_milestone
            202 203 Samples.ahead Samples.ahead_db).1 = Some j'
         /\ (sentinel_functions.update_milestone
               202 203 Samples.ahead Samples.ahead_db).2 !! 1 = Some j'
         /\ milestone3_completed j' = true
         /\ status j' = "completed"
         /\ current_milestone j' = 2)
  /\ (exists j',
         fold_left (Sentinel.handle_call Samples.fresh)
                   Samples.four_calls Samples.fresh_db !! 1 = Some j'
         /\ complete3 j' = true
         /\ milestone3_completed j' = true
         /\ status j' = "completed"
         /\ current_milestone j' = 2).
Proof.
  do 3 (split; [reflexivity|]).
  split.
  - eexists. split; [vm_compute; reflexivity|].
    split; [vm_compute; reflexivity|].
    repeat split.
  - eexists. split; [vm_compute; reflexivity|].
    repeat split.
Qed.

(* ===================================================================== *)
(** ** Prompt selection *)
(* ===================================================================== *)

(** C7: the selector returns the journey-complete template when the status
    is completed; otherwise, for milestone 1, 2 or 3, the milestone-complete
    template when the milestone's flag is set, else the A-known template
    when A is among the completed checkpoints and B is not, else the B-known
    template when B is and A is not, else the intro; the generic fallback for
    any other milestone. A journey at milestone 1 with its room set and no
    renovation purpose gets the room-known template. *)
Theorem prompt_selector_follows_priority_tree :
  (forall (Context : Type) (journey : RenovationJourney) (context : Context)
          (completed_checkpoints : list string),
      prompts.template
        (prompts.get_prompt_for_journey journey context completed_checkpoints)
      = PromptSpec.priority_tree journey completed_checkpoints)
  /\ (forall (Context : Type) (journey : RenovationJourney) (context : Context),
         status journey <> "completed" ->
         current_milestone journey = 1 ->
         flags_imply_filled journey ->
         PyStr.truthy (room journey) = true ->
         renovation_purpose journey = None ->
         prompts.get_prompt_for_journey
           journey context (JourneyHandler._get_completed_checkpoints journey)
         = prompts.mkPrompt prompts.MILESTONE_1_ROOM_KNOWN
                            [("room", room journey)] context (Some ["room"])).
Proof.
  split.
  - intros Context journey context completed_checkpoints.
    unfold prompts.get_prompt_for_journey, PromptSpec.priority_tree,
      PromptSpec.branch.
    destruct (String.eqb (status journey) "completed"); [reflexivity|].
    repeat (destruct (current_milestone journey =? _);
            [cbn; split_ifs; reflexivity|]).
    reflexivity.
  - intros Context journey context Hstatus Hm (H1 & _) Hroom Hpurpose.
    unfold prompts.get_prompt_for_journey,
      JourneyHandler._get_completed_checkpoints.
    destruct (String.eqb_spec (status journey) "completed"); [contradiction|].
    rewrite Hm, Hroom, Hpurpose. cbn.
    destruct (milestone1_completed journey); [|reflexivity].
    destruct (H1 eq_refl) as [_ Hp]. now rewrite Hpurpose in Hp.
Qed.

Lemma prompt_selector_follows_priority_tree_witness :
  prompts.get_prompt_for_journey
    Samples.kitchen tt (JourneyHandler._get_completed_checkpoints Samples.kitchen)
  = prompts.mkPrompt prompts.MILESTONE_1_ROOM_KNOWN
                     [("room", Some "kitchen")] tt (Some ["room"]).
Proof.
  apply (proj2 prompt_selector_follows_priority_tree unit Samples.kitchen tt).
  - discriminate.
  - reflexivity.
  - unfold flags_imply_filled. cbn. repeat split; discriminate.
  - reflexivity.
  - reflexivity.
Defined.

(* ===================================================================== *)
(** ** The fallback keyword extractor *)
(* ===================================================================== *)

Lemma scan_spec (keywords : list (string * string)) (text : string)
      (field : option string) (key : string) :
  JourneyHandler.scan keywords text field key
  = match (if PyStr.truthy field then None else first_keyword keywords text) with
    | Some value => [(key, PyStr value)]
    | None => []
    end.
Proof.
  induction keywords as [|[keyword value] rest IH]; cbn.
  - now destruct (PyStr.truthy field).
  - rewrite IH.
    destruct (PyStr.contains keyword text), (PyStr.truthy field); reflexivity.
Qed.

(** An optional single write, as [scan] leaves it in [update_data]. *)
Lemma getattr_two_writes (j : RenovationJourney) (k1 k2 f : string)
      (o1 o2 : option string) :
  is_checkpoint k1 = true -> is_checkpoint k2 = true ->
  getattr
    (crud.apply_items
       j ((match o1 with Some v => [(k1, PyStr v)] | None => [] end)
          ++ (match o2 with Some v => [(k2, PyStr v)] | None => [] end))%list) f
  = match (if String.eqb f k2 then o2 else None) with
    | Some v => Some v
    | None => match (if String.eqb f k1 then o1 else None) with
              | Some v => Some v
              | None => getattr j f
              end
    end.
Proof.
  intros H1 H2. unfold crud.apply_items.
  destruct o1 as [v1|], o2 as [v2|]; cbn;
    rewrite ?getattr_setattr_checkpoint by assumption;
    destruct (String.eqb f k2), (String.eqb f k1); reflexivity.
Qed.

Lemma extraction_write_row (now : Z) (journey : RenovationJourney)
      (message : string) (db : Session) :
  db !! id journey = Some journey ->
  exists j',
    JourneyHandler.extraction_write now journey message db !! id journey = Some j'
    /\ forall f,
        getattr j' f
        = getattr (crud.apply_items
                     journey
                     (JourneyHandler.extraction_update_data journey message)) f.
Proof.
  intros Hj. unfold JourneyHandler.extraction_write.
  destruct (JourneyHandler.extraction_update_data journey message)
    as [|kv data] eqn:Hd.
  - exists journey. split; [exact Hj|]. reflexivity.
  - unfold crud.update_journey, crud.get_journey. rewrite Hj. cbn [snd].
    rewrite lookup_insert_eq. eexists. split; [reflexivity|].
    intros f. now rewrite getattr_setattr_other by reflexivity.
Qed.

(** C9, as stated, fails: for a fresh journey the next unfilled checkpoint
    is [room], and the message "Repair my Kitchen" makes the fallback
    extractor write the room and the renovation purpose in one go. *)
Lemma fallback_extractor_writes_both_checkpoints :
  Sentinel._get_next_checkpoint_to_extract Samples.fresh
  = (Some "Which room do you want to renovate?", Some "room")
  /\ renovation_purpose Samples.fresh = None
  /\ room <$> (JourneyHandler.extraction_write
                 201 Samples.fresh "Repair my Kitchen" Samples.fresh_db !! 1)
     = Some (Some "kitchen")
  /\ renovation_purpose
       <$> (JourneyHandler.extraction_write
              201 Samples.fresh "Repair my Kitchen" Samples.fresh_db !! 1)
     = Some (Some "repair").
Proof. repeat split; vm_compute; reflexivity. Qed.

(** C9, amended: the extraction write of the fallback extractor changes a
    checkpoint field only if it belongs to the journey's current milestone
    and holds no answer yet, and then to the value of the first keyword of
    that field's table occurring in the lower-cased message (no normalizer
    involved); both fields of the current milestone may be written in one
    call; every other checkpoint field keeps its value. *)
Theorem fallback_extractor_frame
        (now : Z) (journey : RenovationJourney) (message : string)
        (db : Session) :
  db !! id journey = Some journey ->
  exists j',
    JourneyHandler.extraction_write now journey message db !! id journey = Some j'
    /\ forall field,
        is_checkpoint field = true ->
        getattr j' field
        = if in_current_milestone journey field
             && negb (PyStr.truthy (getattr journey field))
          then match first_keyword (fallback_keywords field)
                                   (PyStr.lower message) with
               | Some value => Some value
               | None => getattr journey field
               end
          else getattr journey field.
Proof.
  intros Hj.
  destruct (extraction_write_row now journey message db Hj) as (j' & Hrow & Hget).
  exists j'. split; [exact Hrow|].
  intros field Hf. rewrite Hget. clear Hget Hrow Hj j' db now.
  unfold JourneyHandler.extraction_update_data, in_current_milestone,
    Sentinel._get_valid_checkpoints_for_milestone.
  rewrite !scan_spec.
  destruct (current_milestone journey =? 1);
    [|destruct (current_milestone journey =? 2);
      [|destruct (current_milestone journey =? 3)]].
  4: { cbn. reflexivity. }
  all: rewrite getattr_two_writes by reflexivity;
    destruct (mem_valid_cases _ Hf) as [-> | [-> | [-> | [-> | [-> | ->]]]]];
    cbn;
    repeat match goal with
           | |- context [PyStr.truthy ?x] => destruct (PyStr.truthy x)
           end; cbn;
    repeat match goal with
           | |- context [first_keyword ?k ?t] => destruct (first_keyword k t)
           end; reflexivity.
Qed.

Lemma fallback_extractor_frame_witness :
  exists j',
    JourneyHandler.extraction_write
      201 Samples.kitchen "my kitchen needs repair, cheap and quick"
      Samples.kitchen_db !! 1 = Some j'
    /\ getattr j' "room" = Some "kitchen"
    /\ getattr j' "renovation_purpose" = Some "repair"
    /\ getattr j' "budget_range" = None.
Proof.
  destruct (fallback_extractor_frame
              201 Samples.kitchen "my kitchen needs repair, cheap and quick"
              Samples.kitchen_db eq_refl) as (j' & Hrow & Hframe).
  exists j'. split; [exact Hrow|].
  split; [|split].
  - rewrite (Hframe "room" eq_refl). reflexivity.
  - rewrite (Hframe "renovation_purpose" eq_refl). reflexivity.
  - rewrite (Hframe "budget_range" eq_refl). reflexivity.
Defined.

(* ===================================================================== *)
(** ** Sentinel.analyze *)
(* ===================================================================== *)

(** The session after the handlers of the model's function calls ran. *)
Lemma call_functions_session (out : Sentinel.Outside)
      (journey : Sentinel.JourneyObject) (db : Session) :
  (Sentinel.call_functions_with_responses out journey db).2
  = fold_left (Sentinel.handle_object_call journey)
              (Sentinel.llm_tool_calls out) db.
Proof.
  unfold Sentinel.call_functions_with_responses.
  now destruct (Sentinel.llm_error out).
Qed.

(** The outer handler: the read of [journey.id] decides; the commit it
    attempts does not. *)
Lemma analyze_except_cases (out : Sentinel.Outside)
      (journey : Sentinel.JourneyObject) (e : PyException) (db : Session) :
  Sentinel.analyze_except out journey e db
  = (match Sentinel.handler_read_error out with
     | Some read_error => Raises read_error
     | None => Returns journey
     end, db).
Proof.
  unfold Sentinel.analyze_except, Sentinel.commit.
  destruct (Sentinel.handler_read_error out); [reflexivity|].
  now destruct (Sentinel.cleanup_commit_error out).
Qed.

Lemma opt_text_eqb_refl (a : option string) : Sentinel.opt_text_eqb a a = true.
Proof. destruct a as [x|]; [apply String.eqb_refl | reflexivity]. Qed.

(** A journey does not differ from itself. *)
Lemma journey_was_updated_self (journey : RenovationJourney) :
  Sentinel._journey_was_updated journey journey = false.
Proof.
  unfold Sentinel._journey_was_updated. cbn [existsb].
  rewrite !opt_text_eqb_refl, !Bool.eqb_reflx, Z.eqb_refl, String.eqb_refl.
  reflexivity.
Qed.

(** The outer [try] of [analyze], outcome by outcome; an error of the model
    call does not show in it. *)
Lemma analyze_try_cases (out : Sentinel.Outside)
      (journey : Sentinel.JourneyObject)
      (recent_messages : list Message) (db : Session) :
  Sentinel.analyze_try out journey recent_messages db
  = let db' := after_calls out journey db in
    (match Sentinel.prologue_error out, Sentinel.commit_error out,
           Sentinel.refetch_error out with
     | Some e, _, _ => Raises e
     | None, Some e, _ => Raises e
     | None, None, Some e => Raises e
     | None, None, None =>
         match db' !! Sentinel.object_id journey, journey with
         | None, Sentinel.Live _ => Raises (SQLAlchemyError "ObjectDeletedError")
         | None, Sentinel.Detached _ => Raises (AttributeError "room")
         | Some _, Sentinel.Live _ => Returns journey
         | Some updated, Sentinel.Detached row =>
             Returns (if Sentinel._journey_was_updated row updated
                      then Sentinel.Live (id row) else journey)
         end
     end, db').
Proof.
  cbv zeta. unfold Sentinel.analyze_try, after_calls.
  destruct (Sentinel.prologue_error out); [reflexivity|].
  pose proof (call_functions_session out journey db) as Hdb.
  destruct (Sentinel.call_functions_with_responses out journey db)
    as [[[]|e] db1]; cbn [snd] in Hdb; subst db1; cbn [try_except].
  all: unfold Sentinel.commit;
    destruct (Sentinel.commit_error out); [reflexivity|];
    destruct (Sentinel.refetch_error out); [reflexivity|];
    unfold Sentinel.get_journey_object, Sentinel.compare_objects,
      crud.get_journey;
    destruct journey as [k | row];
    cbn [Sentinel.object_id Sentinel.attributes].
  all: try (destruct (fold_left _ _ db !! k) as [updated|] eqn:Hrow;
            [cbn [Sentinel.attributes]; rewrite Hrow, journey_was_updated_self
            |]; reflexivity).
  all: destruct (fold_left _ _ db !! id row) as [updated|] eqn:Hrow;
    [cbn [Sentinel.attributes]; rewrite Hrow;
     now destruct (Sentinel._journey_was_updated row updated)
    |reflexivity].
Qed.




(* ===================================================================== *)
(** ** Rows under the operations *)
(* ===================================================================== *)

Lemma update_journey_lookup (now journey_id k : Z) (data : UpdateData)
      (db : Session) :
  (crud.update_journey now db journey_id data).2 !! k
  = if decide (k = journey_id)
    then (fun j => setattr (crud.apply_items j data) "updated_at" (PyTime now))
           <$> (db !! k)
    else db !! k.
Proof.
  unfold crud.update_journey, crud.get_journey.
  destruct (decide (k = journey_id)) as [-> | Hne].
  - destruct (db !! journey_id) as [j|] eqn:Hj; cbn [snd].
    + now rewrite lookup_insert_eq.
    + now rewrite Hj.
  - destruct (db !! journey_id); cbn [snd]; [|reflexivity].
    now rewrite lookup_insert_ne by congruence.
Qed.

Lemma same_core_refl (j : RenovationJourney) : same_core j j.
Proof. now constructor. Qed.

Lemma same_core_trans (a b c : RenovationJourney) :
  same_core a b -> same_core b c -> same_core a c.
Proof.
  intros [] []. constructor; congruence.
Qed.

Lemma setattr_checkpoint_core (j : RenovationJourney) (key : string) (v : PyVal) :
  is_checkpoint key = true -> same_core j (setattr j key v).
Proof.
  intros Hk. destruct j.
  destruct (mem_valid_cases _ Hk) as [-> | [-> | [-> | [-> | [-> | ->]]]]];
    now constructor.
Qed.

Lemma updated_at_core (j : RenovationJourney) (v : PyVal) :
  same_core j (setattr j "updated_at" v).
Proof. destruct j. now constructor. Qed.

Lemma updated_at_getattr (j : RenovationJourney) (v : PyVal) (f : string) :
  getattr (setattr j "updated_at" v) f = getattr j f.
Proof. now apply getattr_setattr_other. Qed.

Lemma progress_refl (j : RenovationJourney) : progress j j.
Proof. constructor; auto; lia. Qed.

Lemma progress_trans (a b c : RenovationJourney) :
  progress a b -> progress b c -> progress a c.
Proof.
  intros [I1 U1 C1 M1 N1 F1 F2 F3 A1 A2 A3 S1]
         [I2 U2 C2 M2 N2 G1 G2 G3 B1 B2 B3 S2].
  constructor; try congruence; auto.
  - lia.
  - intros H. rewrite B1 by auto. auto.
  - intros H. rewrite B2 by auto. auto.
  - intros H. rewrite B3 by auto. auto.
Qed.

Lemma progress_core (j j' : RenovationJourney) :
  same_core j j' ->
  (forall f, getattr j f <> None -> getattr j' f <> None) ->
  progress j j'.
Proof.
  intros [I U M S F1 F2 F3 A1 A2 A3 C] H.
  constructor; try congruence; auto. lia.
Qed.

Lemma sound_core (j j' : RenovationJourney) :
  same_core j j' -> flags_imply_filled j' -> sound j -> sound j'.
Proof.
  intros [I U M S F1 F2 F3 A1 A2 A3 C] H [Hm H1 H2 H3 _ Hs].
  constructor; try assumption.
  - now rewrite M.
  - now rewrite F1, A1.
  - now rewrite F2, A2.
  - now rewrite F3, A3.
  - now rewrite F3, S.
Qed.

Lemma flags_imply_filled_getattr (j j' : RenovationJourney) :
  milestone1_completed j' = milestone1_completed j ->
  milestone2_completed j' = milestone2_completed j ->
  milestone3_completed j' = milestone3_completed j ->
  (forall f, getattr j f <> None -> getattr j' f <> None) ->
  flags_imply_filled j -> flags_imply_filled j'.
Proof.
  intros E1 E2 E3 H (P1 & P2 & P3). unfold flags_imply_filled.
  rewrite E1, E2, E3.
  pose proof (H "room") as Hr. pose proof (H "renovation_purpose") as Hp.
  pose proof (H "budget_range") as Hb. pose proof (H "timeline") as Ht.
  pose proof (H "style_preference") as Hs. pose proof (H "priority_feature") as Hf.
  cbn in Hr, Hp, Hb, Ht, Hs, Hf.
  split; [|split]; intros F.
  - destruct (P1 F). auto.
  - destruct (P2 F). auto.
  - destruct (P3 F). auto.
Qed.

(** A dictionary of answers leaves the core of a row alone and never
    empties an answer. *)
Lemma answer_writes_row (data : UpdateData) :
  answer_writes data ->
  forall j : RenovationJourney,
    same_core j (crud.apply_items j data)
    /\ forall f, getattr j f <> None -> getattr (crud.apply_items j data) f <> None.
Proof.
  unfold crud.apply_items.
  induction 1 as [|[k v] data [Hk [text Hv]] _ IH]; intros j; cbn.
  - split; [apply same_core_refl | auto].
  - cbn in Hk, Hv. subst v.
    destruct (IH (setattr j k (PyStr text))) as [Hc Hg]. split.
    + eapply same_core_trans; [|exact Hc]. now apply setattr_checkpoint_core.
    + intros f Hf. apply Hg. rewrite getattr_setattr_checkpoint by assumption.
      destruct (String.eqb f k); [discriminate | assumption].
Qed.

Lemma answer_writes_step (data : UpdateData) (now : Z) (j : RenovationJourney) :
  answer_writes data ->
  let j' := setattr (crud.apply_items j data) "updated_at" (PyTime now) in
  progress j j' /\ (sound j -> sound j').
Proof.
  intros Hd. cbv zeta.
  destruct (answer_writes_row data Hd j) as [Hc Hg].
  pose proof (updated_at_core (crud.apply_items j data) (PyTime now)) as Hu.
  pose proof (same_core_trans _ _ _ Hc Hu) as Hcore.
  assert (Hget : forall f, getattr j f <> None ->
                           getattr (setattr (crud.apply_items j data)
                                            "updated_at" (PyTime now)) f <> None).
  { intros f Hf. rewrite updated_at_getattr. auto. }
  split.
  - now apply progress_core.
  - intros Hs. apply (sound_core j); [assumption| |assumption].
    destruct Hcore.
    apply (flags_imply_filled_getattr j); try assumption.
    apply Hs.
Qed.

Lemma milestone_update_stamps (j : RenovationJourney) (t : Z) :
  let j' := crud.apply_items j (sentinel_functions.milestone_update_data j t) in
  user_id j' = user_id j
  /\ created_at j' = created_at j
  /\ milestone1_completed_at j'
     = (if complete1 j && negb (milestone1_completed j)
        then Some t else milestone1_completed_at j)
  /\ milestone2_completed_at j'
     = (if complete2 j && negb (milestone2_completed j)
        then Some t else milestone2_completed_at j)
  /\ milestone3_completed_at j'
     = (if complete3 j && negb (milestone3_completed j)
        then Some t else milestone3_completed_at j).
Proof.
  destruct j as [i u cm st r rp m1 m1a b tl m2 m2a s p m3 m3a ca ua].
  unfold sentinel_functions.milestone_update_data. expose_journey.
  cbn [user_id created_at milestone1_completed_at milestone2_completed_at
       milestone3_completed_at].
  destruct c, c0, c1, m1, m2, m3; cbn [andb negb orb app];
    match goal with
    | |- context [cm <? ?n] => destruct (cm <? n)
    | _ => idtac
    end; cbv zeta; cbn; repeat split.
Qed.

Lemma completion_stamps (j : RenovationJourney) (stamp : Z) :
  let j' := crud.apply_items j (crud.completion_update_data j stamp) in
  user_id j' = user_id j
  /\ created_at j' = created_at j
  /\ milestone1_completed_at j'
     = (if (current_milestone j =? 1) && complete1 j
           && negb (milestone1_completed j)
        then Some stamp else milestone1_completed_at j)
  /\ milestone2_completed_at j'
     = (if (current_milestone j =? 2) && complete2 j
           && negb (milestone2_completed j)
        then Some stamp else milestone2_completed_at j)
  /\ milestone3_completed_at j'
     = (if (current_milestone j =? 3) && complete3 j
           && negb (milestone3_completed j)
        then Some stamp else milestone3_completed_at j)
  /\ status j'
     = (if (current_milestone j =? 3) && complete3 j
           && negb (milestone3_completed j)
        then "completed" else status j).
Proof.
  destruct j as [i u cm st r rp m1 m1a b tl m2 m2a s p m3 m3a ca ua].
  unfold crud.completion_update_data. expose_journey.
  cbn [user_id created_at milestone1_completed_at milestone2_completed_at
       milestone3_completed_at].
  destruct (Z.eqb_spec cm 1) as [-> | ?]; [|destruct (Z.eqb_spec cm 2) as [-> | ?];
    [|destruct (Z.eqb_spec cm 3) as [-> | ?]]];
    destruct c, c0, c1, m1, m2, m3; cbn; repeat split.
Qed.

Lemma highest_completed_range (j : RenovationJourney) :
  0 <= highest_completed j <= 3.
Proof.
  unfold highest_completed.
  destruct (complete3 j), (complete2 j), (complete1 j); lia.
Qed.

(** A stamped-or-kept completion time goes with a raised-or-kept flag. *)
Lemma flag_and_stamp (f c : bool) (t : Z) (a : option Z) :
  (f = true <-> a <> None) ->
  f || c = true <-> (if c && negb f then Some t else a) <> None.
Proof.
  destruct f, c; cbn; intros [H1 H2]; split; intros H; auto; try discriminate.
Qed.

(** The stricter evaluator's write, as a step of one row. *)
Lemma milestone_update_step (j : RenovationJourney) (t now : Z) :
  let j' := setattr (crud.apply_items
                       j (sentinel_functions.milestone_update_data j t))
                    "updated_at" (PyTime now) in
  progress j j' /\ (sound j -> sound j').
Proof.
  cbv zeta.
  set (j1 := crud.apply_items j (sentinel_functions.milestone_update_data j t)).
  destruct (milestone_update_effect j t) as (S1 & F1 & F2 & F3 & C & St).
  destruct (milestone_update_stamps j t) as (U & Cr & A1 & A2 & A3).
  pose proof (milestone_keeps_flags_imply_filled j t) as Hfill.
  assert (Hget : forall f, getattr j1 f = getattr j f)
    by (intros f; apply apply_items_getattr, milestone_update_data_keys).
  fold j1 in S1, F1, F2, F3, C, St, U, Cr, A1, A2, A3, Hfill. clearbody j1.
  destruct (updated_at_core j1 (PyTime now)) as [I' U' M' S' F1' F2' F3' A1' A2' A3' C'].
  pose proof (highest_completed_range j) as Hh.
  split.
  - constructor.
    + rewrite I'. apply (same_id _ _ S1).
    + congruence.
    + congruence.
    + rewrite M', C. destruct (highest_completed j <? 3); lia.
    + intros f Hf. now rewrite updated_at_getattr, Hget.
    + intros H. now rewrite F1', F1, H.
    + intros H. now rewrite F2', F2, H.
    + intros H. now rewrite F3', F3, H.
    + intros H. rewrite A1', A1, H. cbn. now rewrite andb_false_r.
    + intros H. rewrite A2', A2, H. cbn. now rewrite andb_false_r.
    + intros H. rewrite A3', A3, H. cbn. now rewrite andb_false_r.
    + intros H. rewrite S', St, H.
      match goal with |- (if ?c then _ else _) = _ => now destruct c end.
  - intros [Hm H1 H2 H3 Hf Hs]. constructor.
    + rewrite M', C. destruct (Z.ltb_spec (highest_completed j) 3); lia.
    + rewrite F1', F1, A1', A1. now apply flag_and_stamp.
    + rewrite F2', F2, A2', A2. now apply flag_and_stamp.
    + rewrite F3', F3, A3', A3. now apply flag_and_stamp.
    + apply (flags_imply_filled_getattr j1); auto.
      intros f. now rewrite updated_at_getattr.
    + rewrite F3', F3, S', St.
      destruct (milestone3_completed j), (complete3 j); cbn; auto; discriminate.
Qed.

(** The current-milestone check's write, as a step of one row. *)
Lemma completion_step (j : RenovationJourney) (stamp now : Z) :
  let j' := setattr (crud.apply_items j (crud.completion_update_data j stamp))
                    "updated_at" (PyTime now) in
  progress j j' /\ (sound j -> sound j').
Proof.
  cbv zeta.
  set (j1 := crud.apply_items j (crud.completion_update_data j stamp)).
  destruct (completion_effect j stamp) as (S1 & F1 & F2 & F3 & C).
  destruct (completion_stamps j stamp) as (U & Cr & A1 & A2 & A3 & St).
  pose proof (completion_keeps_flags_imply_filled j stamp) as Hfill.
  assert (Hget : forall f, getattr j1 f = getattr j f)
    by (intros f; apply apply_items_getattr, completion_update_data_keys).
  fold j1 in S1, F1, F2, F3, C, St, U, Cr, A1, A2, A3, Hfill. clearbody j1.
  destruct (updated_at_core j1 (PyTime now)) as [I' U' M' S' F1' F2' F3' A1' A2' A3' C'].
  split.
  - constructor.
    + rewrite I'. apply (same_id _ _ S1).
    + congruence.
    + congruence.
    + rewrite M', C. lia.
    + intros f Hf. now rewrite updated_at_getattr, Hget.
    + intros H. now rewrite F1', F1, H.
    + intros H. now rewrite F2', F2, H.
    + intros H. now rewrite F3', F3, H.
    + intros H. rewrite A1', A1, H. cbn. now rewrite andb_false_r.
    + intros H. rewrite A2', A2, H. cbn. now rewrite andb_false_r.
    + intros H. rewrite A3', A3, H. cbn. now rewrite andb_false_r.
    + intros H. rewrite S', St, H.
      match goal with |- (if ?c then _ else _) = _ => now destruct c end.
  - intros [Hm H1 H2 H3 Hf Hs]. constructor.
    + now rewrite M', C.
    + rewrite F1', F1, A1', A1. now apply flag_and_stamp.
    + rewrite F2', F2, A2', A2. now apply flag_and_stamp.
    + rewrite F3', F3, A3', A3. now apply flag_and_stamp.
    + apply (flags_imply_filled_getattr j1); auto.
      intros f. now rewrite updated_at_getattr.
    + rewrite F3', F3, S', St.
      destruct (milestone3_completed j), ((current_milestone j =? 3) && complete3 j);
        cbn; auto; discriminate.
Qed.

(** Raising the milestone below 3 by one, as a step of one row. *)
Lemma advance_step (j : RenovationJourney) (v v' : PyVal) :
  current_milestone j < 3 ->
  let j' := setattr (setattr (setattr j "current_milestone"
                                      (PyInt (current_milestone j + 1)))
                             "updated_at" v) "updated_at" v' in
  progress j j' /\ (sound j -> sound j')
  /\ current_milestone j' = current_milestone j + 1.
Proof.
  intros Hlt. destruct j as [i u cm st r rp m1 m1a b tl m2 m2a s p m3 m3a ca ua].
  cbn in Hlt. cbv zeta.
  assert (E : forall x, setattr (setattr (setattr
              {| id := i; user_id := u; current_milestone := cm; status := st;
                 room := r; renovation_purpose := rp;
                 milestone1_completed := m1; milestone1_completed_at := m1a;
                 budget_range := b; timeline := tl;
                 milestone2_completed := m2; milestone2_completed_at := m2a;
                 style_preference := s; priority_feature := p;
                 milestone3_completed := m3; milestone3_completed_at := m3a;
                 created_at := ca; updated_at := ua |}
              "current_milestone" (PyInt x)) "updated_at" v) "updated_at" v'
            = {| id := i; user_id := u; current_milestone := x; status := st;
                 room := r; renovation_purpose := rp;
                 milestone1_completed := m1; milestone1_completed_at := m1a;
                 budget_range := b; timeline := tl;
                 milestone2_completed := m2; milestone2_completed_at := m2a;
                 style_preference := s; priority_feature := p;
                 milestone3_completed := m3; milestone3_completed_at := m3a;
                 created_at := ca;
                 updated_at := match v' with
                               | PyTime y => y
                               | _ => match v with PyTime y => y | _ => ua end
                               end |}).
  { intros x. now destruct v, v'. }
  rewrite E. cbn [current_milestone]. split; [|split; [|reflexivity]].
  - constructor; cbn; auto; lia.
  - intros [Hm H1 H2 H3 Hf Hs]. constructor; cbn in *; auto. lia.
Qed.

(** Marking the journey completed, as a step of one row. *)
Lemma complete_step (j : RenovationJourney) (stamp now : Z) :
  let j' := setattr (crud.apply_items
                       j [("status", PyStr "completed");
                          ("updated_at", PyTime stamp)])
                    "updated_at" (PyTime now) in
  progress j j' /\ (sound j -> sound j') /\ status j' = "completed"
  /\ same_answers j j'
  /\ current_milestone j' = current_milestone j
  /\ milestone1_completed j' = milestone1_completed j
  /\ milestone2_completed j' = milestone2_completed j
  /\ milestone3_completed j' = milestone3_completed j.
Proof.
  destruct j as [i u cm st r rp m1 m1a b tl m2 m2a s p m3 m3a ca ua].
  cbv zeta. cbn.
  split; [|split; [|split; [reflexivity|split; [now constructor|repeat split]]]].
  - constructor; cbn; auto; lia.
  - intros [Hm H1 H2 H3 Hf Hs]. constructor; cbn in *; auto.
Qed.

(* ===================================================================== *)
(** ** Sessions under the operations *)
(* ===================================================================== *)

Lemma carries_on_refl (db : Session) : carries_on db db.
Proof.
  split.
  - intros k j Hj. exists j. split; [assumption|]. split; [apply progress_refl|auto].
  - intros k j' Hn Hs. congruence.
Qed.

Lemma carries_on_trans (a b c : Session) :
  carries_on a b -> carries_on b c -> carries_on a c.
Proof.
  intros [H1 N1] [H2 N2]. split.
  - intros k j Hj. destruct (H1 k j Hj) as (j1 & Hj1 & P1 & S1).
    destruct (H2 k j1 Hj1) as (j2 & Hj2 & P2 & S2).
    exists j2. split; [assumption|]. split; [eapply progress_trans; eauto|auto].
  - intros k j'' Hn Hc. destruct (b !! k) as [j1|] eqn:Hb.
    + destruct (N1 k j1 Hn Hb) as [Hid Hs].
      destruct (H2 k j1 Hb) as (j2 & Hj2 & P2 & S2).
      rewrite Hc in Hj2. injection Hj2 as <-. split; [|auto].
      rewrite (progress_id _ _ P2). exact Hid.
    + now apply N2.
Qed.

Lemma carries_on_keyed (db db' : Session) :
  rows_keyed db -> carries_on db db' -> rows_keyed db'.
Proof.
  intros Hk [H N] k j' Hj'. destruct (db !! k) as [j|] eqn:Hj.
  - destruct (H k j Hj) as (j1 & Hj1 & P & _).
    rewrite Hj' in Hj1. injection Hj1 as <-.
    rewrite (progress_id _ _ P). now apply Hk.
  - now apply (N k j').
Qed.

(** [crud.update_journey] carries the session on when its dictionary is a
    step of the row it meets. *)
Lemma update_journey_carries (now journey_id : Z) (data : UpdateData)
      (db : Session) :
  (forall j, db !! journey_id = Some j ->
             let j' := setattr (crud.apply_items j data)
                               "updated_at" (PyTime now) in
             progress j j' /\ (sound j -> sound j')) ->
  carries_on db (crud.update_journey now db journey_id data).2.
Proof.
  intros Hrow. split.
  - intros k j Hj. rewrite update_journey_lookup, Hj.
    destruct (decide (k = journey_id)) as [-> | Hne].
    + cbn. eexists. split; [reflexivity|]. now apply Hrow.
    + exists j. split; [reflexivity|]. split; [apply progress_refl|auto].
  - intros k j' Hn. rewrite update_journey_lookup, Hn.
    destruct (decide (k = journey_id)); discriminate.
Qed.

Lemma answers_carry (now journey_id : Z) (data : UpdateData) (db : Session) :
  answer_writes data ->
  carries_on db (crud.update_journey now db journey_id data).2.
Proof.
  intros Hd. apply update_journey_carries.
  intros j _. now apply answer_writes_step.
Qed.

Lemma single_answer (key text : string) :
  is_checkpoint key = true -> answer_writes [(key, PyStr text)].
Proof.
  intros Hk. constructor; [|constructor]. split; [exact Hk|]. now exists text.
Qed.

Lemma check_object_carries (stamp now : Z) (j : RenovationJourney)
      (db : Session) :
  db !! id j = Some j ->
  carries_on db (Sentinel._check_milestone_completion stamp now j db).
Proof.
  intros Hj. unfold Sentinel._check_milestone_completion.
  destruct (crud.completion_update_data j stamp) as [|kv data] eqn:Hd.
  - apply carries_on_refl.
  - rewrite <- Hd. apply update_journey_carries.
    intros j0 Hj0. rewrite Hj in Hj0. injection Hj0 as <-.
    apply completion_step.
Qed.

Lemma check_key_carries (stamp now journey_id : Z) (db : Session) :
  carries_on db (crud.check_milestone_completion stamp now db journey_id).2.
Proof.
  unfold crud.check_milestone_completion, crud.get_journey.
  destruct (db !! journey_id) as [row|] eqn:Hrow; [|apply carries_on_refl].
  destruct (crud.completion_update_data row stamp) as [|kv data] eqn:Hd.
  - apply carries_on_refl.
  - rewrite <- Hd. apply update_journey_carries.
    intros j0 Hj0. rewrite Hrow in Hj0. injection Hj0 as <-.
    apply completion_step.
Qed.

Lemma update_milestone_carries (t now : Z) (j : RenovationJourney)
      (db : Session) :
  db !! id j = Some j ->
  carries_on db (sentinel_functions.update_milestone t now j db).2.
Proof.
  intros Hj. unfold sentinel_functions.update_milestone.
  destruct (sentinel_functions.milestone_update_data j t) as [|kv data] eqn:Hd.
  - apply carries_on_refl.
  - rewrite <- Hd. apply update_journey_carries.
    intros j0 Hj0. rewrite Hj in Hj0. injection Hj0 as <-.
    apply milestone_update_step.
Qed.

(** The row a write leaves under the key it wrote to. *)
Lemma update_journey_row (now journey_id : Z) (data : UpdateData)
      (db : Session) (j : RenovationJourney) :
  db !! journey_id = Some j ->
  (crud.update_journey now db journey_id data).2 !! journey_id
  = Some (setattr (crud.apply_items j data) "updated_at" (PyTime now)).
Proof.
  intros Hj. rewrite update_journey_lookup, Hj.
  now destruct (decide (journey_id = journey_id)).
Qed.

Lemma written_row_id (now : Z) (data : UpdateData) (j : RenovationJourney) :
  id (setattr (crud.apply_items j data) "updated_at" (PyTime now)) = id j.
Proof. now rewrite setattr_id, apply_items_id. Qed.

(** The tool handler: turned down, or an answer written and the stricter
    evaluator run on the written row. *)
Lemma tool_call_steps (clock : Z * Z * Z) (journey_id : option Z)
      (checkpoint_name value : option string) (db : Session) :
  (sentinel_functions.update_journey
     clock journey_id checkpoint_name value db).2 = db
  \/ exists i c x j,
      journey_id = Some i /\ checkpoint_name = Some c /\ value = Some x
      /\ is_checkpoint c = true /\ x <> "" /\ db !! i = Some j
      /\ (sentinel_functions.update_journey
            clock journey_id checkpoint_name value db).2
         = (sentinel_functions.update_milestone
              clock.1.2 clock.2
              (setattr (crud.apply_items j [(c, PyStr x)])
                       "updated_at" (PyTime clock.1.1))
              (crud.update_journey clock.1.1 db i [(c, PyStr x)]).2).2.
Proof.
  destruct clock as [[now1 ct] now2]. cbn [fst snd].
  unfold sentinel_functions.update_journey.
  destruct journey_id as [i|]; [|now left].
  destruct (i =? 0); [now left|].
  destruct checkpoint_name as [c|]; [|now left].
  destruct value as [x|]; [|now left].
  destruct (String.eqb c ""); cbn [orb]; [now left|].
  destruct (String.eqb_spec x "") as [-> | Hx]; [now left|].
  fold (is_checkpoint c).
  destruct (is_checkpoint c) eqn:Hvalid; cbn [negb]; [|now left].
  unfold crud.get_journey at 1.
  destruct (db !! i) as [j|] eqn:Hj; [|now left].
  right. exists i, c, x, j.
  do 6 (split; [first [reflexivity | assumption]|]).
  unfold crud.update_journey, crud.get_journey. rewrite Hj.
  cbn [snd].
  now destruct (sentinel_functions.update_milestone _ _ _ _).
Qed.

Lemma insert_carries (k : Z) (j j' : RenovationJourney) (db : Session) :
  db !! k = Some j -> progress j j' -> (sound j -> sound j') ->
  carries_on db (<[k := j']> db).
Proof.
  intros Hj P S. split.
  - intros k0 j0 Hj0. destruct (decide (k = k0)) as [<- | Hne].
    + rewrite lookup_insert_eq. rewrite Hj in Hj0. injection Hj0 as <-. eauto.
    + rewrite lookup_insert_ne by assumption.
      exists j0. split; [assumption|]. split; [apply progress_refl|auto].
  - intros k0 j0 Hn. destruct (decide (k = k0)) as [<- | Hne].
    + congruence.
    + rewrite lookup_insert_ne by assumption. congruence.
Qed.

Lemma advance_step_crud (j : RenovationJourney) (v : PyVal) :
  current_milestone j < 3 ->
  let j' := setattr (setattr j "current_milestone"
                             (PyInt (current_milestone j + 1)))
                    "updated_at" v in
  progress j j' /\ (sound j -> sound j')
  /\ current_milestone j' = current_milestone j + 1.
Proof.
  intros Hlt. destruct j as [i u cm st r rp m1 m1a b tl m2 m2a s p m3 m3a ca ua].
  cbn in Hlt. cbv zeta. cbn.
  split; [|split; [|reflexivity]].
  - constructor; cbn; auto; lia.
  - intros [Hm H1 H2 H3 Hf Hs]. constructor; cbn in *; auto. lia.
Qed.

Lemma scan_answer_writes (keywords : list (string * string))
      (text : string) (field : option string) (key : string) :
  is_checkpoint key = true ->
  answer_writes (JourneyHandler.scan keywords text field key).
Proof.
  intros Hk. induction keywords as [|[keyword value] rest IH]; cbn.
  - constructor.
  - destruct (_ && _); [now apply single_answer | exact IH].
Qed.

Lemma extraction_answer_writes (j : RenovationJourney) (message : string) :
  answer_writes (JourneyHandler.extraction_update_data j message).
Proof.
  unfold JourneyHandler.extraction_update_data, answer_writes.
  repeat (destruct (current_milestone j =? _);
          [apply Forall_app; split; now apply scan_answer_writes|]).
  constructor.
Qed.

(** The fallback extractor: nothing found, or the answers written and the
    current-milestone check run on the written row. *)
Lemma fallback_steps (clock : Z * Z * Z) (j : RenovationJourney)
      (message : string) (db : Session) :
  db !! id j = Some j ->
  let data := JourneyHandler.extraction_update_data j message in
  let written := setattr (crud.apply_items j data)
                         "updated_at" (PyTime clock.1.1) in
  let db1 := (crud.update_journey clock.1.1 db (id j) data).2 in
  JourneyHandler._analyze_message_for_checkpoints clock j message db
  = match data with
    | [] => (Some j, db)
    | _ =>
        (Sentinel._check_milestone_completion clock.1.2 clock.2 written db1
           !! id j,
         Sentinel._check_milestone_completion clock.1.2 clock.2 written db1)
    end.
Proof.
  intros Hj. destruct clock as [[now1 stamp] now2]. cbn [fst snd]. cbv zeta.
  unfold JourneyHandler._analyze_message_for_checkpoints,
    JourneyHandler.extraction_write.
  destruct (JourneyHandler.extraction_update_data j message) as [|kv data] eqn:Hd;
    [reflexivity|].
  unfold crud.get_journey. rewrite (update_journey_row _ _ _ _ _ Hj).
  reflexivity.
Qed.

Lemma new_journey_sound (pk uid now : Z) : sound (new_journey pk uid now).
Proof.
  constructor; cbn.
  - lia.
  - split; intros; [discriminate | congruence].
  - split; intros; [discriminate | congruence].
  - split; intros; [discriminate | congruence].
  - unfold flags_imply_filled. cbn. intuition discriminate.
  - discriminate.
Qed.

(** Every operation carries the session on. *)
Lemma transition_carries (db db' : Session) :
  rows_keyed db -> transition db db' -> carries_on db db'.
Proof.
  intros Hk Ht.
  destruct Ht as [ db now pk uid Hfresh
                 | db clock journey_id checkpoint_name value
                 | db clock j message Hj
                 | db stamp now journey_id
                 | db current_time now j Hj
                 | db now journey_id checkpoint_name value
                 | db now journey_id
                 | db stamp now journey_id
                 | db clock journey_id checkpoint_name value
                 | db stamp now journey_id
                 | db stamp now journey_id ].
  - unfold crud.create_journey. cbn [snd]. split.
    + intros k j Hj. assert (pk <> k) by congruence.
      rewrite lookup_insert_ne by assumption.
      exists j. split; [assumption|]. split; [apply progress_refl|auto].
    + intros k j' Hn. destruct (decide (pk = k)) as [<- | Hne].
      * rewrite lookup_insert_eq. intros [= <-]. split; [reflexivity|].
        apply new_journey_sound.
      * rewrite lookup_insert_ne by assumption. congruence.
  - destruct (tool_call_steps clock journey_id checkpoint_name value db)
      as [-> | (i & c & x & j & _ & _ & _ & Hc & _ & Hj & ->)].
    + apply carries_on_refl.
    + eapply carries_on_trans.
      * apply (answers_carry clock.1.1 i [(c, PyStr x)]). now apply single_answer.
      * apply update_milestone_carries.
        rewrite written_row_id, (Hk i j Hj).
        now apply update_journey_row.
  - rewrite (fallback_steps clock j message db Hj).
    pose proof (extraction_answer_writes j message) as Hw.
    destruct (JourneyHandler.extraction_update_data j message) as [|kv data] eqn:Hd.
    + apply carries_on_refl.
    + cbn [snd]. eapply carries_on_trans.
      * apply (answers_carry clock.1.1 (id j)). exact Hw.
      * apply check_object_carries.
        rewrite written_row_id. now apply update_journey_row.
  - apply check_key_carries.
  - now apply update_milestone_carries.
  - unfold CrudOps.update_checkpoint.
    change (PyStr.mem checkpoint_name CrudOps.field_mapping)
      with (is_checkpoint checkpoint_name).
    destruct (is_checkpoint checkpoint_name) eqn:Hc; cbn [negb].
    + apply answers_carry. now apply single_answer.
    + apply carries_on_refl.
  - unfold CrudOps.advance_milestone, crud.get_journey.
    destruct (db !! journey_id) as [j|] eqn:Hj; [|apply carries_on_refl].
    destruct (Z.leb_spec 3 (current_milestone j)); [apply carries_on_refl|].
    cbn [snd].
    destruct (advance_step_crud j (PyTime now)) as (P & S & _); [assumption|].
    now apply (insert_carries journey_id j).
  - unfold CrudOps.complete_journey. apply update_journey_carries.
    intros j _. destruct (complete_step j stamp now) as (P & S & _). now split.
  - destruct clock as [[now1 stamp] now2]. unfold journeys.save_checkpoint.
    unfold crud.get_journey at 1.
    destruct (db !! journey_id) as [j|] eqn:Hj; [|apply carries_on_refl].
    change (PyStr.mem checkpoint_name CrudOps.field_mapping)
      with (is_checkpoint checkpoint_name).
    destruct (is_checkpoint checkpoint_name) eqn:Hc; cbn [negb];
      [|apply carries_on_refl].
    unfold crud.get_journey. rewrite (update_journey_row _ _ _ _ _ Hj).
    cbn [snd]. eapply carries_on_trans.
    + apply (answers_carry now1 journey_id [(checkpoint_name, PyStr value)]).
      now apply single_answer.
    + change journeys.check_milestone_completion
        with (fun stamp now db j =>
                Sentinel._check_milestone_completion stamp now j db).
      cbv beta. apply check_object_carries.
      rewrite written_row_id, (Hk journey_id j Hj).
      now apply update_journey_row.
  - unfold journeys.advance_milestone, crud.get_journey.
    destruct (db !! journey_id) as [j|] eqn:Hj; [|apply carries_on_refl].
    destruct (Z.leb_spec 3 (current_milestone j)); [apply carries_on_refl|].
    cbn [snd]. apply update_journey_carries.
    intros j0 Hj0. rewrite Hj in Hj0. injection Hj0 as <-.
    destruct (advance_step j (PyTime stamp) (PyTime now)) as (P & S & _);
      [assumption|]. now split.
  - unfold journeys.complete_journey, crud.get_journey.
    destruct (db !! journey_id) as [j|] eqn:Hj; [|apply carries_on_refl].
    cbn [snd]. apply update_journey_carries.
    intros j0 _. destruct (complete_step j0 stamp now) as (P & S & _). now split.
Qed.

Lemma evolves_carries (db db' : Session) :
  rows_keyed db -> evolves db db' -> carries_on db db' /\ rows_keyed db'.
Proof.
  intros Hk. induction 1 as [db | db db' db'' _ IH Ht].
  - split; [apply carries_on_refl | assumption].
  - destruct (IH Hk) as [Hc Hk'].
    pose proof (transition_carries db' db'' Hk' Ht) as Hc'.
    split.
    + eapply carries_on_trans; eassumption.
    + eapply carries_on_keyed; eassumption.
Qed.

(* ===================================================================== *)
(** ** Journeys over any sequence of operations *)
(* ===================================================================== *)

Lemma rows_keyed_empty : rows_keyed ∅.
Proof. intros k j. rewrite lookup_empty. discriminate. Qed.

Lemma story_evolves :
  evolves ∅ Story.with_room
  /\ evolves ∅ Story.with_purpose
  /\ evolves Story.with_room Story.with_purpose.
Proof.
  assert (H1 : evolves ∅ Story.created).
  { eapply ev_step; [apply ev_refl|]. apply t_create. reflexivity. }
  assert (H2 : evolves ∅ Story.with_room).
  { eapply ev_step; [exact H1|]. apply t_tool_call. }
  split; [exact H2|]. split.
  - eapply ev_step; [exact H2|]. apply t_tool_call.
  - eapply ev_step; [apply ev_refl|]. apply t_tool_call.
Qed.

Lemma story_keyed : rows_keyed Story.with_room.
Proof.
  exact (proj2 (evolves_carries _ _ rows_keyed_empty (proj1 story_evolves))).
Qed.

(** X1: every journey of a session produced from the empty table by the
    modelled operations sits under its primary key, has a current milestone
    between 1 and 3, carries a completion time for exactly the milestones
    flagged complete, has both checkpoints of every flagged milestone
    non-null, and is completed in status once milestone 3 is flagged. *)
Theorem produced_journeys_are_sound
        (db : Session) (k : Z) (j : RenovationJourney) :
  evolves ∅ db ->
  db !! k = Some j ->
  id j = k
  /\ 1 <= current_milestone j <= 3
  /\ (milestone1_completed j = true <-> milestone1_completed_at j <> None)
  /\ (milestone2_completed j = true <-> milestone2_completed_at j <> None)
  /\ (milestone3_completed j = true <-> milestone3_completed_at j <> None)
  /\ (milestone1_completed j = true ->
      room j <> None /\ renovation_purpose j <> None)
  /\ (milestone2_completed j = true ->
      budget_range j <> None /\ timeline j <> None)
  /\ (milestone3_completed j = true ->
      style_preference j <> None /\ priority_feature j <> None)
  /\ (milestone3_completed j = true -> status j = "completed").
Proof.
  intros Hev Hj.
  destruct (evolves_carries ∅ db rows_keyed_empty Hev) as [[_ Hnew] _].
  destruct (Hnew k j (lookup_empty k) Hj) as [Hid [Hm H1 H2 H3 (F1 & F2 & F3) Hs]].
  repeat (split; [assumption|]). assumption.
Qed.

Lemma produced_journeys_are_sound_witness :
  exists j,
    Story.with_purpose !! 1 = Some j
    /\ milestone1_completed j = true
    /\ current_milestone j = 2
    /\ milestone1_completed_at j <> None.
Proof.
  destruct (Story.with_purpose !! 1) as [j|] eqn:Hj;
    [|vm_compute in Hj; discriminate Hj].
  exists j.
  pose proof (produced_journeys_are_sound
                Story.with_purpose 1 j (proj1 (proj2 story_evolves)) Hj)
    as (_ & _ & H1 & _).
  vm_compute in Hj. injection Hj as <-.
  split; [reflexivity|]. split; [reflexivity|]. split; [reflexivity|].
  apply H1. reflexivity.
Defined.

(** X2: over any sequence of the modelled operations a journey is never
    removed, its current milestone never decreases, a completion flag that
    is set stays set and keeps its completion time, an answered checkpoint
    never becomes null again, and a completed status stays completed. *)
Theorem journeys_only_progress
        (db db' : Session) (k : Z) (j : RenovationJourney) :
  rows_keyed db ->
  evolves db db' ->
  db !! k = Some j ->
  exists j',
    db' !! k = Some j'
    /\ current_milestone j <= current_milestone j'
    /\ (forall field, getattr j field <> None -> getattr j' field <> None)
    /\ (milestone1_completed j = true ->
        milestone1_completed j' = true
        /\ milestone1_completed_at j' = milestone1_completed_at j)
    /\ (milestone2_completed j = true ->
        milestone2_completed j' = true
        /\ milestone2_completed_at j' = milestone2_completed_at j)
    /\ (milestone3_completed j = true ->
        milestone3_completed j' = true
        /\ milestone3_completed_at j' = milestone3_completed_at j)
    /\ (status j = "completed" -> status j' = "completed").
Proof.
  intros Hk Hev Hj.
  destruct (evolves_carries db db' Hk Hev) as [[Hold _] _].
  destruct (Hold k j Hj) as (j' & Hj' & [_ _ _ M N F1 F2 F3 A1 A2 A3 S] & _).
  exists j'. split; [assumption|]. split; [assumption|]. split; [assumption|].
  split; [auto|]. split; [auto|]. split; [auto|]. assumption.
Qed.

Lemma journeys_only_progress_witness :
  exists j j',
    Story.with_room !! 1 = Some j
    /\ Story.with_purpose !! 1 = Some j'
    /\ current_milestone j <= current_milestone j'
    /\ getattr j' "room" <> None.
Proof.
  destruct (Story.with_room !! 1) as [j|] eqn:Hj;
    [|vm_compute in Hj; discriminate Hj].
  destruct (journeys_only_progress
              Story.with_room Story.with_purpose 1 j story_keyed
              (proj2 (proj2 story_evolves)) Hj)
    as (j' & Hj' & Hm & Ha & _).
  exists j, j'. split; [reflexivity|]. split; [assumption|].
  split; [assumption|]. apply Ha.
  vm_compute in Hj. injection Hj as <-. discriminate.
Defined.

(* ===================================================================== *)
(** ** Checkpoints of the current milestone *)
(* ===================================================================== *)

(** X3: the registry of the Sentinel and the list of the tool handler agree:
    a name is one of the six checkpoints exactly when some milestone lists
    it, no checkpoint belongs to two milestones, and a milestone other than
    1, 2 and 3 lists nothing. *)
Theorem checkpoint_registry_partitions :
  (forall name,
      In name sentinel_functions.valid_checkpoints
      <-> exists milestone,
          In name (Sentinel._get_valid_checkpoints_for_milestone milestone))
  /\ (forall name m m',
         In name (Sentinel._get_valid_checkpoints_for_milestone m) ->
         In name (Sentinel._get_valid_checkpoints_for_milestone m') ->
         m = m')
  /\ (forall m,
         Sentinel._get_valid_checkpoints_for_milestone m <> [] ->
         1 <= m <= 3).
Proof.
  split; [|split].
  - intros name. split.
    + cbn. intros [<- | [<- | [<- | [<- | [<- | [<- | []]]]]]];
        [exists 1 | exists 1 | exists 2 | exists 2 | exists 3 | exists 3];
        cbn; tauto.
    + intros [m H]. revert H. unfold Sentinel._get_valid_checkpoints_for_milestone.
      repeat (destruct (m =? _); [cbn; tauto|]). intros [].
  - intros name m m'. unfold Sentinel._get_valid_checkpoints_for_milestone.
    destruct (Z.eqb_spec m 1); [|destruct (Z.eqb_spec m 2);
      [|destruct (Z.eqb_spec m 3); [|intros []]]];
      (destruct (Z.eqb_spec m' 1); [|destruct (Z.eqb_spec m' 2);
        [|destruct (Z.eqb_spec m' 3); [|intros _ []]]]);
      cbn; intros [<- | [<- | []]] [H | [H | []]];
      first [congruence | discriminate H].
  - intros m. unfold Sentinel._get_valid_checkpoints_for_milestone.
    destruct (Z.eqb_spec m 1); [lia|]. destruct (Z.eqb_spec m 2); [lia|].
    destruct (Z.eqb_spec m 3); [lia|]. congruence.
Qed.

(** X4: the Sentinel's target is the first checkpoint, in the registry's
    order for the current milestone, whose field holds no answer, and there
    is none exactly when no such checkpoint exists; a question comes with
    the target and only with it. *)
Theorem next_checkpoint_is_first_unanswered (journey : RenovationJourney) :
  snd (Sentinel._get_next_checkpoint_to_extract journey)
  = List.find (fun name => negb (PyStr.truthy (getattr journey name)))
         (Sentinel._get_valid_checkpoints_for_milestone
            (current_milestone journey))
  /\ (fst (Sentinel._get_next_checkpoint_to_extract journey) = None
      <-> snd (Sentinel._get_next_checkpoint_to_extract journey) = None).
Proof.
  unfold Sentinel._get_next_checkpoint_to_extract,
    Sentinel._get_valid_checkpoints_for_milestone.
  destruct journey as [i u cm st r rp m1 m1a b tl m2 m2a s p m3 m3a ca ua].
  cbn [current_milestone room renovation_purpose budget_range timeline
       style_preference priority_feature].
  destruct (cm =? 1); [|destruct (cm =? 2); [|destruct (cm =? 3)]]; cbn;
    repeat match goal with
           | |- context [PyStr.truthy ?x] => destruct (PyStr.truthy x)
           end; cbn; split; try reflexivity; split; intros; congruence.
Qed.

(** X5: the completed checkpoints the handler reports are the checkpoints of
    the current milestone, in the registry's order, whose field holds an
    answer; the Sentinel's target is never among them. *)
Theorem completed_checkpoints_are_the_answered (journey : RenovationJourney) :
  JourneyHandler._get_completed_checkpoints journey
  = List.filter (fun name => PyStr.truthy (getattr journey name))
           (Sentinel._get_valid_checkpoints_for_milestone
              (current_milestone journey))
  /\ forall target,
      snd (Sentinel._get_next_checkpoint_to_extract journey) = Some target ->
      ~ In target (JourneyHandler._get_completed_checkpoints journey).
Proof.
  unfold JourneyHandler._get_completed_checkpoints,
    Sentinel._get_next_checkpoint_to_extract,
    Sentinel._get_valid_checkpoints_for_milestone.
  destruct journey as [i u cm st r rp m1 m1a b tl m2 m2a s p m3 m3a ca ua].
  cbn [current_milestone room renovation_purpose budget_range timeline
       style_preference priority_feature].
  destruct (cm =? 1); [|destruct (cm =? 2); [|destruct (cm =? 3)]]; cbn;
    repeat match goal with
           | |- context [PyStr.truthy ?x] => destruct (PyStr.truthy x)
           end; cbn; split; try reflexivity;
    intros target [= <-]; cbn; intros H;
    repeat (destruct H as [H | H]; [discriminate H|]); exact H.
Qed.

(* ===================================================================== *)
(** ** Context, change detection and response text *)
(* ===================================================================== *)

Lemma entry_in (key name text : string) (field : option string) :
  In (name, HandlerContext.CtxText text) (HandlerContext.entry key field)
  <-> name = key /\ field = Some text /\ text <> "".
Proof.
  unfold HandlerContext.entry. destruct field as [t|]; cbn.
  - destruct (String.eqb_spec t "") as [-> | Hne]; cbn.
    + split; [tauto|]. intros (_ & [= <-] & H). now contradiction H.
    + split.
      * intros [[= <- <-] | []]. auto.
      * intros (-> & [= ->] & _). now left.
  - split; [tauto|]. intros (_ & H & _). discriminate H.
Qed.

(** X6: the context handed to the response prompt exposes a checkpoint value
    exactly when the checkpoint belongs to a milestone up to the current one
    and holds a non-empty answer; a value of a later milestone never shows,
    even when the field is filled. *)
Theorem context_exposes_unlocked_answers
        (journey : RenovationJourney) (name text : string) :
  In (name, HandlerContext.CtxText text) (HandlerContext._build_context journey)
  <-> (exists milestone,
          milestone <= current_milestone journey
          /\ In name (Sentinel._get_valid_checkpoints_for_milestone milestone))
      /\ getattr journey name = Some text
      /\ text <> "".
Proof.
  unfold HandlerContext._build_context.
  destruct journey as [i u cm st r rp m1 m1a b tl m2 m2a s p m3 m3a ca ua].
  cbn [current_milestone room renovation_purpose budget_range timeline
       style_preference priority_feature].
  split.
  - intros H.
    assert (Hcases :
              (1 <= cm /\ (In (name, HandlerContext.CtxText text)
                              (HandlerContext.entry "room" r)
                           \/ In (name, HandlerContext.CtxText text)
                                 (HandlerContext.entry "renovation_purpose" rp)))
              \/ (2 <= cm /\ (In (name, HandlerContext.CtxText text)
                                 (HandlerContext.entry "budget_range" b)
                              \/ In (name, HandlerContext.CtxText text)
                                    (HandlerContext.entry "timeline" tl)))
              \/ (3 <= cm /\ (In (name, HandlerContext.CtxText text)
                                 (HandlerContext.entry "style_preference" s)
                              \/ In (name, HandlerContext.CtxText text)
                                    (HandlerContext.entry "priority_feature" p)))).
    { revert H.
      destruct (Z.leb_spec 1 cm), (Z.leb_spec 2 cm), (Z.leb_spec 3 cm);
        rewrite ?in_app_iff; cbn [In];
        intros Hin; repeat (destruct Hin as [Hin | Hin]);
        try discriminate Hin; try contradiction; tauto. }
    destruct Hcases as [[Hm [H1 | H1]] | [[Hm [H1 | H1]] | [Hm [H1 | H1]]]];
      apply entry_in in H1 as (-> & -> & Hne);
      (split; [|split; [reflexivity | assumption]]);
      [exists 1 | exists 1 | exists 2 | exists 2 | exists 3 | exists 3];
      (split; [assumption | cbn; tauto]).
  - intros ((m & Hm & Hin) & Hget & Hne).
    revert Hin. unfold Sentinel._get_valid_checkpoints_for_milestone.
    destruct (Z.eqb_spec m 1) as [-> | ?];
      [|destruct (Z.eqb_spec m 2) as [-> | ?];
        [|destruct (Z.eqb_spec m 3) as [-> | ?]; [|intros []]]];
      cbn [In]; intros [<- | [<- | []]]; cbn in Hget; subst;
      destruct (Z.leb_spec 1 cm), (Z.leb_spec 2 cm), (Z.leb_spec 3 cm);
      try lia; rewrite ?in_app_iff, !entry_in; tauto.
Qed.

Lemma opt_text_eqb_eq (a b : option string) :
  Sentinel.opt_text_eqb a b = true <-> a = b.
Proof.
  destruct a as [x|], b as [y|]; cbn; try (split; congruence).
  rewrite String.eqb_eq. split; congruence.
Qed.

(** X7: the Sentinel's change test answers "unchanged" exactly when the two
    journeys agree on the six checkpoint fields, the three completion flags,
    the current milestone and the status; completion times, [updated_at] and
    the other columns play no part. *)
Theorem journey_was_updated_compares_eleven_fields
        (original updated : RenovationJourney) :
  Sentinel._journey_was_updated original updated = false
  <-> room original = room updated
      /\ renovation_purpose original = renovation_purpose updated
      /\ budget_range original = budget_range updated
      /\ timeline original = timeline updated
      /\ style_preference original = style_preference updated
      /\ priority_feature original = priority_feature updated
      /\ milestone1_completed original = milestone1_completed updated
      /\ milestone2_completed original = milestone2_completed updated
      /\ milestone3_completed original = milestone3_completed updated
      /\ current_milestone original = current_milestone updated
      /\ status original = status updated.
Proof.
  unfold Sentinel._journey_was_updated. cbn [existsb getattr String.eqb Ascii.eqb Bool.eqb].
  rewrite !orb_false_iff, !negb_false_iff, !opt_text_eqb_eq,
    !Bool.eqb_true_iff, Z.eqb_eq, String.eqb_eq.
  cbn. tauto.
Qed.

Lemma first_text_head (content : list HandlerContext.ContentItem) :
  HandlerContext.first_text content
  = head (texts_of (HandlerContext.mkOutput (Some content))).
Proof.
  unfold texts_of. cbn.
  induction content as [|[t] rest IH]; cbn; [reflexivity|].
  destruct t as [t|]; cbn; [|exact IH].
  destruct (String.eqb t ""); cbn; [exact IH | reflexivity].
Qed.

(** X8: the response text taken from the model's output is the first
    non-empty text of its content items, output item by output item in
    order, and the apology sentence exactly when no content item has a
    non-empty text (also for a missing or empty output). *)
Theorem response_text_is_first_text
        (output : option (list HandlerContext.OutputItem)) :
  HandlerContext.response_text output
  = match flat_map texts_of (default [] output) with
    | text :: _ => text
    | [] => HandlerContext.apology
    end.
Proof.
  assert (Hscan : forall items,
             HandlerContext.scan_output items
             = match flat_map texts_of items with
               | text :: _ => text
               | [] => HandlerContext.apology
               end).
  { induction items as [|[content] rest IH]; [reflexivity|].
    cbn [HandlerContext.scan_output HandlerContext.item_content flat_map].
    destruct content as [[|c cs]|]; try exact IH.
    rewrite first_text_head.
    destruct (texts_of {| HandlerContext.item_content := Some (c :: cs) |})
      as [|t ts]; cbn; [exact IH | reflexivity]. }
  destruct output as [[|item rest]|]; cbn [HandlerContext.response_text];
    try reflexivity.
  apply Hscan.
Qed.

(* ===================================================================== *)
(** ** The explicit operations of crud.py and of the journeys router *)
(* ===================================================================== *)

Lemma updated_at_written (j : RenovationJourney) (now : Z) :
  updated_at (setattr j "updated_at" (PyTime now)) = now.
Proof. now destruct j. Qed.

Lemma update_journey_some (now journey_id : Z) (data : UpdateData)
      (db : Session) (j : RenovationJourney) :
  db !! journey_id = Some j ->
  crud.update_journey now db journey_id data
  = (Some (setattr (crud.apply_items j data) "updated_at" (PyTime now)),
     <[journey_id := setattr (crud.apply_items j data)
                             "updated_at" (PyTime now)]> db).
Proof.
  intros Hj. unfold crud.update_journey, crud.get_journey. now rewrite Hj.
Qed.

Lemma update_journey_none (now journey_id : Z) (data : UpdateData)
      (db : Session) :
  db !! journey_id = None ->
  crud.update_journey now db journey_id data = (None, db).
Proof.
  intros Hj. unfold crud.update_journey, crud.get_journey. now rewrite Hj.
Qed.

Lemma setattr_owner (j : RenovationJourney) (key : string) (v : PyVal) :
  column_accepts key v = true ->
  user_id (setattr j key v) = user_id j.
Proof.
  intros Hacc. destruct j. unfold setattr.
  repeat (case_key key; [reflexivity|]).
  case_key key; [discriminate Hacc | reflexivity].
Qed.

Lemma apply_items_owner (data : UpdateData) (j : RenovationJourney) :
  typed_columns data ->
  user_id (crud.apply_items j data) = user_id j.
Proof.
  unfold crud.apply_items, typed_columns. revert j.
  induction data as [|[k v] data IH]; intros j Htyped; simpl; [reflexivity|].
  apply Forall_cons_1 in Htyped as [Hkv Hrest].
  rewrite IH by exact Hrest. now apply setattr_owner.
Qed.

(** X9: [crud.update_journey] answers [None] and leaves the session as it is
    when the journey is missing. For a dictionary that writes columns other
    than the primary key and the foreign key with values of their type, it
    otherwise returns the row it stores under [journey_id], with the primary
    key and the owner it had and with the call's own clock reading in
    [updated_at] whatever the dictionary says; no other row is touched and
    no key appears or disappears. *)
Theorem update_journey_touches_one_row
        (now journey_id : Z) (data : UpdateData) (db : Session) :
  typed_columns data ->
  (db !! journey_id = None ->
   crud.update_journey now db journey_id data = (None, db))
  /\ (forall j, db !! journey_id = Some j ->
        exists j',
          crud.update_journey now db journey_id data
          = (Some j', <[journey_id := j']> db)
          /\ id j' = id j
          /\ user_id j' = user_id j
          /\ updated_at j' = now)
  /\ (forall k, k <> journey_id ->
        (crud.update_journey now db journey_id data).2 !! k = db !! k)
  /\ (forall k, is_Some ((crud.update_journey now db journey_id data).2 !! k)
                <-> is_Some (db !! k)).
Proof.
  intros Htyped. split; [|split; [|split]].
  - intros Hnone. unfold crud.update_journey, crud.get_journey.
    now rewrite Hnone.
  - intros j Hj. unfold crud.update_journey, crud.get_journey. rewrite Hj.
    eexists. split; [reflexivity|].
    split; [now rewrite setattr_id, apply_items_id|].
    split; [|apply updated_at_written].
    rewrite setattr_owner by reflexivity. now apply apply_items_owner.
  - intros k Hk. rewrite update_journey_lookup.
    destruct (decide (k = journey_id)); [contradiction | reflexivity].
  - intros k. rewrite update_journey_lookup.
    destruct (decide (k = journey_id)); [|reflexivity].
    rewrite fmap_is_Some. reflexivity.
Qed.

(** The dictionary of [complete_journey] on a new journey: its [updated_at]
    entry is overridden by the clock reading of the write. *)
Lemma update_journey_touches_one_row_witness :
  exists j',
    crud.update_journey
      300 Samples.fresh_db 1
      [("status", PyStr "completed"); ("updated_at", PyTime 250)]
    = (Some j', <[1 := j']> Samples.fresh_db)
    /\ id j' = id Samples.fresh
    /\ user_id j' = user_id Samples.fresh
    /\ updated_at j' = 300.
Proof.
  refine (proj1 (proj2 (update_journey_touches_one_row
                          300 1 [("status", PyStr "completed");
                                 ("updated_at", PyTime 250)]
                          Samples.fresh_db _))
                Samples.fresh _).
  - repeat constructor.
  - reflexivity.
Defined.

Lemma advance_row (j : RenovationJourney) (v : PyVal) (now : Z) :
  setattr (crud.apply_items
             j [("current_milestone", PyInt (current_milestone j + 1));
                ("updated_at", v)])
          "updated_at" (PyTime now)
  = setattr (setattr j "current_milestone" (PyInt (current_milestone j + 1)))
            "updated_at" (PyTime now).
Proof. destruct j, v; reflexivity. Qed.

Lemma advance_row_fields (j : RenovationJourney) (now : Z) :
  let j' := setattr (setattr j "current_milestone"
                             (PyInt (current_milestone j + 1)))
                    "updated_at" (PyTime now) in
  current_milestone j' = current_milestone j + 1
  /\ same_answers j j'
  /\ milestone1_completed j' = milestone1_completed j
  /\ milestone2_completed j' = milestone2_completed j
  /\ milestone3_completed j' = milestone3_completed j
  /\ status j' = status j.
Proof. destruct j; cbn. repeat split. Qed.

(** X10: advancing moves a journey exactly one milestone up and never past
    milestone 3: a missing journey (404 at the endpoint, [None] in crud) and
    a journey at milestone 3 or beyond leave the session unchanged; below 3
    the stored row has [current_milestone + 1] and the same answers, flags
    and status, whether or not the milestone left behind was completed. The
    endpoint and [crud.advance_milestone] leave the same session. *)
Theorem advance_milestone_moves_one_step
        (stamp now journey_id : Z) (db : Session) :
  (journeys.advance_milestone stamp now journey_id db).2
  = (CrudOps.advance_milestone now db journey_id).2
  /\ match db !! journey_id with
     | None =>
         CrudOps.advance_milestone now db journey_id = (None, db)
         /\ (journeys.advance_milestone stamp now journey_id db).1
            = journeys.HTTPException 404
     | Some j =>
         if 3 <=? current_milestone j then
           CrudOps.advance_milestone now db journey_id = (None, db)
           /\ (journeys.advance_milestone stamp now journey_id db).1
              = journeys.Ok None
         else
           exists j',
             CrudOps.advance_milestone now db journey_id
             = (Some j', <[journey_id := j']> db)
             /\ (journeys.advance_milestone stamp now journey_id db).1
                = journeys.Ok (Some (current_milestone j + 1))
             /\ current_milestone j' = current_milestone j + 1
             /\ same_answers j j'
             /\ milestone1_completed j' = milestone1_completed j
             /\ milestone2_completed j' = milestone2_completed j
             /\ milestone3_completed j' = milestone3_completed j
             /\ status j' = status j
     end.
Proof.
  unfold journeys.advance_milestone, CrudOps.advance_milestone,
    crud.update_journey, crud.get_journey.
  destruct (db !! journey_id) as [j|] eqn:Hj; [|split; [reflexivity | now split]].
  destruct (3 <=? current_milestone j) eqn:Hcm;
    [split; [reflexivity | now split]|].
  cbv zeta. split.
  - cbn [snd]. now rewrite advance_row.
  - eexists. split; [reflexivity|]. split; [reflexivity|].
    apply advance_row_fields.
Qed.

Lemma complete_row_fields (j : RenovationJourney) (stamp now : Z) :
  let j' := setattr (crud.apply_items
                       j [("status", PyStr "completed");
                          ("updated_at", PyTime stamp)])
                    "updated_at" (PyTime now) in
  status j' = "completed"
  /\ current_milestone j' = current_milestone j
  /\ same_answers j j'
  /\ milestone1_completed j' = milestone1_completed j
  /\ milestone2_completed j' = milestone2_completed j
  /\ milestone3_completed j' = milestone3_completed j
  /\ updated_at j' = now.
Proof. destruct j; cbn. repeat split. Qed.

(** X11: marking a journey complete only sets its status: a missing journey
    is answered by 404 ([None] in crud) and nothing is written; otherwise the
    stored row has status "completed", the same milestone, answers and
    completion flags (no milestone has to be completed), [updated_at] is the
    clock reading of the write and not the one put into the dictionary, and
    the prompt selected for the row is JOURNEY_COMPLETE whatever the
    completed checkpoints are. The endpoint and [crud.complete_journey]
    leave the same session. *)
Theorem complete_journey_only_sets_status
        (stamp now journey_id : Z) (db : Session) :
  (journeys.complete_journey stamp now journey_id db).2
  = (CrudOps.complete_journey stamp now db journey_id).2
  /\ match db !! journey_id with
     | None =>
         CrudOps.complete_journey stamp now db journey_id = (None, db)
         /\ journeys.complete_journey stamp now journey_id db
            = (journeys.HTTPException 404, db)
     | Some j =>
         exists j',
           CrudOps.complete_journey stamp now db journey_id
           = (Some j', <[journey_id := j']> db)
           /\ (journeys.complete_journey stamp now journey_id db).1
              = journeys.Ok tt
           /\ status j' = "completed"
           /\ current_milestone j' = current_milestone j
           /\ same_answers j j'
           /\ milestone1_completed j' = milestone1_completed j
           /\ milestone2_completed j' = milestone2_completed j
           /\ milestone3_completed j' = milestone3_completed j
           /\ updated_at j' = now
           /\ forall (Context : Type) (context : Context)
                     (completed_checkpoints : list string),
               prompts.template
                 (prompts.get_prompt_for_journey
                    j' context completed_checkpoints)
               = prompts.JOURNEY_COMPLETE
     end.
Proof.
  unfold journeys.complete_journey, CrudOps.complete_journey,
    crud.update_journey, crud.get_journey.
  destruct (db !! journey_id) as [j|] eqn:Hj; [|split; [reflexivity | now split]].
  cbv zeta. split; [reflexivity|].
  eexists. split; [reflexivity|]. split; [reflexivity|].
  pose proof (complete_row_fields j stamp now) as H. cbv zeta in H.
  destruct H as (Hs & Hc & Ha & F1 & F2 & F3 & Hu).
  repeat (split; [assumption|]).
  intros Context context completed_checkpoints.
  unfold prompts.get_prompt_for_journey. rewrite Hs. reflexivity.
Qed.

Lemma checkpoint_row (j : RenovationJourney) (name value : string) (now : Z) :
  is_checkpoint name = true ->
  let j' := setattr (crud.apply_items j [(name, PyStr value)])
                    "updated_at" (PyTime now) in
  same_core j j'
  /\ getattr j' name = Some value
  /\ (forall field, field <> name -> getattr j' field = getattr j field)
  /\ updated_at j' = now.
Proof.
  intros Hname. cbv zeta. cbn [crud.apply_items fold_left fst snd].
  split; [|split; [|split]].
  - eapply same_core_trans; [apply setattr_checkpoint_core, Hname|].
    apply updated_at_core.
  - rewrite updated_at_getattr, getattr_setattr_checkpoint by exact Hname.
    now rewrite String.eqb_refl.
  - intros field Hne.
    rewrite updated_at_getattr, getattr_setattr_checkpoint by exact Hname.
    destruct (String.eqb_spec field name); [contradiction | reflexivity].
  - apply updated_at_written.
Qed.

(** X12: [crud.update_checkpoint] writes one answer and nothing else: an
    unknown checkpoint name or a missing journey gives [None] and an
    unchanged session; otherwise the stored row holds the value under the
    named checkpoint, overwriting an earlier answer, and keeps the other
    five answers, the milestone, the flags, the completion times and the
    status; no completion check is run. *)
Theorem update_checkpoint_writes_one_answer
        (now journey_id : Z) (checkpoint_name value : string) (db : Session) :
  (is_checkpoint checkpoint_name = false \/ db !! journey_id = None ->
   CrudOps.update_checkpoint now db journey_id checkpoint_name value
   = (None, db))
  /\ (forall j,
         is_checkpoint checkpoint_name = true ->
         db !! journey_id = Some j ->
         exists j',
           CrudOps.update_checkpoint now db journey_id checkpoint_name value
           = (Some j', <[journey_id := j']> db)
           /\ getattr j' checkpoint_name = Some value
           /\ (forall field, field <> checkpoint_name ->
                             getattr j' field = getattr j field)
           /\ same_core j j').
Proof.
  unfold CrudOps.update_checkpoint, crud.update_journey, crud.get_journey.
  change (PyStr.mem checkpoint_name CrudOps.field_mapping)
    with (is_checkpoint checkpoint_name).
  split.
  - intros [-> | Hnone]; [reflexivity|].
    rewrite Hnone. now destruct (is_checkpoint checkpoint_name).
  - intros j Hname Hj. rewrite Hname, Hj. cbn [negb]. cbv zeta.
    eexists. split; [reflexivity|].
    destruct (checkpoint_row j checkpoint_name value now Hname)
      as (Hcore & Hget & Hother & _).
    auto.
Qed.

Lemma router_check_row (stamp now : Z) (j : RenovationJourney) (db : Session) :
  db !! id j = Some j ->
  exists j',
    journeys.check_milestone_completion stamp now db j !! id j = Some j'
    /\ (forall k, k <> id j ->
          journeys.check_milestone_completion stamp now db j !! k = db !! k)
    /\ current_evaluated j'
    /\ same_answers j j'
    /\ current_milestone j' = current_milestone j
    /\ milestone1_completed j'
       = milestone1_completed j || ((current_milestone j =? 1) && complete1 j)
    /\ milestone2_completed j'
       = milestone2_completed j || ((current_milestone j =? 2) && complete2 j)
    /\ milestone3_completed j'
       = milestone3_completed j || ((current_milestone j =? 3) && complete3 j).
Proof.
  intros Hj. unfold journeys.check_milestone_completion.
  pose proof (completion_effect j stamp) as He. cbv zeta in He.
  destruct (crud.completion_update_data j stamp) as [|kv rest] eqn:Hdata.
  - destruct He as (Ha & F1 & F2 & F3 & Hc).
    exists j. split; [exact Hj|]. split; [reflexivity|].
    split; [eapply completion_update_data_nil_inv, Hdata|].
    cbn in Ha, F1, F2, F3, Hc. auto.
  - set (data := kv :: rest) in *.
    destruct He as (Ha & F1 & F2 & F3 & Hc).
    eexists. split; [apply update_journey_row, Hj|].
    split.
    { intros k Hk. rewrite update_journey_lookup.
      destruct (decide (k = id j)); [contradiction | reflexivity]. }
    split; [rewrite <- Hdata; apply (after_completion_check j stamp now)|].
    pose proof (updated_at_effect (crud.apply_items j data) now) as Hu.
    cbv zeta in Hu. destruct Hu as (Ha' & G1 & G2 & G3 & Hc' & _).
    split.
    { destruct Ha, Ha'. constructor; congruence. }
    repeat split; congruence.
Qed.

(** X13: the checkpoint endpoint is [crud.update_checkpoint] followed by the
    router's completion check on the re-fetched row. A missing journey is
    answered by 404 before the name is looked at, an unknown name by 400,
    both without a write. Otherwise the value, whatever it is, replaces the
    named answer; the other answers and [current_milestone] stay; the flag
    of the current milestone is raised when both its answers are non-empty
    after the write, no flag is lowered, and no other row is touched. *)
Theorem save_checkpoint_writes_then_checks
        (clock : Z * Z * Z) (journey_id : Z) (checkpoint_name value : string)
        (db : Session) :
  (journeys.save_checkpoint clock journey_id checkpoint_name value db).2
  = match CrudOps.update_checkpoint
            clock.1.1 db journey_id checkpoint_name value with
    | (Some written, db1) =>
        journeys.check_milestone_completion clock.1.2 clock.2 db1 written
    | (None, _) => db
    end
  /\ match db !! journey_id with
     | None =>
         journeys.save_checkpoint clock journey_id checkpoint_name value db
         = (journeys.HTTPException 404, db)
     | Some j =>
         if is_checkpoint checkpoint_name then
           id j = journey_id ->
           exists j',
             (journeys.save_checkpoint
                clock journey_id checkpoint_name value db).1
             = journeys.Ok (checkpoint_name, value)
             /\ (journeys.save_checkpoint
                   clock journey_id checkpoint_name value db).2 !! journey_id
                = Some j'
             /\ (forall k, k <> journey_id ->
                   (journeys.save_checkpoint
                      clock journey_id checkpoint_name value db).2 !! k
                   = db !! k)
             /\ getattr j' checkpoint_name = Some value
             /\ (forall field, field <> checkpoint_name ->
                               getattr j' field = getattr j field)
             /\ current_milestone j' = current_milestone j
             /\ current_evaluated j'
             /\ (milestone1_completed j = true -> milestone1_completed j' = true)
             /\ (milestone2_completed j = true -> milestone2_completed j' = true)
             /\ (milestone3_completed j = true -> milestone3_completed j' = true)
         else
           journeys.save_checkpoint clock journey_id checkpoint_name value db
           = (journeys.HTTPException 400, db)
     end.
Proof.
  destruct clock as [[now1 stamp] now2]. cbn [fst snd].
  unfold journeys.save_checkpoint, CrudOps.update_checkpoint.
  change (PyStr.mem checkpoint_name CrudOps.field_mapping)
    with (is_checkpoint checkpoint_name).
  unfold crud.get_journey.
  destruct (db !! journey_id) as [j|] eqn:Hj.
  2:{ split; [|reflexivity]. rewrite update_journey_none by exact Hj.
      now destruct (is_checkpoint checkpoint_name). }
  destruct (is_checkpoint checkpoint_name) eqn:Hname; cbn [negb];
    [|split; reflexivity].
  cbv zeta. rewrite (update_journey_some _ _ _ _ _ Hj). cbn [snd].
  set (written := setattr (crud.apply_items j [(checkpoint_name, PyStr value)])
                          "updated_at" (PyTime now1)).
  rewrite lookup_insert_eq.
  split; [reflexivity|].
  intros Hid. cbn [fst snd].
  destruct (checkpoint_row j checkpoint_name value now1 Hname)
    as (Hcore & Hget & Hother & _). fold written in Hcore, Hget, Hother.
  assert (Hidw : id written = journey_id).
  { rewrite (core_id _ _ Hcore). exact Hid. }
  assert (Hlive : <[journey_id := written]> db !! id written = Some written).
  { rewrite Hidw. apply lookup_insert_eq. }
  destruct (router_check_row stamp now2 written _ Hlive)
    as (j' & Hrow & Hframe & Hev & Ha & Hcm & F1 & F2 & F3).
  rewrite Hidw in Hrow, Hframe.
  exists j'. split; [reflexivity|]. split; [exact Hrow|].
  split.
  { intros k Hk. rewrite Hframe by exact Hk. now apply lookup_insert_ne. }
  assert (Hgetattr : forall f, getattr j' f = getattr written f).
  { intros f. destruct Ha. unfold getattr.
    repeat match goal with |- context [String.eqb f ?s] =>
                             destruct (String.eqb f s) end; congruence. }
  split; [now rewrite Hgetattr|].
  split; [intros f Hf; rewrite Hgetattr; now apply Hother|].
  split; [rewrite Hcm; apply (core_milestone _ _ Hcore)|].
  split; [exact Hev|].
  rewrite F1, F2, F3, (core_flag1 _ _ Hcore), (core_flag2 _ _ Hcore),
    (core_flag3 _ _ Hcore).
  repeat split; intros ->; reflexivity.
Qed.

(* ===================================================================== *)
(** ** The evaluators after a write *)
(* ===================================================================== *)

Lemma tool_call_commit (clock : Z * Z * Z) (i : Z) (c x : string)
      (db : Session) (j : RenovationJourney) :
  db !! i = Some j -> i <> 0 -> is_checkpoint c = true -> x <> "" ->
  sentinel_functions.update_journey clock (Some i) (Some c) (Some x) db
  = (sentinel_functions.Updated c x i,
     (sentinel_functions.update_milestone
        clock.1.2 clock.2
        (setattr (crud.apply_items j [(c, PyStr x)])
                 "updated_at" (PyTime clock.1.1))
        (<[i := setattr (crud.apply_items j [(c, PyStr x)])
                        "updated_at" (PyTime clock.1.1)]> db)).2).
Proof.
  intros Hj Hi Hc Hx. destruct clock as [[now1 t] now2]. cbn [fst snd].
  unfold sentinel_functions.update_journey.
  destruct (Z.eqb_spec i 0) as [|_]; [contradiction|].
  assert (Hc' : c <> "").
  { intros ->. discriminate Hc. }
  destruct (String.eqb_spec c "") as [|_]; [contradiction|].
  destruct (String.eqb_spec x "") as [|_]; [contradiction|].
  cbn [orb].
  change (PyStr.mem c sentinel_functions.valid_checkpoints)
    with (is_checkpoint c).
  rewrite Hc. cbn [negb]. unfold crud.get_journey. rewrite Hj. cbv zeta.
  rewrite (update_journey_some _ _ _ _ _ Hj).
  now destruct (sentinel_functions.update_milestone _ _ _ _).
Qed.

Lemma update_milestone_frame (t now : Z) (u : RenovationJourney)
      (db : Session) (k : Z) :
  k <> id u ->
  (sentinel_functions.update_milestone t now u db).2 !! k = db !! k.
Proof.
  intros Hk. unfold sentinel_functions.update_milestone.
  destruct (sentinel_functions.milestone_update_data u t); [reflexivity|].
  rewrite update_journey_lookup.
  destruct (decide (k = id u)); [contradiction | reflexivity].
Qed.

(** X14: a committed tool call of the Sentinel leaves its journey fully
    evaluated: the stored row holds the value, every milestone whose two
    answers are non-empty is flagged, [current_milestone] has not gone down
    and is past the highest filled milestone when that is below 3; no other
    row is touched. *)
Theorem committed_tool_call_evaluates_every_milestone
        (clock : Z * Z * Z) (journey_id : Z) (checkpoint_name value : string)
        (db : Session) (j : RenovationJourney) :
  db !! journey_id = Some j ->
  id j = journey_id ->
  journey_id <> 0 ->
  is_checkpoint checkpoint_name = true ->
  value <> "" ->
  let res := sentinel_functions.update_journey
               clock (Some journey_id) (Some checkpoint_name) (Some value) db in
  res.1 = sentinel_functions.Updated checkpoint_name value journey_id
  /\ (forall k, k <> journey_id -> res.2 !! k = db !! k)
  /\ exists j',
      res.2 !! journey_id = Some j'
      /\ getattr j' checkpoint_name = Some value
      /\ fully_evaluated j'
      /\ current_milestone j <= current_milestone j'.
Proof.
  intros Hj Hid Hne Hname Hvalue res. subst res.
  rewrite (tool_call_commit clock _ _ _ _ _ Hj Hne Hname Hvalue).
  cbn [fst snd].
  set (written := setattr (crud.apply_items j [(checkpoint_name, PyStr value)])
                          "updated_at" (PyTime clock.1.1)).
  destruct (checkpoint_row j checkpoint_name value clock.1.1 Hname)
    as (Hcore & Hget & _ & _). fold written in Hcore, Hget.
  assert (Hidw : id written = journey_id).
  { rewrite (core_id _ _ Hcore). exact Hid. }
  assert (Hlive : <[journey_id := written]> db !! id written = Some written).
  { rewrite Hidw. apply lookup_insert_eq. }
  split; [reflexivity|]. split.
  { intros k Hk. rewrite update_milestone_frame by congruence.
    now apply lookup_insert_ne. }
  destruct (update_milestone_live_row clock.1.2 clock.2 written _ Hlive)
    as (j' & db' & Hrun & Hrow & Hid' & Hev & Hcm).
  rewrite Hrun. cbn [snd]. exists j'.
  rewrite Hid', Hidw in Hrow. split; [exact Hrow|].
  split.
  { destruct (update_milestone_getattr
                clock.1.2 clock.2 (<[journey_id := written]> db)
                journey_id written written)
      as (j2 & Hj2 & Hsame); [apply lookup_insert_eq|].
    rewrite Hrun in Hj2. cbn [snd] in Hj2.
    assert (j2 = j') by congruence. subst j2.
    now rewrite Hsame. }
  split; [exact Hev|].
  rewrite Hcm, <- (core_milestone _ _ Hcore).
  destruct (highest_completed written <? 3); lia.
Qed.

Lemma committed_tool_call_evaluates_every_milestone_witness :
  exists j',
    (sentinel_functions.update_journey
       Samples.clock (Some 1) (Some "renovation_purpose") (Some "repair")
       Samples.kitchen_db).2 !! 1 = Some j'
    /\ getattr j' "renovation_purpose" = Some "repair"
    /\ fully_evaluated j'
    /\ current_milestone Samples.kitchen <= current_milestone j'.
Proof.
  apply (committed_tool_call_evaluates_every_milestone
           Samples.clock 1 "renovation_purpose" "repair"
           Samples.kitchen_db Samples.kitchen).
  - reflexivity.
  - reflexivity.
  - lia.
  - reflexivity.
  - discriminate.
Defined.

Lemma fully_is_current_evaluated (j : RenovationJourney) :
  fully_evaluated j -> current_evaluated j.
Proof.
  intros (H1 & H2 & H3 & _). unfold current_evaluated.
  repeat split; intros H; apply andb_true_iff in H as [_ H]; auto.
Qed.

(** X15: the stricter evaluator subsumes the current-milestone check: on a
    row of the session, once [update_milestone] has run, each copy of the
    completion check (crud by key, Sentinel, handler and router by object)
    finds nothing to write and leaves session and row as they are. *)
Theorem completion_check_after_update_milestone_is_void
        (t now stamp now' : Z) (j : RenovationJourney) (db : Session) :
  db !! id j = Some j ->
  exists j' db',
    sentinel_functions.update_milestone t now j db = (Some j', db')
    /\ crud.check_milestone_completion stamp now' db' (id j) = (Some j', db')
    /\ Sentinel._check_milestone_completion stamp now' j' db' = db'
    /\ JourneyHandler._check_milestone_completion stamp now' j' db' = db'
    /\ journeys.check_milestone_completion stamp now' db' j' = db'.
Proof.
  intros Hj.
  destruct (update_milestone_live_row t now j db Hj)
    as (j' & db' & Hrun & Hrow & Hid & Hev & _).
  exists j', db'. split; [exact Hrun|].
  pose proof (completion_update_data_nil
                j' stamp (fully_is_current_evaluated j' Hev)) as Hnil.
  rewrite Hid in Hrow.
  unfold crud.check_milestone_completion, crud.get_journey,
    Sentinel._check_milestone_completion,
    JourneyHandler._check_milestone_completion,
    journeys.check_milestone_completion.
  rewrite Hrow, Hnil. repeat split.
Qed.

Lemma completion_check_after_update_milestone_is_void_witness :
  exists j' db',
    sentinel_functions.update_milestone 202 203 Samples.ahead Samples.ahead_db
    = (Some j', db')
    /\ crud.check_milestone_completion 301 302 db' (id Samples.ahead)
       = (Some j', db')
    /\ Sentinel._check_milestone_completion 301 302 j' db' = db'
    /\ JourneyHandler._check_milestone_completion 301 302 j' db' = db'
    /\ journeys.check_milestone_completion 301 302 db' j' = db'.
Proof.
  apply (completion_check_after_update_milestone_is_void
           202 203 301 302 Samples.ahead Samples.ahead_db).
  reflexivity.
Defined.

Lemma router_check_is_sentinel_check (stamp now : Z) (j : RenovationJourney)
      (db : Session) :
  Sentinel._check_milestone_completion stamp now j db
  = journeys.check_milestone_completion stamp now db j.
Proof. reflexivity. Qed.

(** X17: the fallback extractor never moves a journey to another milestone:
    run on a row of the session it returns the row it leaves in the
    session, with the [current_milestone] it found and no completion flag
    lowered, and touches no other row. A message without a keyword for an
    unanswered checkpoint of the current milestone leaves journey and
    session untouched, and then no completion check is run; after a write
    the current milestone's check has been done. *)
Theorem fallback_extractor_never_advances
        (clock : Z * Z * Z) (j : RenovationJourney) (message : string)
        (db : Session) :
  db !! id j = Some j ->
  exists j' db',
    JourneyHandler._analyze_message_for_checkpoints clock j message db
    = (Some j', db')
    /\ db' !! id j = Some j'
    /\ (forall k, k <> id j -> db' !! k = db !! k)
    /\ current_milestone j' = current_milestone j
    /\ (milestone1_completed j = true -> milestone1_completed j' = true)
    /\ (milestone2_completed j = true -> milestone2_completed j' = true)
    /\ (milestone3_completed j = true -> milestone3_completed j' = true)
    /\ (JourneyHandler.extraction_update_data j message = [] ->
        j' = j /\ db' = db)
    /\ (JourneyHandler.extraction_update_data j message <> [] ->
        current_evaluated j').
Proof.
  intros Hj. rewrite (fallback_steps clock j message db Hj).
  pose proof (extraction_answer_writes j message) as Hwrites.
  destruct (JourneyHandler.extraction_update_data j message)
    as [|kv rest] eqn:Hdata.
  - exists j, db. split; [reflexivity|]. split; [exact Hj|].
    split; [reflexivity|]. split; [reflexivity|].
    split; [tauto|]. split; [tauto|]. split; [tauto|].
    split; [intros _; now split|]. intros Hne. now contradiction Hne.
  - set (data := kv :: rest) in *.
    rewrite (update_journey_some _ _ _ _ _ Hj). cbn [snd].
    set (written := setattr (crud.apply_items j data)
                            "updated_at" (PyTime clock.1.1)).
    assert (Hcore : same_core j written).
    { eapply same_core_trans; [apply (answer_writes_row data Hwrites j)|].
      apply updated_at_core. }
    assert (Hidw : id written = id j) by apply (core_id _ _ Hcore).
    assert (Hlive : <[id j := written]> db !! id written = Some written).
    { rewrite Hidw. apply lookup_insert_eq. }
    rewrite !router_check_is_sentinel_check.
    destruct (router_check_row clock.1.2 clock.2 written _ Hlive)
      as (j' & Hrow & Hframe & Hev & _ & Hcm & F1 & F2 & F3).
    rewrite Hidw in Hrow, Hframe.
    exists j'. eexists. split; [rewrite Hrow; reflexivity|].
    split; [exact Hrow|].
    split.
    { intros k Hk. rewrite Hframe by exact Hk. now apply lookup_insert_ne. }
    split; [rewrite Hcm; apply (core_milestone _ _ Hcore)|].
    rewrite F1, F2, F3, (core_flag1 _ _ Hcore), (core_flag2 _ _ Hcore),
      (core_flag3 _ _ Hcore).
    split; [now intros ->|]. split; [now intros ->|]. split; [now intros ->|].
    split; [discriminate|]. intros _. exact Hev.
Qed.

Lemma fallback_extractor_never_advances_witness :
  exists j' db',
    JourneyHandler._analyze_message_for_checkpoints
      Samples.clock Samples.kitchen "it needs repair" Samples.kitchen_db
    = (Some j', db')
    /\ db' !! id Samples.kitchen = Some j'
    /\ current_milestone j' = current_milestone Samples.kitchen.
Proof.
  destruct (fallback_extractor_never_advances
              Samples.clock Samples.kitchen "it needs repair"
              Samples.kitchen_db)
    as (j' & db' & Hrun & Hrow & _ & Hcm & _); [reflexivity|].
  exists j', db'. auto.
Defined.

(* ===================================================================== *)
(** ** The normalizer and the keyword tables *)
(* ===================================================================== *)

Lemma append_nil (b : string) : String.append "" b = b.
Proof. reflexivity. Qed.

Lemma append_cons (x : ascii) (a b : string) :
  String.append (String x a) b = String x (String.append a b).
Proof. reflexivity. Qed.

Lemma string_app_assoc (a b c : string) :
  String.append (String.append a b) c = String.append a (String.append b c).
Proof.
  induction a as [|x a IH]; [reflexivity|].
  now rewrite !append_cons, IH.
Qed.

Lemma prefix_app_iff (needle hay : string) :
  String.prefix needle hay = true
  <-> exists rest, hay = String.append needle rest.
Proof.
  revert hay. induction needle as [|x needle IH]; intros hay.
  - split; [intros _; now exists hay | intros _; now destruct hay].
  - destruct hay as [|y hay].
    + split; [discriminate | intros [rest Hrest]; discriminate].
    + change (String.prefix (String x needle) (String y hay))
        with (if Ascii.ascii_dec x y then String.prefix needle hay else false).
      destruct (Ascii.ascii_dec x y) as [-> | Hne].
      * rewrite IH. split; intros [rest Hrest]; exists rest.
        -- now rewrite append_cons, Hrest.
        -- rewrite append_cons in Hrest. congruence.
      * split; [discriminate|]. intros [rest Hrest].
        rewrite append_cons in Hrest. congruence.
Qed.

Lemma contains_iff (needle hay : string) :
  PyStr.contains needle hay = true
  <-> exists before rest,
      hay = String.append before (String.append needle rest).
Proof.
  induction hay as [|y hay IH].
  - cbn [PyStr.contains]. rewrite orb_false_r, prefix_app_iff. split.
    + intros [rest Hrest]. now exists EmptyString, rest.
    + intros (before & rest & Heq). destruct before; [now exists rest|].
      discriminate Heq.
  - cbn [PyStr.contains]. rewrite orb_true_iff, prefix_app_iff, IH. split.
    + intros [[rest Hrest] | (before & rest & Heq)].
      * now exists EmptyString, rest.
      * exists (String y before), rest. now rewrite append_cons, Heq.
    + intros (before & rest & Heq). destruct before as [|x before].
      * left. now exists rest.
      * right. rewrite append_cons in Heq. exists before, rest. congruence.
Qed.

Lemma contains_suffix (a b hay : string) :
  PyStr.contains (String.append a b) hay = true ->
  PyStr.contains b hay = true.
Proof.
  rewrite !contains_iff. intros (before & rest & Heq).
  exists (String.append before a), rest.
  now rewrite Heq, !string_app_assoc.
Qed.

(** X18: the room normalizer never answers "master bedroom" or "guest
    bedroom": both stand behind "bedroom" in the list of valid rooms, and a
    text that contains one of them contains "bedroom". *)
Theorem room_normalizer_never_returns_compound_bedrooms (value : string) :
  Sentinel._validate_checkpoint_value "room" value <> "master bedroom"
  /\ Sentinel._validate_checkpoint_value "room" value <> "guest bedroom".
Proof.
  unfold Sentinel._validate_checkpoint_value.
  set (v := PyStr.lower (PyStr.strip value)). cbv zeta.
  cbn [String.eqb Ascii.eqb Bool.eqb].
  assert (Hmaster : PyStr.contains "master bedroom" v = true ->
                    PyStr.contains "bedroom" v = true)
    by apply (contains_suffix "master " "bedroom").
  assert (Hguest : PyStr.contains "guest bedroom" v = true ->
                   PyStr.contains "bedroom" v = true)
    by apply (contains_suffix "guest " "bedroom").
  destruct (Sentinel.first_in Sentinel.valid_rooms v) as [room|] eqn:Hfirst.
  - revert Hfirst. unfold Sentinel.valid_rooms. cbn [Sentinel.first_in].
    repeat match goal with
           | |- context [if PyStr.contains ?w v then _ else _] =>
               destruct (PyStr.contains w v) eqn:?
           end;
      intros [= <-]; split; try discriminate;
      intros _;
      try (specialize (Hmaster eq_refl); discriminate Hmaster);
      try (specialize (Hguest eq_refl); discriminate Hguest).
  - split; intros ->; vm_compute in Hfirst; discriminate Hfirst.
Qed.

(** X19: normalizing twice is normalizing once for [budget_range] and
    [timeline], whatever the value; not so for the two other closed
    vocabularies: "contemporary" and "space" are answers of the normalizer
    that it maps to "modern" and "storage" when they are normalized again,
    "space" being the default of [priority_feature]. *)
Theorem normalizer_is_idempotent_on_budget_and_timeline :
  (forall value,
      Sentinel._validate_checkpoint_value
        "budget_range" (Sentinel._validate_checkpoint_value "budget_range" value)
      = Sentinel._validate_checkpoint_value "budget_range" value)
  /\ (forall value,
         Sentinel._validate_checkpoint_value
           "timeline" (Sentinel._validate_checkpoint_value "timeline" value)
         = Sentinel._validate_checkpoint_value "timeline" value)
  /\ (Sentinel._validate_checkpoint_value "style_preference" "current trends"
      = "contemporary"
      /\ Sentinel._validate_checkpoint_value "style_preference" "contemporary"
         = "modern")
  /\ (Sentinel._validate_checkpoint_value "priority_feature" "" = "space"
      /\ Sentinel._validate_checkpoint_value "priority_feature" "space"
         = "storage").
Proof.
  split; [|split; [|split; split; vm_compute; reflexivity]].
  - intros value.
    assert (Hin : In (Sentinel._validate_checkpoint_value "budget_range" value)
                     ["low"; "medium"; "high"]).
    { apply (validate_in_vocabulary "budget_range"). cbn. tauto. }
    remember (Sentinel._validate_checkpoint_value "budget_range" value) as r.
    destruct Hin as [<- | [<- | [<- | []]]]; vm_compute; reflexivity.
  - intros value.
    assert (Hin : In (Sentinel._validate_checkpoint_value "timeline" value)
                     ["weeks"; "months"]).
    { apply (validate_in_vocabulary "timeline"). cbn. tauto. }
    remember (Sentinel._validate_checkpoint_value "timeline" value) as r.
    destruct Hin as [<- | [<- | []]]; vm_compute; reflexivity.
Qed.


Lemma scan_items (keywords : list (string * string)) (text : string)
      (field : option string) (key name : string) (v : PyVal) :
  In (name, v) (JourneyHandler.scan keywords text field key) ->
  name = key
  /\ exists keyword value, In (keyword, value) keywords /\ v = PyStr value.
Proof.
  induction keywords as [|[keyword value] rest IH];
    cbn [JourneyHandler.scan]; [intros []|].
  destruct (PyStr.contains keyword text && negb (PyStr.truthy field)).
  - intros [[= <- <-] | []]. split; [reflexivity|].
    exists keyword, value. split; [now left | reflexivity].
  - intros H. destruct (IH H) as (Hname & kw & val & Hin & Hv).
    split; [exact Hname|]. exists kw, val. split; [now right | exact Hv].
Qed.

(** X20: what the fallback extractor writes is a text for a checkpoint of
    the current milestone; for every checkpoint but [priority_feature] the
    text is one the Sentinel's normalizer knows (a valid room, a valid
    purpose, a member of the closed vocabulary); for [priority_feature] it
    is "energy efficiency" or a text outside the closed vocabulary. *)
Theorem fallback_values_and_the_vocabulary
        (journey : RenovationJourney) (message name : string) (v : PyVal) :
  In (name, v) (JourneyHandler.extraction_update_data journey message) ->
  exists value,
    v = PyStr value
    /\ in_current_milestone journey name = true
    /\ (name <> "priority_feature" -> In value (vocabulary name))
    /\ (name = "priority_feature" ->
        value = "energy efficiency" \/ ~ In value (vocabulary name)).
Proof.
  unfold JourneyHandler.extraction_update_data, in_current_milestone.
  cbv zeta. intros H.
  assert (Hscan :
            exists key keywords field,
              In (key, keywords)
                 [("room", JourneyHandler.room_keywords);
                  ("renovation_purpose", JourneyHandler.purpose_keywords);
                  ("budget_range", JourneyHandler.budget_keywords);
                  ("timeline", JourneyHandler.timeline_keywords);
                  ("style_preference", JourneyHandler.style_keywords);
                  ("priority_feature", JourneyHandler.feature_keywords)]
              /\ PyStr.mem key (Sentinel._get_valid_checkpoints_for_milestone
                                  (current_milestone journey)) = true
              /\ In (name, v)
                    (JourneyHandler.scan keywords (PyStr.lower message)
                                         field key)).
  { destruct (Z.eqb_spec (current_milestone journey) 1) as [-> | ?].
    { apply in_app_iff in H as [H | H]; do 3 eexists;
        (split; [|split; [|exact H]]); cbn; tauto. }
    destruct (Z.eqb_spec (current_milestone journey) 2) as [-> | ?].
    { apply in_app_iff in H as [H | H]; do 3 eexists;
        (split; [|split; [|exact H]]); cbn; tauto. }
    destruct (Z.eqb_spec (current_milestone journey) 3) as [-> | ?].
    { apply in_app_iff in H as [H | H]; do 3 eexists;
        (split; [|split; [|exact H]]); cbn; tauto. }
    destruct H. }
  destruct Hscan as (key & keywords & field & Htable & Hmem & Hin).
  apply scan_items in Hin as (-> & kw & value & Hin & ->).
  exists value. split; [reflexivity|]. split; [exact Hmem|]. clear Hmem H.
  cbn [In] in Htable.
  repeat (destruct Htable as [[= <- <-] | Htable]); try contradiction;
    cbn in Hin;
    repeat (destruct Hin as [[= <- <-] | Hin]); try contradiction;
    (split; [intros Hne; try (now contradiction Hne); vm_compute; tauto
            |intros Heq; try discriminate Heq]).
  all: try (left; reflexivity).
  all: right; vm_compute; intuition discriminate.
Qed.

Lemma fallback_values_and_the_vocabulary_witness :
  exists value,
    PyStr "repair" = PyStr value
    /\ in_current_milestone Samples.kitchen "renovation_purpose" = true
    /\ ("renovation_purpose" <> "priority_feature" ->
        In value (vocabulary "renovation_purpose"))
    /\ ("renovation_purpose" = "priority_feature" ->
        value = "energy efficiency"
        \/ ~ In value (vocabulary "renovation_purpose")).
Proof.
  apply (fallback_values_and_the_vocabulary
           Samples.kitchen "it needs repair" "renovation_purpose"
           (PyStr "repair")).
  vm_compute. tauto.
Defined.

(* ===================================================================== *)
(** ** The journey state handed to the model *)
(* ===================================================================== *)

(** X21: the two computations of a user's journey state agree on
    [has_journey], [milestone] and [milestone_completed]; the one of crud.py
    lists every answered checkpoint of the journey, the endpoint's lists
    what the chat handler reports, the answered checkpoints of the current
    milestone only, which are the entries of the crud list that belong to
    the current milestone. Without an active journey both are empty. *)
Theorem journey_state_views (active : option RenovationJourney) :
  let by_crud := CrudOps.get_journey_state_for_llm active in
  let by_router := journeys.get_journey_state active in
  models.has_journey by_crud = models.has_journey by_router
  /\ models.milestone by_crud = models.milestone by_router
  /\ models.milestone_completed by_crud = models.milestone_completed by_router
  /\ match active with
     | None =>
         models.completed_checkpoints by_crud = []
         /\ models.completed_checkpoints by_router = []
         /\ models.has_journey by_router = false
     | Some journey =>
         models.completed_checkpoints by_crud
         = List.filter (fun name => PyStr.truthy (getattr journey name))
                       sentinel_functions.valid_checkpoints
         /\ models.completed_checkpoints by_router
            = JourneyHandler._get_completed_checkpoints journey
         /\ models.completed_checkpoints by_router
            = List.filter (in_current_milestone journey)
                          (models.completed_checkpoints by_crud)
         /\ models.milestone by_router = Some (current_milestone journey)
     end.
Proof.
  destruct active as [journey|]; cbv zeta; [|now repeat split].
  unfold CrudOps.get_journey_state_for_llm, journeys.get_journey_state,
    JourneyHandler._get_completed_checkpoints, in_current_milestone,
    Sentinel._get_valid_checkpoints_for_milestone.
  destruct journey as [i u cm st r rp m1 m1a b tl m2 m2a s p m3 m3a ca ua].
  cbn [current_milestone room renovation_purpose budget_range timeline
       style_preference priority_feature milestone1_completed
       milestone2_completed milestone3_completed
       models.has_journey models.milestone models.milestone_completed
       models.completed_checkpoints].
  split; [reflexivity|]. split; [reflexivity|].
  split.
  { destruct (Z.eqb_spec cm 1) as [-> | ?]; [now destruct m1|].
    destruct (Z.eqb_spec cm 2) as [-> | ?]; [now destruct m2|].
    destruct (Z.eqb_spec cm 3) as [-> | ?]; [now destruct m3 | reflexivity]. }
  split.
  { cbn. destruct (PyStr.truthy r), (PyStr.truthy rp), (PyStr.truthy b),
      (PyStr.truthy tl), (PyStr.truthy s), (PyStr.truthy p); reflexivity. }
  split; [reflexivity|]. split; [|reflexivity].
  destruct (Z.eqb_spec cm 1) as [-> | ?];
    [|destruct (Z.eqb_spec cm 2) as [-> | ?];
      [|destruct (Z.eqb_spec cm 3) as [-> | ?]]];
    cbn;
    destruct (PyStr.truthy r), (PyStr.truthy rp), (PyStr.truthy b),
      (PyStr.truthy tl), (PyStr.truthy s), (PyStr.truthy p); reflexivity.
Qed.

(* ===================================================================== *)
(** ** The Sentinel's analysis as a sequence of operations *)
(* ===================================================================== *)

Lemma tool_calls_evolve (journey : Sentinel.JourneyObject)
      (calls : list Sentinel.ToolCall) (db0 db : Session) :
  evolves db0 db ->
  evolves db0 (fold_left (Sentinel.handle_object_call journey) calls db).
Proof.
  revert db. induction calls as [|call calls IH]; intros db Hev; [exact Hev|].
  cbn [fold_left]. apply IH. eapply ev_step; [exact Hev|].
  unfold Sentinel.handle_object_call. apply t_tool_call.
Qed.

Lemma analyze_session (out : Sentinel.Outside)
      (journey : Sentinel.JourneyObject)
      (recent_messages : list Message) (db : Session) :
  (Sentinel.analyze out journey recent_messages db).2
  = after_calls out journey db.
Proof.
  unfold Sentinel.analyze, try_except. rewrite analyze_try_cases. cbv zeta.
  destruct (Sentinel.prologue_error out), (Sentinel.commit_error out),
    (Sentinel.refetch_error out);
    rewrite ?analyze_except_cases; try reflexivity.
  destruct (after_calls out journey db !! Sentinel.object_id journey), journey;
    rewrite ?analyze_except_cases; reflexivity.
Qed.

(** X22: whatever the model answers and whichever of the model call, the
    commits, the re-fetch and the reads of the journey fails, the session
    [Sentinel.analyze] leaves is the one the [update_journey] tool handler
    produces from the session it found, run once per issued call and in
    their order, with [journey.id] standing in for a missing [journey_id]
    argument; it is therefore reached by modelled operations alone; without
    a call, or when reading the journey fails before the model call, the
    session is left as it is. *)
Theorem analyze_session_evolves
        (out : Sentinel.Outside) (journey : Sentinel.JourneyObject)
        (recent_messages : list Message) (db : Session) :
  (Sentinel.analyze out journey recent_messages db).2
  = match Sentinel.prologue_error out with
    | Some _ => db
    | None =>
        fold_left
          (fun db call =>
             (sentinel_functions.update_journey
                (Sentinel.call_clock call)
                (match Sentinel.arg_journey_id call with
                 | Some journey_id => journey_id
                 | None => Some (Sentinel.object_id journey)
                 end)
                (Sentinel.arg_checkpoint_name call)
                (Sentinel.arg_value call) db).2)
          (Sentinel.llm_tool_calls out) db
    end
  /\ evolves db (Sentinel.analyze out journey recent_messages db).2
  /\ (Sentinel.llm_tool_calls out = [] ->
      (Sentinel.analyze out journey recent_messages db).2 = db).
Proof.
  rewrite analyze_session. unfold after_calls.
  split; [reflexivity|].
  destruct (Sentinel.prologue_error out).
  - split; [apply ev_refl | reflexivity].
  - split; [apply tool_calls_evolve, ev_refl | intros ->; reflexivity].
Qed.
